(** * SAM-UN: incident store, layer store, aggregation and insights

    A shallow embedding of the request handlers of [app.py] and of the
    store functions of [supabase_client.py].

    Conventions of the embedding.
    - A Python value that comes out of JSON is a [json]; a Python [dict]
      is an association list in insertion order ([dict]).
    - A Python [str] is a [string], one [ascii] per character: the model
      covers texts whose characters are below code point 256.
    - A Python [float] is a primitive binary64 [float]; a Python [int] is
      a [Z].
    - A call that may raise returns a [res]; a handler returns a
      [response] (a JSON body and an HTTP status).
    - What the Python libraries do is collected in [runtime]; how the
      hosted services answer during a request is collected in [env] (table
      and bucket) and in [llm_env] (model provider). The stores
      themselves are the fields of [world].
    - A handler that reads [request.json] is given what that call
      returns: a JSON object, or [None] for a body that is the JSON value
      null. A request without a JSON body does not reach the code of the
      handler: [request.json] raises and the framework answers with an
      error of its own (415). A row of the table is a dictionary. *)

From Stdlib Require Import ZArith List String Ascii Bool Lia Floats Sorted Permutation.
From stdpp Require Import base option list sorting gmap strings pretty.
Import ListNotations.

Set Warnings "-inexact-float,-register-all".
Local Open Scope Z_scope.

(** ** Python values *)

Inductive json : Type :=
| JNull
| JBool (b : bool)
| JInt (z : Z)
| JFloat (f : float)
| JStr (s : string)
| JArr (l : list json)
| JObj (d : list (string * json)).

Abbreviation dict := (list (string * json)).

Inductive exn : Type :=
| ValueError | TypeError | OverflowError | AttributeError | KeyError
| ZeroDivisionError | JSONDecodeError | OtherError.

Inductive res (A : Type) : Type :=
| Ok (a : A)
| Raise (e : exn).
Arguments Ok {A} a.
Arguments Raise {A} e.

#[global] Instance res_ret : MRet res := fun A a => Ok a.

#[global] Instance res_bind : MBind res := fun A B k m =>
  match m with Ok a => k a | Raise e => Raise e end.

Record response := Response { body : json; http : Z }.

Module Dict.

(** [d[k]] when the key is there. *)
Fixpoint get (d : dict) (k : string) : option json :=
  match d with
  | [] => None
  | (k', v) :: d' => if String.eqb k k' then Some v else get d' k
  end.

(** [d.get(k)]: [None] for a missing key. *)
Definition get_none (d : dict) (k : string) : json :=
  match get d k with Some v => v | None => JNull end.

(** [d.get(k, dflt)]. *)
Definition get_default (d : dict) (k : string) (dflt : json) : json :=
  match get d k with Some v => v | None => dflt end.

(** [k in d]. *)
Definition has (d : dict) (k : string) : bool :=
  match get d k with Some _ => true | None => false end.

(** [d[k] = v]: an existing key keeps its place, a new one goes last. *)
Fixpoint set (d : dict) (k : string) (v : json) : dict :=
  match d with
  | [] => [(k, v)]
  | (k', v') :: d' =>
      if String.eqb k k' then (k', v) :: d' else (k', v') :: set d' k v
  end.

Definition keys (d : dict) : list string := map fst d.

End Dict.

(** Truth value of a Python object ([if x], [x or y], [not x]). *)
Definition truthy (j : json) : bool :=
  match j with
  | JNull => false
  | JBool b => b
  | JInt z => negb (z =? 0)
  | JFloat f => negb (PrimFloat.eqb f 0)
  | JStr s => negb (String.eqb s "")
  | JArr l => match l with [] => false | _ => true end
  | JObj d => match d with [] => false | _ => true end
  end.

(** [a or b]. *)
Definition py_or (a b : json) : json := if truthy a then a else b.

(** [x is None]. *)
Definition is_none (j : json) : bool :=
  match j with JNull => true | _ => false end.

(** ** Strings *)

Module Str.

(** [c.lower()] for one character below code point 256. *)
Definition lower_char (c : ascii) : ascii :=
  let n := nat_of_ascii c in
  if ((65 <=? n) && (n <=? 90))%nat then ascii_of_nat (n + 32)
  else if ((192 <=? n) && (n <=? 222) && negb (n =? 215))%nat
       then ascii_of_nat (n + 32)
  else c.

(** [s.lower()]. *)
Fixpoint lower (s : string) : string :=
  match s with
  | EmptyString => EmptyString
  | String c s' => String (lower_char c) (lower s')
  end.

(** [c.isspace()]. *)
Definition isspace (c : ascii) : bool :=
  let n := nat_of_ascii c in
  (((9 <=? n) && (n <=? 13)) || ((28 <=? n) && (n <=? 32))
   || (n =? 133) || (n =? 160))%nat.

Fixpoint lstrip (s : string) : string :=
  match s with
  | EmptyString => EmptyString
  | String c s' => if isspace c then lstrip s' else s
  end.

(** Drops trailing white space: a character stays when something that
    is not white space follows or when it is not white space itself. *)
Fixpoint rstrip (s : string) : string :=
  match s with
  | EmptyString => EmptyString
  | String c s' =>
      match rstrip s' with
      | EmptyString => if isspace c then EmptyString else String c EmptyString
      | t => String c t
      end
  end.

(** [s.strip()]. *)
Definition strip (s : string) : string := rstrip (lstrip s).

(** [s.startswith(p)]. *)
Definition startswith (s p : string) : bool := String.prefix p s.

(** [sub in s]. *)
Fixpoint contains (s sub : string) : bool :=
  String.prefix sub s
  || match s with
     | EmptyString => false
     | String _ s' => contains s' sub
     end.

(** [s.split(sep)] for a one-character separator. *)
Fixpoint split (sep : ascii) (s : string) : list string :=
  match s with
  | EmptyString => [EmptyString]
  | String c s' =>
      if Ascii.eqb c sep then EmptyString :: split sep s'
      else match split sep s' with
           | [] => [String c EmptyString]
           | w :: ws => String c w :: ws
           end
  end.

(** [s.replace(c, '')] for a one-character [c]. *)
Fixpoint remove_char (c : ascii) (s : string) : string :=
  match s with
  | EmptyString => EmptyString
  | String c' s' =>
      if Ascii.eqb c' c then remove_char c s' else String c' (remove_char c s')
  end.

(** [sep.join(parts)]. *)
Fixpoint join (sep : string) (parts : list string) : string :=
  match parts with
  | [] => EmptyString
  | [p] => p
  | p :: ps => p +:+ sep +:+ join sep ps
  end.

(** [s[:n]]. *)
Definition take (n : nat) (s : string) : string := String.substring 0 n s.

End Str.

(** ** Floats *)

Module Flt.

(** [float(n)] for an [int]: nearest binary64, [OverflowError] past the
    largest one. *)
Definition of_Z (z : Z) : option float :=
  let f := SF2Prim (binary_normalize prec emax z 0 false) in
  if PrimFloat.is_infinity f then None else Some f.

(** The integer nearest to [m * 2^e], ties to the even one ([0 <= m]). *)
Definition round_half_even (m e : Z) : Z :=
  if 0 <=? e then m * 2 ^ e
  else
    let d := 2 ^ (- e) in
    let q := m / d in
    let r := m mod d in
    match 2 * r ?= d with
    | Lt => q
    | Gt => q + 1
    | Eq => if Z.even q then q else q + 1
    end.

(** [round(x)] with one argument: an [int]; raises on infinities
    ([OverflowError]) and on NaN ([ValueError]). *)
Definition round (x : float) : res Z :=
  match Prim2SF x with
  | S754_zero _ => Ok 0
  | S754_finite s m e =>
      let n := round_half_even (Z.pos m) e in
      Ok (if s then - n else n)
  | S754_infinity _ => Raise OverflowError
  | S754_nan => Raise ValueError
  end.

(** [a / b] on floats. *)
Definition truediv (a b : float) : res float :=
  if PrimFloat.eqb b 0 then Raise ZeroDivisionError else Ok (a / b)%float.

(** [n * x] for an [int] and a [float]. *)
Definition int_mul (n : Z) (x : float) : res float :=
  match of_Z n with
  | Some nf => Ok (nf * x)%float
  | None => Raise OverflowError
  end.

(** The integer a float is equal to, when there is one. *)
Definition exact_Z (x : float) : option Z :=
  match Prim2SF x with
  | S754_zero _ => Some 0
  | S754_finite s m e =>
      if 0 <=? e then Some ((if s then -1 else 1) * (Z.pos m * 2 ^ e))
      else if Z.pos m mod 2 ^ (- e) =? 0
           then Some ((if s then -1 else 1) * (Z.pos m / 2 ^ (- e)))
           else None
  | _ => None
  end.

(** [x % d] for a float [x] and a positive [int] [d]: the C [fmod], which
    is exact, moved into [0, d) by one rounded addition; NaN for an
    infinite or NaN [x]. *)
Definition mod_pos (x : float) (d : Z) : res float :=
  match of_Z d with
  | None => Raise OverflowError
  | Some df =>
      match Prim2SF x with
      | S754_zero _ => Ok 0%float
      | S754_finite s m e =>
          let r :=
            if 0 <=? e
            then SF2Prim (binary_normalize prec emax ((Z.pos m * 2 ^ e) mod d) 0 false)
            else SF2Prim (binary_normalize prec emax
                            (Z.pos m mod (d * 2 ^ (- e))) e false) in
          if PrimFloat.eqb r 0 then Ok 0%float
          else if s then Ok (- r + df)%float
          else Ok r
      | _ => Ok nan
      end
  end.

(** Two floats print alike (same [repr]): the same value with the same
    sign of zero, or two NaNs. *)
Definition printed (x : float) : spec_float := Prim2SF x.

Definition sf_eqb (a b : spec_float) : bool :=
  match a, b with
  | S754_zero s, S754_zero s' => Bool.eqb s s'
  | S754_infinity s, S754_infinity s' => Bool.eqb s s'
  | S754_nan, S754_nan => true
  | S754_finite s m e, S754_finite s' m' e' =>
      Bool.eqb s s' && (m =? m')%positive && (e =? e')
  | _, _ => false
  end.

End Flt.

(** ** Library functions the handlers call

    [str_to_float s] is [float(s)] on a string ([None]: [ValueError]);
    [iso_day s] is [datetime.fromisoformat(s).date().isoformat()]
    ([None]: it raises); [json_loads] is [json.loads] ([None]:
    [JSONDecodeError]); [re_findall p s] is
    [re.findall(p, s, re.DOTALL | re.IGNORECASE)] for the four patterns of
    [parse_text_response_to_insights]; [repr] is [str(x)] for a value that
    is not a string; [timestamp_in] is the store's reading of a timestamp
    literal ([None]: the store rejects the literal). *)

Inductive json_pattern : Type :=
| FencedJson       (* ```json\s*(\{.*?\})\s*``` *)
| FencedAny        (* ```\s*(\{.*?\})\s*``` *)
| PatternsNested   (* (\{[^{}]*"patterns"[^{}]*\{.*?\}[^{}]*\}) *)
| PatternsSimple.  (* (\{.*?"patterns".*?\}) *)

Record runtime := Runtime {
  str_to_float : string -> option float;
  iso_day : string -> option string;
  json_loads : string -> option json;
  re_findall : json_pattern -> string -> list string;
  repr : json -> string;
  timestamp_in : string -> option Z
}.

(** ** Sorting

    [sorted(l, key=..., reverse=...)] and [list.sort] are stable. With
    [before y x] saying that [y] goes strictly before [x], an element is
    put in front of the first one it does not have to follow, so equal
    elements keep their order. *)

Fixpoint insert_sorted {A} (before : A -> A -> bool) (x : A) (l : list A)
  : list A :=
  match l with
  | [] => [x]
  | y :: l' =>
      if before y x then y :: insert_sorted before x l' else x :: y :: l'
  end.

Definition stable_sort {A} (before : A -> A -> bool) (l : list A) : list A :=
  fold_right (insert_sorted before) [] l.

(** [a] may stand in front of [b]: [b] does not have to go first. *)
Definition in_order {A} (before : A -> A -> bool) (a b : A) : Prop :=
  before b a = false.



(** ** Heat map: [api_sitreps_heatmap] *)

Record heat_row := HeatRow {
  hr_lat : float;
  hr_lon : float;
  hr_severity : json;
  hr_source_category : json;
  hr_weight : Z
}.

Record cell := Cell {
  c_lat : float;
  c_lon : float;
  c_count : Z;
  c_weight : Z
}.

Record heat_point := HeatPoint {
  hp_lat : float;
  hp_lng : float;
  hp_intensity : float;
  hp_count : Z;
  hp_weight : Z
}.

Record heatmap := Heatmap {
  heatPoints : list heat_point;
  totalIncidents : Z;
  gridSize : float;
  criticalAreas : list heat_point
}.

(** The text [f"{grid_lat},{grid_lon}"]: two keys are the same text when
    both floats print alike. *)
Abbreviation grid_key := (spec_float * spec_float)%type.

Definition key_eqb (a b : grid_key) : bool :=
  Flt.sf_eqb (fst a) (fst b) && Flt.sf_eqb (snd a) (snd b).

Abbreviation grid_data := (list (grid_key * cell)).

(** The [if]/[elif] chain on the lowered severity. *)
Definition severity_weight (severity : string) : Z :=
  if String.eqb severity "critical" then 5
  else if String.eqb severity "high" then 4
  else if String.eqb severity "medium" then 3
  else if String.eqb severity "low" then 2
  else 1.

(** [x.lower()]: only a string has the method. *)
Definition py_lower (j : json) : res string :=
  match j with
  | JStr s => Ok (Str.lower s)
  | _ => Raise AttributeError
  end.

(** [grid_data[k]]. *)
Fixpoint grid_find (gd : grid_data) (k : grid_key) : option cell :=
  match gd with
  | [] => None
  | (k', c) :: gd' => if key_eqb k k' then Some c else grid_find gd' k
  end.

(** The cell of [k] is created with zero count and weight when the key is
    new, then [count += 1] and [weight += w]. The tallies [sources] and
    [severity_breakdown] of a cell are updated after these two fields and
    do not change them; they are left out. *)
Fixpoint grid_bump (gd : grid_data) (k : grid_key) (glat glon : float) (w : Z)
  : grid_data :=
  match gd with
  | [] => [(k, Cell glat glon (0 + 1) (0 + w))]
  | (k', c) :: gd' =>
      if key_eqb k k'
      then (k', Cell (c_lat c) (c_lon c) (c_count c + 1) (c_weight c + w)) :: gd'
      else (k', c) :: grid_bump gd' k glat glon w
  end.

(** [round(x / grid_size)]. *)
Definition grid_index (x g : float) : res Z :=
  q ← Flt.truediv x g; Flt.round q.

(** [round(x / grid_size) * grid_size]. *)
Definition grid_coord (x g : float) : res float :=
  n ← grid_index x g; Flt.int_mul n g.

(** The index behind a printed multiple of the default grid size. *)
Definition index_of_printed (p : spec_float) : res Z :=
  grid_index (SF2Prim p) 0.1.

(** The indices of the default grid on which [index_of_printed] is checked
    to undo the multiplication: 1800 tenths of a degree each way. *)
Definition default_indices : list Z :=
  map (fun k => Z.of_nat k - 1800) (seq 0 3601).

Definition index_recovered (n : Z) : bool :=
  match Flt.int_mul n 0.1 with
  | Ok x =>
      match index_of_printed (Flt.printed x) with
      | Ok n' => n' =? n
      | Raise _ => false
      end
  | Raise _ => false
  end.

Definition grid_point (g : float) (r : heat_row) : res (float * float) :=
  glat ← grid_coord (hr_lat r) g;
  glon ← grid_coord (hr_lon r) g;
  Ok (glat, glon).

Definition grid_key_of (p : float * float) : grid_key :=
  (Flt.printed (fst p), Flt.printed (snd p)).

(** One turn of the aggregation loop; a row whose rounding raises is
    skipped by the inner [except]. *)
Definition grid_step (g : float) (gd : grid_data) (r : heat_row) : grid_data :=
  match grid_point g r with
  | Ok p => grid_bump gd (grid_key_of p) (fst p) (snd p) (hr_weight r)
  | Raise _ => gd
  end.

Definition grid_aggregate (g : float) (rows : list heat_row) : grid_data :=
  fold_left (grid_step g) rows [].

(** [min(data['weight'] / 10.0, 1.0)] and the point of a cell; a cell
    whose point raises is skipped. *)
Definition heat_point_of (c : cell) : option heat_point :=
  match Flt.of_Z (c_weight c) with
  | Some wf =>
      let x := (wf / 10)%float in
      let intensity := if PrimFloat.ltb 1 x then 1%float else x in
      Some (HeatPoint (c_lat c) (c_lon c) intensity (c_count c) (c_weight c))
  | None => None
  end.

Definition heat_points_of (gd : grid_data) : list heat_point :=
  stable_sort (fun y x => PrimFloat.ltb (hp_intensity x) (hp_intensity y))
    (omap (fun kc => heat_point_of (snd kc)) gd).

(** The key under which the aggregation loop files a row, when the row
    is not skipped. *)
Definition bucket_of (g : float) (r : heat_row) : option grid_key :=
  match grid_point g r with
  | Ok p => Some (grid_key_of p)
  | Raise _ => None
  end.

Definition in_bucket (g : float) (k : grid_key) (r : heat_row) : bool :=
  match bucket_of g r with
  | Some k' => key_eqb k k'
  | None => false
  end.

Definition count_of (o : option cell) : Z :=
  match o with Some c => c_count c | None => 0 end.

Definition weight_of (o : option cell) : Z :=
  match o with Some c => c_weight c | None => 0 end.

Definition sum_weights (rows : list heat_row) : Z :=
  fold_right (fun r acc => hr_weight r + acc) 0 rows.

(** Every cell sits under the key of its own coordinates. *)
Definition keyed (gd : grid_data) : Prop :=
  forall k c, grid_find gd k = Some c -> k = grid_key_of (c_lat c, c_lon c).

Section Heatmap.

Variable rt : runtime.

(** [float(x)]. *)
Definition py_float (j : json) : res float :=
  match j with
  | JFloat f => Ok f
  | JInt z =>
      match Flt.of_Z z with Some f => Ok f | None => Raise OverflowError end
  | JBool b => Ok (if b then 1%float else 0%float)
  | JStr s =>
      match str_to_float rt s with Some f => Ok f | None => Raise ValueError end
  | _ => Raise TypeError
  end.

(** One turn of the first loop: [Ok None] is [continue]. *)
Definition heat_row_of (sitrep : dict) : res (option heat_row) :=
  let lat := Dict.get_none sitrep "lat" in
  let lon := Dict.get_none sitrep "lon" in
  if is_none lat || is_none lon then Ok None
  else
    match (latf ← py_float lat; lonf ← py_float lon; Ok (latf, lonf)) with
    | Raise ValueError | Raise TypeError => Ok None
    | Raise e => Raise e
    | Ok (latf, lonf) =>
        severity ← py_lower (py_or (Dict.get_none sitrep "severity")
                                   (JStr "unknown"));
        Ok (Some (HeatRow latf lonf
                    (Dict.get_none sitrep "severity")
                    (Dict.get_none sitrep "source_category")
                    (severity_weight severity)))
    end.

Fixpoint heat_rows (sitreps : list dict) : res (list heat_row) :=
  match sitreps with
  | [] => Ok []
  | s :: rest =>
      r ← heat_row_of s;
      rows ← heat_rows rest;
      Ok (match r with Some row => row :: rows | None => rows end)
  end.

(** [float(request.args.get('gridSize', 0.1))]. *)
Definition grid_size_of (arg : option string) : res float :=
  match arg with
  | None => Ok 0.1%float
  | Some s =>
      match str_to_float rt s with Some f => Ok f | None => Raise ValueError end
  end.

(** The handler after the rows were fetched: [sitreps] is what
    [get_sitreps] returned, [arg] the [gridSize] query parameter. A
    [Raise] is the 500 answer of one of the two outer [except]s. *)
Definition api_sitreps_heatmap (sitreps : list dict) (arg : option string)
  : res heatmap :=
  rows ← heat_rows sitreps;
  g ← grid_size_of arg;
  let points := heat_points_of (grid_aggregate g rows) in
  Ok (Heatmap points (Z.of_nat (length rows)) g (take 10 points)).

End Heatmap.

(** ** The stores

    The hosted table [sitreps], the hosted bucket [Geojson] (path to
    document), the local directory [geojson_dir] (file name to content)
    and the SQLite database at [DB_PATH] ([None]: no table [sitreps] can
    be opened there). *)

Inductive file : Type :=
| Garbage            (* text that [json.load] rejects *)
| Doc (j : json).    (* a JSON document *)

Record world := World {
  w_table : list dict;
  w_bucket : gmap string json;
  w_files : gmap string file;
  w_sqlite : option (list dict)
}.

(** How the hosted services answer during one request. *)

Inductive storage_mode : Type :=
| StorageUp       (* the bucket calls go through *)
| StorageDenied   (* a bucket write raises a [StorageException] *)
| StorageDown.    (* no storage client, or the call raises *)

Inductive db_mode : Type :=
| DbUp            (* the table calls go through and return the rows *)
| DbSilent        (* an insert returns no row *)
| DbDown.         (* the call raises *)

Record env := Env {
  storage : storage_mode;
  bucket_ready : bool;      (* [ensure_layers_bucket()] *)
  db : db_mode;
  db_now : string;          (* the store's [now()] *)
  exn_text : string         (* [str(e)] of a raised exception *)
}.

Definition set_bucket (w : world) (b : gmap string json) : world :=
  World (w_table w) b (w_files w) (w_sqlite w).

Definition set_files (w : world) (f : gmap string file) : world :=
  World (w_table w) (w_bucket w) f (w_sqlite w).

Definition set_table (w : world) (t : list dict) : world :=
  World t (w_bucket w) (w_files w) (w_sqlite w).

Definition set_sqlite (w : world) (t : option (list dict)) : world :=
  World (w_table w) (w_bucket w) (w_files w) t.

(** ** Layers: [supabase_client.py] *)

(** [f"{layer_name}.geojson"]. *)
Definition layer_path (layer_name : string) : string :=
  layer_name +:+ ".geojson".

Definition error_dict (msg : string) : dict := [("error", JStr msg)].

Definition success_dict (path : string) : dict :=
  [("success", JBool true); ("path", JStr path)].

(** [update_layer_in_bucket]: the bucket overwrites an existing path and
    raises for a path it does not hold. *)
Definition update_layer_in_bucket (e : env) (w : world)
    (layer_name : string) (geojson_data : json) : world * dict :=
  match storage e with
  | StorageUp =>
      match w_bucket w !! layer_path layer_name with
      | Some _ =>
          (set_bucket w (<[layer_path layer_name := geojson_data]> (w_bucket w)),
           success_dict (layer_path layer_name))
      | None => (w, error_dict ("Update failed: " +:+ exn_text e))
      end
  | _ => (w, error_dict ("Update failed: " +:+ exn_text e))
  end.

(** [upload_layer_to_bucket]: an upload to a path the bucket holds raises
    a [StorageException] whose text has "already exists". *)
Definition upload_layer_to_bucket (e : env) (w : world)
    (layer_name : string) (geojson_data : json) : world * dict :=
  match storage e with
  | StorageDown => (w, error_dict ("Upload failed: " +:+ exn_text e))
  | mode =>
      if negb (bucket_ready e)
      then (w, error_dict "Failed to ensure bucket exists")
      else
        match mode with
        | StorageUp =>
            match w_bucket w !! layer_path layer_name with
            | None =>
                (set_bucket w
                   (<[layer_path layer_name := geojson_data]> (w_bucket w)),
                 success_dict (layer_path layer_name))
            | Some _ => update_layer_in_bucket e w layer_name geojson_data
            end
        | _ => (w, error_dict ("Storage error: " +:+ exn_text e))
        end
  end.

(** [download_layer_from_bucket]. *)
Definition download_layer_from_bucket (e : env) (w : world)
    (layer_name : string) : dict :=
  match storage e, w_bucket w !! layer_path layer_name with
  | StorageDown, _ | _, None => error_dict ("Download failed: " +:+ exn_text e)
  | _, Some data => [("success", JBool true); ("data", data)]
  end.

(** ** Layers: the handlers of [app.py] *)

(** [len(x)]. *)
Definition py_len (j : json) : res Z :=
  match j with
  | JArr l => Ok (Z.of_nat (length l))
  | JObj d => Ok (Z.of_nat (length d))
  | JStr s => Ok (Z.of_nat (String.length s))
  | _ => Raise TypeError
  end.

Definition feature_collection (features : json) : json :=
  JObj [("type", JStr "FeatureCollection"); ("features", features)].

Definition error_body (msg : string) : json := JObj (error_dict msg).

Definition updated_body (n : Z) (where_ : string) : json :=
  JObj [("status", JStr "success"); ("updatedCount", JInt n);
        ("storage", JStr where_)].

Definition is_features (j : json) : bool :=
  match j with JStr s => String.eqb s "features" | _ => false end.

(** The local branch of [update_layer] on the content of the file:
    [Ok] is the document to write back, [Raise] an exception (500) and
    [None] the answer "Invalid existing geojson" (400). *)
Definition merged_content (old : option file) (features : json)
  : res (option json) :=
  match old with
  | None => Ok (Some (feature_collection features))
  | Some Garbage => Raise JSONDecodeError
  | Some (Doc (JObj d)) =>
      if Dict.has d "features"
      then Ok (Some (JObj (Dict.set d "features" features)))
      else Ok None
  | Some (Doc (JArr l)) =>
      if existsb is_features l then Raise TypeError else Ok None
  | Some (Doc (JStr s)) =>
      if Str.contains s "features" then Raise TypeError else Ok None
  | Some (Doc _) => Raise TypeError
  end.

(** The fallback of [update_layer] to the local file. *)
Definition update_layer_local (e : env) (w : world) (layer : string)
    (features : json) : world * response :=
  match merged_content (w_files w !! layer_path layer) features with
  | Raise _ => (w, Response (error_body (exn_text e)) 500)
  | Ok None => (w, Response (error_body "Invalid existing geojson") 400)
  | Ok (Some content) =>
      let w' := set_files w (<[layer_path layer := Doc content]> (w_files w)) in
      match py_len features with
      | Ok n => (w', Response (updated_body n "local") 200)
      | Raise _ => (w', Response (error_body (exn_text e)) 500)
      end
  end.

(** [update_layer]: [data] is what [request.json] returns, a JSON object
    or [None] for a body that is the JSON value null. (A request without
    a JSON body is not a case of this function: [request.json] raises and
    the framework answers 415.) *)
Definition update_layer (e : env) (w : world) (layer : string)
    (data : option dict) : world * response :=
  match data with
  | None | Some [] => (w, Response (error_body "Invalid data format") 400)
  | Some d =>
      match Dict.get d "features" with
      | None => (w, Response (error_body "Invalid data format") 400)
      | Some features =>
          let '(w1, result) :=
            upload_layer_to_bucket e w layer (feature_collection features) in
          if truthy (Dict.get_none result "success")
          then match py_len features with
               | Ok n => (w1, Response (updated_body n "supabase") 200)
               | Raise _ => update_layer_local e w1 layer features
               end
          else update_layer_local e w1 layer features
      end
  end.

(** [get_geojson]: the bucket first, then the local file. *)
Definition get_geojson (e : env) (w : world) (layer : string) : response :=
  let result := download_layer_from_bucket e w layer in
  if truthy (Dict.get_none result "success")
  then Response (Dict.get_none result "data") 200
  else
    match w_files w !! layer_path layer with
    | Some (Doc j) => Response j 200
    | Some Garbage => Response (error_body (exn_text e)) 500
    | None => Response (error_body "Layer not found") 404
    end.

(** An uploaded file as [convert_to_geojson] sees it: the two halves of
    [os.path.splitext(filename)], whether the [.shx] and [.dbf] files lie
    next to it, and the GeoJSON that the geospatial library reads out of
    it ([None]: the library raises). *)
Record upload := Upload {
  up_layer_name : string;
  up_ext : string;
  up_has_shx : bool;
  up_has_dbf : bool;
  up_geojson : option json
}.

Definition converted_body (layer_name where_ : string) (n : Z) : json :=
  JObj [("status", JStr "success");
        ("geojson_file", JStr (layer_path layer_name));
        ("layer_name", JStr layer_name);
        ("storage", JStr where_);
        ("features_count", JInt n)].

(** [len(geojson_data.get("features", []))]. *)
Definition features_count (geojson_data : json) : res Z :=
  match geojson_data with
  | JObj d => py_len (Dict.get_default d "features" (JArr []))
  | _ => Raise AttributeError
  end.

(** [convert_to_geojson]: [success] is the dictionary that
    [upload_layer_to_bucket] returns, and [if success] asks whether that
    dictionary is non-empty. [upload_layer_to_bucket] catches every
    exception, so the [except] around the call is never entered. A
    request without a file, or with an empty one, is [None]. *)
Definition convert_to_geojson (e : env) (w : world) (file : option upload)
  : world * response :=
  match file with
  | None => (w, Response (error_body "No file uploaded") 400)
  | Some f =>
      let ext := Str.lower (up_ext f) in
      if negb (String.eqb ext ".gpkg" || String.eqb ext ".shp"
               || String.eqb ext ".csv")
      then (w, Response (error_body ("Unsupported file format: " +:+ ext)) 400)
      else if String.eqb ext ".shp" && negb (up_has_shx f && up_has_dbf f)
      then (w, Response
                 (error_body "Shapefile requires .shp, .shx, and .dbf files.")
                 400)
      else
        match up_geojson f with
        | None => (w, Response (error_body (exn_text e)) 500)
        | Some geojson_data =>
            let '(w1, success) :=
              upload_layer_to_bucket e w (up_layer_name f) geojson_data in
            let '(w2, storage_location) :=
              if truthy (JObj success) then (w1, "supabase")
              else (set_files w1
                      (<[layer_path (up_layer_name f) := Doc geojson_data]>
                         (w_files w1)),
                    "local") in
            match features_count geojson_data with
            | Ok n =>
                (w2, Response
                       (converted_body (up_layer_name f) storage_location n)
                       200)
            | Raise _ => (w2, Response (error_body (exn_text e)) 500)
            end
        end
  end.

(** ** Incidents: [supabase_client.py] *)

(** The filter dictionary the handlers build: a key that is absent is
    [None], and every value is the text of a query parameter. *)
Record filters := Filters {
  from_date : option string;
  to_date : option string;
  source_category : option string
}.

Definition no_filters : filters := Filters None None None.

(** [filters.get(k)] as a condition: the key is there with a non-empty
    text. *)
Definition given (o : option string) : option string :=
  match o with
  | Some s => if String.eqb s "" then None else Some s
  | None => None
  end.

(** [str(x)]. *)
Definition py_str (rt : runtime) (j : json) : string :=
  match j with JStr s => s | _ => repr rt j end.

(** The sequence behind the [SERIAL] column [id]. *)
Definition next_id (t : list dict) : Z :=
  1 + fold_right
        (fun r m => match Dict.get_none r "id" with
                    | JInt i => Z.max i m
                    | _ => m
                    end) 0 t.

Definition title_in (titles : list string) (r : dict) : bool :=
  match Dict.get_none r "title" with
  | JStr s => existsb (String.eqb s) titles
  | _ => false
  end.

Definition ts_lt (a b : option Z) : bool :=
  match a, b with
  | Some x, Some y => x <? y
  | Some _, None => true
  | None, _ => false
  end.

Section Incidents.

Variable rt : runtime.

(** The column [created_at] of a row as the store compares it. *)
Definition created_at_of (r : dict) : option Z :=
  match Dict.get_none r "created_at" with
  | JStr s => timestamp_in rt s
  | _ => None
  end.

(** [gte], [lte] and [in_] on the table: a row whose column is null does
    not pass a comparison. *)
Definition keep_gte (v : Z) (r : dict) : bool :=
  match created_at_of r with Some t => v <=? t | None => false end.

Definition keep_lte (v : Z) (r : dict) : bool :=
  match created_at_of r with Some t => t <=? v | None => false end.

Definition keep_in (values : list string) (r : dict) : bool :=
  match Dict.get_none r "source_category" with
  | JStr s => existsb (String.eqb s) values
  | _ => false
  end.

(** One date filter of the query; the store rejects a literal it cannot
    read and the call raises. *)
Definition date_filter (keep : Z -> dict -> bool) (value : option string)
    (rows : list dict) : res (list dict) :=
  match given value with
  | None => Ok rows
  | Some v =>
      match timestamp_in rt v with
      | Some t => Ok (List.filter (keep t) rows)
      | None => Raise OtherError
      end
  end.

(** [order("created_at", desc=True)], nulls first. *)
Definition order_created_desc (rows : list dict) : list dict :=
  stable_sort (fun y x => ts_lt (created_at_of x) (created_at_of y)) rows.

(** [get_sitreps(filters)]. *)
Definition get_sitreps (e : env) (w : world) (f : filters) : res (list dict) :=
  match db e with
  | DbDown => Raise OtherError
  | _ =>
      q1 ← date_filter keep_gte (from_date f) (w_table w);
      q2 ← date_filter keep_lte (to_date f) q1;
      let q3 :=
        match given (source_category f) with
        | Some cats => List.filter (keep_in (Str.split "," cats)) q2
        | None => q2
        end in
      Ok (order_created_desc q3)
  end.

(** [insert_sitrep(sitrep_data)]: the store adds the [id] and the default
    [created_at] and returns the new row. *)
Definition insert_sitrep (e : env) (w : world) (sitrep_data : dict)
  : res (world * dict) :=
  match db e with
  | DbDown => Raise OtherError
  | DbSilent =>
      Ok (w, [("status", JStr "error");
              ("message", JStr "Failed to insert sitrep")])
  | DbUp =>
      let id := next_id (w_table w) in
      let row :=
        ("id", JInt id) :: sitrep_data ++ [("created_at", JStr (db_now e))] in
      Ok (set_table w (w_table w ++ [row]),
          [("status", JStr "success"); ("id", JInt id)])
  end.

(** ** Incidents: the handlers of [app.py] *)

(** [k not in data or data[k] in (None, "")]. *)
Definition missing (data : dict) (k : string) : bool :=
  match Dict.get data k with
  | None | Some JNull => true
  | Some (JStr s) => String.eqb s ""
  | Some _ => false
  end.

(** [str(data.get(k, dflt)).strip()]. *)
Definition text_field (data : dict) (k dflt : string) : string :=
  Str.strip (py_str rt (Dict.get_default data k (JStr dflt))).

(** [s or dflt] on texts. *)
Definition or_text (s dflt : string) : string :=
  if String.eqb s "" then dflt else s.

Definition sitrep_data_of (data : dict) (lat lon : float) : dict :=
  [("source", JStr (text_field data "source" ""));
   ("source_category", JStr (Str.lower (text_field data "source_category" "")));
   ("incident_type", JStr (Str.lower (text_field data "incident_type" "")));
   ("title", JStr (or_text (text_field data "title" "") "Untitled"));
   ("description",
    JStr (or_text (text_field data "description" "") "No description provided"));
   ("severity", JStr (text_field data "severity" "Unknown"));
   ("status", JStr (Str.lower (text_field data "status" "")));
   ("unit", JStr (text_field data "unit" ""));
   ("contact", JStr (text_field data "contact" ""));
   ("lat", JFloat lat);
   ("lon", JFloat lon)].

(** The first of [source], [lat], [lon] that is missing. *)
Definition first_missing (data : dict) : option string :=
  List.find (missing data) ["source"; "lat"; "lon"].

(** [api_sitreps] on a POST: [body] is what [request.json] returns, a
    JSON object or [None] for a body that is the JSON value null, which
    [or {}] turns into the empty object. (A request without a JSON body
    is not a case of this function: [request.json] raises before the
    checks and the framework answers 415.) An exception of the insert
    leaves the handler and the framework answers 500. *)
Definition api_sitreps_post (e : env) (w : world) (body : option dict)
  : world * response :=
  let data := match body with Some d => d | None => [] end in
  match first_missing data with
  | Some k => (w, Response (error_body ("Missing required field: " +:+ k)) 400)
  | None =>
      match py_float rt (Dict.get_none data "lat"),
            py_float rt (Dict.get_none data "lon") with
      | Ok lat, Ok lon =>
          match insert_sitrep e w (sitrep_data_of data lat lon) with
          | Ok (w', result) => (w', Response (JObj result) 200)
          | Raise _ => (w, Response (error_body (exn_text e)) 500)
          end
      | _, _ => (w, Response (error_body "lat/lon must be numbers") 400)
      end
  end.

(** [api_sitreps] on a GET. *)
Definition api_sitreps_get (e : env) (w : world) (f : filters) : response :=
  match get_sitreps e w f with
  | Ok rows => Response (JArr (map JObj rows)) 200
  | Raise _ => Response (error_body (exn_text e)) 500
  end.

(** [api_sitreps_delete]: [body] is what [request.json] returns, as for
    the POST above; the statement runs on the SQLite database at
    [DB_PATH]. *)
Definition api_sitreps_delete (e : env) (w : world) (body : option dict)
  : world * response :=
  let data := match body with Some d => d | None => [] end in
  match py_or (Dict.get_none data "titles") (JArr []) with
  | JArr (t :: ts) =>
      let titles :=
        List.filter (fun s => negb (String.eqb s ""))
          (map (fun x => Str.strip (py_str rt x)) (t :: ts)) in
      match titles with
      | [] => (w, Response (error_body "No valid titles provided") 400)
      | _ =>
          match w_sqlite w with
          | None => (w, Response (error_body (exn_text e)) 500)
          | Some rows =>
              let kept := List.filter (fun r => negb (title_in titles r)) rows in
              let deleted := List.filter (title_in titles) rows in
              (set_sqlite w (Some kept),
               Response (JObj [("status", JStr "deleted");
                               ("count", JInt (Z.of_nat (length deleted)))])
                 200)
          end
      end
  | _ =>
      (w, Response (error_body "Provide a non-empty 'titles' array") 400)
  end.

End Incidents.

(** ** Statistics: [api_sitreps_stats] *)

(** A dictionary of counts in insertion order, with the equality of its
    keys. *)
Fixpoint counter_add {K} (eqb : K -> K -> bool) (c : list (K * Z)) (k : K)
  : list (K * Z) :=
  match c with
  | [] => [(k, 0 + 1)]
  | (k', n) :: c' =>
      if eqb k k' then (k', n + 1) :: c' else (k', n) :: counter_add eqb c' k
  end.

(** [==] on the values that can be keys: texts by their characters,
    numbers (with [True] as 1 and [False] as 0) by their value. *)
Definition num_of (j : json) : option (Z + float) :=
  match j with
  | JBool b => Some (inl (if b then 1 else 0))
  | JInt z => Some (inl z)
  | JFloat f => Some (inr f)
  | _ => None
  end.

Definition key_eq (a b : json) : bool :=
  match a, b with
  | JStr s, JStr t => String.eqb s t
  | JNull, JNull => true
  | _, _ =>
      match num_of a, num_of b with
      | Some (inl x), Some (inl y) => x =? y
      | Some (inr f), Some (inr g) => PrimFloat.eqb f g
      | Some (inl x), Some (inr f) | Some (inr f), Some (inl x) =>
          match Flt.exact_Z f with Some y => x =? y | None => false end
      | _, _ => false
      end
  end.

(** A list or a dictionary cannot be a key. *)
Definition hashable (j : json) : bool :=
  match j with JArr _ | JObj _ => false | _ => true end.

(** [sorted(c.items(), key=lambda x: x[1], reverse=True)]. *)
Definition by_count_desc {K} (c : list (K * Z)) : list (K * Z) :=
  stable_sort (fun y x => snd x <? snd y) c.

(** [sorted(c.items())] for text keys: the keys differ, so the pairs are
    ordered by key. *)
Definition by_key_asc (c : list (string * Z)) : list (string * Z) :=
  stable_sort (fun y x => String.ltb (fst y) (fst x)) c.

Record stats := Stats {
  total : Z;
  by_day : list (string * Z);
  by_severity : list (string * Z);
  by_source_category : list (string * Z);
  by_status : list (string * Z);
  top_units : list (json * Z)
}.

(** One counting loop: [key r] is the key of a row, [Ok None] a row the
    loop passes over. *)
Fixpoint count_rows {K} (eqb : K -> K -> bool) (key : dict -> res (option K))
    (rows : list dict) (c : list (K * Z)) : res (list (K * Z)) :=
  match rows with
  | [] => Ok c
  | r :: rest =>
      k ← key r;
      count_rows eqb key rest
        (match k with Some k' => counter_add eqb c k' | None => c end)
  end.

(** [(r.get(field) or dflt).lower()]. *)
Definition lowered (field dflt : string) (r : dict) : res (option string) :=
  s ← py_lower (py_or (Dict.get_none r field) (JStr dflt)); Ok (Some s).

(** [r.get('unit') or 'Unspecified']. *)
Definition unit_of (r : dict) : res (option json) :=
  let u := py_or (Dict.get_none r "unit") (JStr "Unspecified") in
  if hashable u then Ok (Some u) else Raise TypeError.

Section Stats.

Variable rt : runtime.

(** [parse_date(r.get('created_at'))] followed by [d.date().isoformat()]:
    every failure inside [parse_date] gives [None]. *)
Definition day_of (r : dict) : res (option string) :=
  match Dict.get_none r "created_at" with
  | JStr s =>
      if String.eqb s "" then Ok None
      else Ok (iso_day rt (Str.remove_char "Z" s))
  | _ => Ok None
  end.

(** The handler after the rows were fetched: [rows] is
    [get_sitreps(filters) or []]. A [Raise] is the 500 answer. *)
Definition api_sitreps_stats (rows : list dict) : res stats :=
  counts_by_day ← count_rows String.eqb day_of rows [];
  counts_sev ← count_rows String.eqb (lowered "severity" "unknown") rows [];
  counts_src ← count_rows String.eqb (lowered "source_category" "other") rows [];
  counts_status ← count_rows String.eqb (lowered "status" "unknown") rows [];
  counts_units ← count_rows key_eq unit_of rows [];
  Ok (Stats (Z.of_nat (length rows))
        (by_key_asc counts_by_day)
        (by_count_desc counts_sev)
        (by_count_desc counts_src)
        (by_count_desc counts_status)
        (take 10 (by_count_desc counts_units))).

End Stats.

(** ** GeoJSON view: [api_sitreps_geojson] *)

(** The query parameters of the view. *)
Record geojson_args := GeojsonArgs {
  a_from_date : option string;
  a_fromDate : option string;
  a_to_date : option string;
  a_toDate : option string;
  a_source_category : option string;
  a_sources : option string;
  a_rangeDays : option string
}.

(** [a or b] on two optional texts. *)
Definition or_arg (a b : option string) : option string :=
  match given a with Some s => Some s | None => b end.

(** [v if 'T' in v else f"{v}{suffix}"]. *)
Definition full_day (v suffix : string) : string :=
  if Str.contains v "T" then v else v +:+ suffix.

(** [sitrep.get(k1, sitrep.get(k2, dflt))]. *)
Definition get_either (r : dict) (k1 k2 : string) (dflt : json) : json :=
  Dict.get_default r k1 (Dict.get_default r k2 dflt).

(** [x % 100] on the value of [id]. On a text the operator is string
    formatting: it raises, or gives a text that the multiplication by
    0.01 then rejects; the class of the exception, which the view does
    not look at, is given as [TypeError]. *)
Definition id_mod_100 (id : json) : res json :=
  match id with
  | JInt z => Ok (JInt (z mod 100))
  | JBool b => Ok (JInt ((if b then 1 else 0) mod 100))
  | JFloat f => m ← Flt.mod_pos f 100; Ok (JFloat m)
  | _ => Raise TypeError
  end.

(** [base + (id % 100) * 0.01]. *)
Definition default_coordinate (base : float) (id : json) : res json :=
  m ← id_mod_100 id;
  p ← match m with
      | JInt z => Flt.int_mul z 0.01
      | JFloat f => Ok (f * 0.01)%float
      | _ => Raise TypeError
      end;
  Ok (JFloat (base + p)%float).

(** [d[k]], a [KeyError] when the key is missing. *)
Definition index (d : dict) (k : string) : res json :=
  match Dict.get d k with Some v => Ok v | None => Raise KeyError end.

Definition point_feature (lon lat : json) (properties : dict) : json :=
  JObj [("type", JStr "Feature");
        ("geometry", JObj [("type", JStr "Point");
                           ("coordinates", JArr [lon; lat])]);
        ("properties", JObj properties)].

(** The body of the loop over the rows. *)
Definition sitrep_feature (sitrep : dict) : res json :=
  let description :=
    get_either sitrep "content" "description" (JStr "") in
  let lon := get_either sitrep "lon" "longitude" JNull in
  let lat := get_either sitrep "lat" "latitude" JNull in
  coords ←
    (if is_none lon || is_none lat
     then id ← index sitrep "id";
          lon' ← default_coordinate 15.2827 id;
          id ← index sitrep "id";
          lat' ← default_coordinate (-4.2634) id;
          Ok (lon', lat')
     else Ok (lon, lat));
  id ← index sitrep "id";
  source ← index sitrep "source";
  Ok (point_feature (fst coords) (snd coords)
        [("id", id);
         ("source", source);
         ("source_category", Dict.get_default sitrep "source_category" (JStr ""));
         ("incident_type", Dict.get_default sitrep "incident_type" (JStr ""));
         ("title", Dict.get_default sitrep "title" (JStr ""));
         ("description", description);
         ("severity", Dict.get_default sitrep "severity" (JStr "Unknown"));
         ("status", Dict.get_default sitrep "status" (JStr ""));
         ("unit", Dict.get_default sitrep "unit" (JStr ""));
         ("contact", Dict.get_default sitrep "contact" (JStr ""));
         ("created_at", get_either sitrep "created_at" "timestamp" (JStr ""))]).

Fixpoint sitrep_features (sitreps : list dict) : res (list json) :=
  match sitreps with
  | [] => Ok []
  | s :: rest =>
      f ← sitrep_feature s;
      fs ← sitrep_features rest;
      Ok (f :: fs)
  end.

(** The coordinates of a feature as the view builds it. *)
Definition coordinates_of (feature : json) : option (json * json) :=
  match feature with
  | JObj d =>
      match Dict.get d "geometry" with
      | Some (JObj g) =>
          match Dict.get g "coordinates" with
          | Some (JArr [lon; lat]) => Some (lon, lat)
          | _ => None
          end
      | _ => None
      end
  | _ => None
  end.

Definition is_number (j : json) : bool :=
  match j with JInt _ | JFloat _ => true | _ => false end.

Section Geojson.

Variable rt : runtime.

(** [range_cutoff s] is [int(s)] days before [datetime.utcnow()] as ISO
    text with a final Z ([None]: [int] raises). *)
Variable range_cutoff : string -> option string.

(** The filters the view builds from its query parameters. *)
Definition geojson_filters (a : geojson_args) : filters :=
  let from := given (or_arg (a_from_date a) (a_fromDate a)) in
  let to := given (or_arg (a_to_date a) (a_toDate a)) in
  let sources := given (or_arg (a_source_category a) (a_sources a)) in
  let ranged :=
    match given (a_rangeDays a), from with
    | Some days, None => range_cutoff days
    | _, _ => None
    end in
  Filters
    (match from with
     | Some v => Some (full_day v "T00:00:00Z")
     | None => ranged
     end)
    (match to with
     | Some v => Some (full_day v "T23:59:59Z")
     | None => None
     end)
    sources.

(** [api_sitreps_geojson]: an exception leaves the handler and the
    framework answers 500. *)
Definition api_sitreps_geojson (e : env) (w : world) (a : geojson_args)
  : response :=
  match (sitreps ← get_sitreps rt e w (geojson_filters a);
         sitrep_features sitreps) with
  | Ok features =>
      Response (JObj [("type", JStr "FeatureCollection");
                      ("features", JArr features)]) 200
  | Raise _ => Response (error_body (exn_text e)) 500
  end.

End Geojson.

(** ** Insights: [generate_sitrep_insights] and what it calls *)

(** What the model provider does during one request: whether the data
    summary and the client can be built, the configured API key, and the
    text of the first and of the second completion ([None]: the call
    raises or returns no text). *)
Record llm_env := LlmEnv {
  prepare_ok : bool;
  client_ok : bool;
  api_key : option string;
  first_reply : option string;
  second_reply : option string
}.

Definition no_data_insights : dict :=
  [("patterns", JArr []);
   ("anomalies", JArr []);
   ("trends", JArr []);
   ("summary", JStr "No data available for analysis.")].

Definition basic_insights (n : nat) : dict :=
  [("patterns",
    JArr [JObj [("title", JStr "Basic Analysis");
                ("description",
                 JStr "LLM unavailable, showing basic statistics");
                ("confidence", JInt 50)]]);
   ("anomalies", JArr []);
   ("trends", JArr []);
   ("summary",
    JStr ("Basic analysis of " +:+ pretty n
          +:+ " incidents. LLM integration unavailable."))].

(** [min(100, max(0, c))]: [max] keeps 0 unless [c > 0], [min] keeps 100
    unless the value is below 100. *)
Definition clamp_confidence (c : json) : res json :=
  match c with
  | JInt z =>
      Ok (if 0 <? z then (if z <? 100 then JInt z else JInt 100) else JInt 0)
  | JFloat f =>
      Ok (if PrimFloat.ltb 0 f
          then (if PrimFloat.ltb f 100 then JFloat f else JInt 100)
          else JInt 0)
  | JBool b => Ok (if b then JBool true else JInt 0)
  | _ => Raise TypeError
  end.

(** The body of the loop over the patterns; an element that is not a
    dictionary raises. *)
Definition fix_pattern (pattern : json) : res json :=
  match pattern with
  | JObj d =>
      let d1 := if Dict.has d "confidence" then d
                else Dict.set d "confidence" (JInt 75) in
      c ← clamp_confidence (Dict.get_none d1 "confidence");
      Ok (JObj (Dict.set d1 "confidence" c))
  | _ => Raise TypeError
  end.

Definition one_of (allowed : list string) (j : json) : bool :=
  match j with JStr s => existsb (String.eqb s) allowed | _ => false end.

(** The body of the loops over the anomalies ([field] is [severity]) and
    over the trends ([field] is [direction]). *)
Definition fix_choice (field : string) (allowed : list string) (dflt : string)
    (item : json) : res json :=
  match item with
  | JObj d =>
      let d1 := if Dict.has d field then d else Dict.set d field (JStr dflt) in
      Ok (JObj (if one_of allowed (Dict.get_none d1 field) then d1
                else Dict.set d1 field (JStr dflt)))
  | _ => Raise TypeError
  end.

Fixpoint map_res {A B} (f : A -> res B) (l : list A) : res (list B) :=
  match l with
  | [] => Ok []
  | x :: rest => y ← f x; ys ← map_res f rest; Ok (y :: ys)
  end.

(** [for item in v: ...] with a body that needs a dictionary: a list is
    walked; an empty text or dictionary has nothing to walk; the
    characters of a text and the keys of a dictionary are texts, so the
    body raises on the first one; nothing else can be walked. *)
Definition fix_all (repair : json -> res json) (v : json) : res json :=
  match v with
  | JArr l => l' ← map_res repair l; Ok (JArr l')
  | JStr EmptyString => Ok v
  | JObj [] => Ok v
  | _ => Raise TypeError
  end.

Definition severities : list string := ["High"; "Medium"; "Low"].
Definition directions : list string := ["Upward"; "Downward"; "Stable"].

(** [validate_and_format_insights]. *)
Definition validate_and_format_insights (insights : json) : res dict :=
  match insights with
  | JObj d =>
      patterns ← fix_all fix_pattern (Dict.get_default d "patterns" (JArr []));
      anomalies ← fix_all (fix_choice "severity" severities "Medium")
                    (Dict.get_default d "anomalies" (JArr []));
      trends ← fix_all (fix_choice "direction" directions "Stable")
                 (Dict.get_default d "trends" (JArr []));
      Ok [("patterns", patterns);
          ("anomalies", anomalies);
          ("trends", trends);
          ("summary", Dict.get_default d "summary" (JStr "Analysis completed."))]
  | _ => Raise AttributeError
  end.

(** [isinstance(parsed_json, dict) and any(key in parsed_json for key in
    ['patterns', 'anomalies', 'trends'])]. *)
Definition has_insight_key (j : json) : bool :=
  match j with
  | JObj d => Dict.has d "patterns" || Dict.has d "anomalies" || Dict.has d "trends"
  | _ => false
  end.

(** The scan for the closing brace: the end of the first balanced run of
    braces, 0 when there is none. *)
Fixpoint brace_end (s : string) (brace_count : Z) (j : nat) : nat :=
  match s with
  | EmptyString => 0%nat
  | String c s' =>
      if Ascii.eqb c "{" then brace_end s' (brace_count + 1) (S j)
      else if Ascii.eqb c "}"
           then if brace_count - 1 =? 0 then S j
                else brace_end s' (brace_count - 1) (S j)
      else brace_end s' brace_count (S j)
  end.

(** The texts the second strategy hands to [json.loads]: for every line
    that starts with a brace, the rest of the response up to the matching
    brace. *)
Fixpoint brace_candidates (lines : list string) : list string :=
  match lines with
  | [] => []
  | line :: rest =>
      if Str.startswith (Str.strip line) "{"
      then
        let potential_json := Str.join (String "010" EmptyString) lines in
        let json_end := brace_end potential_json 0 0 in
        if (0 <? json_end)%nat
        then Str.take json_end potential_json :: brace_candidates rest
        else brace_candidates rest
      else brace_candidates rest
  end.

(** The insights of the last resort: the summary is the response cut
    after 500 characters, and three key words add a placeholder each. *)
Definition keyword_insights (text_response : string) : dict :=
  let low := Str.lower text_response in
  [("patterns",
    JArr (if Str.contains low "pattern"
          then [JObj [("title", JStr "LLM Identified Pattern");
                      ("description",
                       JStr "Pattern analysis provided by LLM (see summary for details)");
                      ("confidence", JInt 70)]]
          else []));
   ("anomalies",
    JArr (if Str.contains low "anomaly" || Str.contains low "unusual"
          then [JObj [("title", JStr "LLM Identified Anomaly");
                      ("description",
                       JStr "Anomaly detected by LLM (see summary for details)");
                      ("severity", JStr "Medium")]]
          else []));
   ("trends",
    JArr (if Str.contains low "trend" || Str.contains low "increasing"
             || Str.contains low "decreasing"
          then [JObj [("title", JStr "LLM Identified Trend");
                      ("description",
                       JStr "Trend analysis provided by LLM (see summary for details)");
                      ("direction",
                       JStr (if Str.contains low "increasing" then "Upward"
                             else if Str.contains low "decreasing" then "Downward"
                             else "Stable"))]]
          else []));
   ("summary",
    JStr (if (500 <? String.length text_response)%nat
          then Str.take 500 text_response +:+ "..."
          else text_response))].

Definition is_error_reply (first : bool) (reply : string) : bool :=
  let low := Str.lower reply in
  (first && Str.startswith low "error communicating with lm studio")
  || Str.startswith low "error communicating with openrouter".

Section Insights.

Variable rt : runtime.

(** The candidates in the order the code tries them: a candidate that
    does not decode, or that decodes to something without one of the
    three keys, is passed over; the first other one is validated, and an
    exception of the validation leaves the function. [None]: no
    candidate was taken. *)
Fixpoint first_candidate (candidates : list string) : option (res dict) :=
  match candidates with
  | [] => None
  | c :: rest =>
      match json_loads rt c with
      | Some j =>
          if has_insight_key j then Some (validate_and_format_insights j)
          else first_candidate rest
      | None => first_candidate rest
      end
  end.

(** All the texts [parse_text_response_to_insights] tries to decode: the
    stripped matches of the four patterns, then the brace-balanced runs. *)
Definition json_candidates (text_response : string) : list string :=
  map Str.strip
    (concat (map (fun p => re_findall rt p text_response)
               [FencedJson; FencedAny; PatternsNested; PatternsSimple]))
  ++ brace_candidates (Str.split "010" (Str.strip text_response)).

(** [parse_text_response_to_insights]. *)
Definition parse_text_response_to_insights (text_response : string)
  : res dict :=
  match first_candidate (json_candidates text_response) with
  | Some r => r
  | None => Ok (keyword_insights text_response)
  end.

(** One completion turned into insights, as both attempts of
    [analyze_with_openrouter] do it. *)
Definition insights_of_reply (first : bool) (reply : option string)
  : res dict :=
  match reply with
  | None => Raise TypeError
  | Some ai_response =>
      if is_error_reply first ai_response then Raise OtherError
      else
        match json_loads rt ai_response with
        | Some insights => validate_and_format_insights insights
        | None => parse_text_response_to_insights ai_response
        end
  end.

(** [analyze_with_openrouter]. *)
Definition analyze_with_openrouter (l : llm_env) : res dict :=
  if negb (prepare_ok l && client_ok l) then Raise OtherError
  else
    match insights_of_reply true (first_reply l) with
    | Ok insights => Ok insights
    | Raise _ =>
        match given (api_key l) with
        | Some _ =>
            match insights_of_reply false (second_reply l) with
            | Ok insights => Ok insights
            | Raise _ => Raise OtherError
            end
        | None => Raise OtherError
        end
    end.

(** [generate_sitrep_insights]. *)
Definition generate_sitrep_insights (l : llm_env) (data : list dict) : dict :=
  match data with
  | [] => no_data_insights
  | _ =>
      match analyze_with_openrouter l with
      | Ok insights => insights
      | Raise _ => basic_insights (length data)
      end
  end.

End Insights.

(** The shape of validated insights: the four keys, and the range of
    the field that each kind of item carries. *)
Definition insight_keys : list string :=
  ["patterns"; "anomalies"; "trends"; "summary"].

Definition is_one_of (allowed : list string) (j : json) : Prop :=
  exists s, j = JStr s /\ In s allowed.

Definition confidence_in_range (c : json) : Prop :=
  match c with
  | JInt z => 0 <= z <= 100
  | JFloat f => PrimFloat.ltb 0 f = true /\ PrimFloat.ltb f 100 = true
  | JBool b => b = true
  | _ => False
  end.

Definition field_ok (field : string) (ok : json -> Prop) (item : json) : Prop :=
  exists d v, item = JObj d /\ Dict.get d field = Some v /\ ok v.

Definition items_ok (field : string) (ok : json -> Prop) (v : json) : Prop :=
  forall l, v = JArr l -> Forall (field_ok field ok) l.

(** ** Layers: deleting and listing *)

Module StrMore.

(** [s.endswith(suffix)]: some tail of [s] is [suffix]. *)
Fixpoint endswith (s suffix : string) : bool :=
  String.eqb s suffix
  || match s with
     | EmptyString => false
     | String _ s' => endswith s' suffix
     end.

(** [s[:-n]]. *)
Definition drop_last (n : nat) (s : string) : string :=
  Str.take (String.length s - n) s.

(** [s.replace(old, '')] for a non-empty [old]: the occurrences are found
    from the left and do not overlap; [skip] counts the characters of an
    occurrence that are still to be dropped. *)
Fixpoint remove_sub (old : string) (skip : nat) (s : string) : string :=
  match s with
  | EmptyString => EmptyString
  | String c s' =>
      match skip with
      | S k => remove_sub old k s'
      | O =>
          if String.prefix old s
          then remove_sub old (String.length old - 1) s'
          else String c (remove_sub old 0 s')
      end
  end.

End StrMore.

(** [delete_layer_from_bucket]: the answer of the bucket to [remove] is
    not looked at, and removing a path the bucket does not hold is no
    error. *)
Definition delete_layer_from_bucket (e : env) (w : world)
    (layer_name : string) : world * dict :=
  match storage e with
  | StorageUp =>
      (set_bucket w (delete (layer_path layer_name) (w_bucket w)),
       [("success", JBool true);
        ("message", JStr ("Layer " +:+ layer_name +:+ " deleted"))])
  | _ => (w, error_dict ("Delete failed: " +:+ exn_text e))
  end.

(** [delete_layer]. *)
Definition delete_layer (e : env) (w : world) (layer : string)
  : world * response :=
  let '(w1, result) := delete_layer_from_bucket e w layer in
  let supabase_deleted :=
    truthy (Dict.get_default result "success" (JBool false)) in
  let local_deleted :=
    match w_files w1 !! layer_path layer with
    | Some _ => true
    | None => false
    end in
  let w2 :=
    if local_deleted
    then set_files w1 (delete (layer_path layer) (w_files w1))
    else w1 in
  if supabase_deleted || local_deleted
  then (w2,
        Response
          (JObj [("status", JStr "success");
                 ("message", JStr ("Layer " +:+ layer +:+ " deleted"));
                 ("storage",
                  JArr ((if supabase_deleted then [JStr "supabase"] else [])
                        ++ (if local_deleted then [JStr "local"] else [])))])
          200)
  else (w2, Response (error_body "Layer not found in any storage") 404).

(** One turn of the loop of [list_layers_in_bucket] over the listing of
    the bucket: [Ok None] when the entry is passed over. *)
Definition listed_layer (file_info : dict) : res (option string) :=
  match Dict.get_default file_info "name" (JStr "") with
  | JStr name =>
      if StrMore.endswith name ".geojson"
      then Ok (Some (StrMore.drop_last 8 name))
      else Ok None
  | _ => Raise AttributeError
  end.

Fixpoint listed_layers (listing : list dict) : res (list string) :=
  match listing with
  | [] => Ok []
  | file_info :: rest =>
      o ← listed_layer file_info;
      names ← listed_layers rest;
      Ok (match o with Some n => n :: names | None => names end)
  end.

(** [list_layers_in_bucket]: [listing] is what the bucket lists
    ([None]: the call raises). *)
Definition list_layers_in_bucket (e : env) (listing : option (list dict))
  : dict :=
  match listing with
  | Some infos =>
      match listed_layers infos with
      | Ok names => [("success", JBool true); ("layers", JArr (map JStr names))]
      | Raise _ => error_dict ("List failed: " +:+ exn_text e)
      end
  | None => error_dict ("List failed: " +:+ exn_text e)
  end.

(** The names of the local directory as [list_layers] turns them into
    layer names. *)
Definition local_layers (names : list string) : list string :=
  map (StrMore.remove_sub ".geojson" 0)
    (List.filter (fun f => StrMore.endswith f ".geojson") names).

(** [list_layers]: [names] is [os.listdir(geojson_dir)]. *)
Definition list_layers (e : env) (listing : option (list dict))
    (names : list string) : response :=
  let result := list_layers_in_bucket e listing in
  if truthy (Dict.get_none result "success")
  then Response (Dict.get_none result "layers") 200
  else Response (JArr (map JStr (local_layers names))) 200.

(** The features of a layer document. *)
Definition features_of (doc : json) : option json :=
  match doc with
  | JObj d => Dict.get d "features"
  | _ => None
  end.

(** ** Heat map: totals *)

(** The incidents that a list of heat points stands for. *)
Definition total_count (points : list heat_point) : Z :=
  fold_right (fun p acc => hp_count p + acc) 0 points.

(** The incidents filed in a grid. *)
Definition cells_count (gd : list (grid_key * cell)) : Z :=
  fold_right (fun kc acc => c_count (snd kc) + acc) 0 gd.

(** [b] does not come before [a] in [heat_points.sort(key=intensity,
    reverse=True)]: the intensity of [a] is not below that of [b]. *)
Definition not_less_intense (a b : heat_point) : Prop :=
  PrimFloat.ltb (hp_intensity a) (hp_intensity b) = false.

(** The grid key of a heat point: the text of its two coordinates. *)
Definition point_key (p : heat_point) : grid_key :=
  grid_key_of (hp_lat p, hp_lng p).

(** The rows that the aggregation files under the key [k]. *)
Definition bucket_rows (g : float) (k : grid_key) (rows : list heat_row)
  : list heat_row :=
  List.filter (in_bucket g k) rows.

(** ** Incidents: single rows *)

(** [eq("id", sitrep_id)] on a row. *)
Definition id_is (sitrep_id : Z) (r : dict) : bool :=
  match Dict.get_none r "id" with
  | JInt i => i =? sitrep_id
  | _ => false
  end.

(** [get_sitrep_by_id(sitrep_id)]. *)
Definition get_sitrep_by_id (e : env) (w : world) (sitrep_id : Z)
  : res (option dict) :=
  match db e with
  | DbDown => Raise OtherError
  | _ =>
      Ok (match List.filter (id_is sitrep_id) (w_table w) with
          | r :: _ => Some r
          | [] => None
          end)
  end.

(** [delete_sitrep(sitrep_id)]: the rows the store deleted are
    returned. *)
Definition delete_sitrep (e : env) (w : world) (sitrep_id : Z)
  : res (world * list dict) :=
  match db e with
  | DbDown => Raise OtherError
  | _ =>
      Ok (set_table w
            (List.filter (fun r => negb (id_is sitrep_id r)) (w_table w)),
          List.filter (id_is sitrep_id) (w_table w))
  end.

(** [b] is not listed before [a] by [order("created_at", desc=True)]:
    [a] has no [created_at], or both have one and that of [a] is not the
    older. *)
Definition not_older (rt : runtime) (a b : dict) : Prop :=
  ts_lt (created_at_of rt a) (created_at_of rt b) = false.

(** ** Statistics: what a grouping counts *)

(** [c.get(k, 0)]. *)
Definition counted (c : list (string * Z)) (k : string) : Z :=
  match List.find (fun kv => String.eqb k (fst kv)) c with
  | Some kv => snd kv
  | None => 0
  end.

(** The counts of a grouping together. *)
Definition sum_counts {K} (c : list (K * Z)) : Z :=
  fold_right (fun kv acc => snd kv + acc) 0 c.

(** The counting loop files the row [r] under [k]. *)
Definition has_key (key : dict -> res (option string)) (k : string) (r : dict)
  : bool :=
  match key r with
  | Ok (Some k') => String.eqb k k'
  | _ => false
  end.

(** The grouping [g] holds one entry per key under which [key] files a
    row of [rows], with the number of these rows. *)
Definition counts_rows (key : dict -> res (option string)) (rows : list dict)
    (g : list (string * Z)) : Prop :=
  NoDup (map fst g)
  /\ forall k n,
       In (k, n) g <->
       n = Z.of_nat (length (List.filter (has_key key k) rows)) /\ 1 <= n.

(** ** Insights: the shape every answer has *)

(** The four keys and no other, every pattern with a confidence in
    [0, 100], every anomaly with one of the three severities, every trend
    with one of the three directions. *)
Definition insights_ok (d : dict) : Prop :=
  Dict.keys d = insight_keys
  /\ items_ok "confidence" confidence_in_range (Dict.get_none d "patterns")
  /\ items_ok "severity" (is_one_of severities) (Dict.get_none d "anomalies")
  /\ items_ok "direction" (is_one_of directions) (Dict.get_none d "trends").

(** ** The map view of all incidents: [get_sitrep_geojson] *)

Section SitrepGeojson.

Variable rt : runtime.

(** [base + (i * 0.05)]. *)
Definition position_coordinate (base : float) (i : Z) : res float :=
  p ← Flt.int_mul i 0.05; Ok (base + p)%float.

(** The body of the loop on the row at position [i]: [not lat] holds for
    a missing, null, zero or empty value. *)
Definition position_feature (i : Z) (sitrep : dict) : res json :=
  let lat := Dict.get_none sitrep "latitude" in
  let lon := Dict.get_none sitrep "longitude" in
  coords ←
    (if negb (truthy lat) || negb (truthy lon)
     then lat' ← position_coordinate (-2.5) i;
          lon' ← position_coordinate 28.8 i;
          Ok (JFloat lat', JFloat lon')
     else Ok (lat, lon));
  lonf ← py_float rt (snd coords);
  latf ← py_float rt (fst coords);
  Ok (point_feature (JFloat lonf) (JFloat latf)
        [("id", Dict.get_none sitrep "id");
         ("title", Dict.get_default sitrep "title" (JStr ""));
         ("content", Dict.get_default sitrep "content" (JStr ""));
         ("priority", Dict.get_default sitrep "priority" (JStr ""));
         ("status", Dict.get_default sitrep "status" (JStr ""));
         ("timestamp", Dict.get_default sitrep "timestamp" (JStr ""));
         ("source", Dict.get_default sitrep "source" (JStr ""));
         ("source_category",
          Dict.get_default sitrep "source_category" (JStr ""));
         ("incident_type", Dict.get_default sitrep "incident_type" (JStr ""))]).

(** [for i, sitrep in enumerate(sitreps)], from position [i] on. *)
Fixpoint position_features (i : Z) (sitreps : list dict) : res (list json) :=
  match sitreps with
  | [] => Ok []
  | s :: rest =>
      f ← position_feature i s;
      fs ← position_features (i + 1) rest;
      Ok (f :: fs)
  end.

(** [get_sitrep_geojson]: an exception leaves the handler and the
    framework answers 500. *)
Definition get_sitrep_geojson (e : env) (w : world) : response :=
  match (sitreps ← get_sitreps rt e w no_filters;
         position_features 0 sitreps) with
  | Ok features => Response (feature_collection (JArr features)) 200
  | Raise _ => Response (error_body (exn_text e)) 500
  end.

End SitrepGeojson.

(** A row has no usable [latitude] or no usable [longitude]: as every
    row of the table has, whose columns are [lat] and [lon]. *)
Definition no_position (sitrep : dict) : Prop :=
  truthy (Dict.get_none sitrep "latitude") = false
  \/ truthy (Dict.get_none sitrep "longitude") = false.

(** ** Accounts and sessions

    The table [users] during one request is a list of rows ([None]: the
    call to the store raises). A session is the dictionary of the keys
    that the handlers read and write; the entries the framework keeps
    for itself (the flashed messages, the permanent flag) are left out
    of it, and the flashed messages are returned beside it. *)

(** [d.pop(k, None)]: the key is gone afterwards. *)
Definition dict_pop (d : dict) (k : string) : dict :=
  List.filter (fun kv => negb (String.eqb k (fst kv))) d.

(** [eq(k, v)] on a row, for a text [v]. *)
Definition text_is (k v : string) (r : dict) : bool :=
  match Dict.get_none r k with
  | JStr s => String.eqb s v
  | _ => false
  end.

Definition credentials_match (username password : string) (r : dict) : bool :=
  text_is "username" username r && text_is "password" password r.

(** [authenticate_user(username, password)]. *)
Definition authenticate_user (users : option (list dict))
    (username password : string) : option dict :=
  match users with
  | None => None
  | Some table =>
      match List.filter (credentials_match username password) table with
      | user :: _ => Some (dict_pop user "password")
      | [] => None
      end
  end.

(** [get_user_by_username(username)]. *)
Definition get_user_by_username (users : option (list dict))
    (username : string) : option dict :=
  match users with
  | None => None
  | Some table =>
      match List.filter (text_is "username" username) table with
      | user :: _ => Some (dict_pop user "password")
      | [] => None
      end
  end.

(** What a handler of a page returns. *)
Inductive reply : Type :=
| Redirect (endpoint : string)   (* [redirect(url_for(endpoint))] *)
| Render (template : string)     (* [render_template(template)] *)
| Failed.                        (* an exception leaves the handler *)

Record visit := Visit {
  v_session : dict;
  v_flashes : list (string * string);
  v_reply : reply
}.

(** [login] on a POST: [username] and [password] are the fields of the
    form ([None]: the field is not there). The name in the welcome
    message is the text that the filter of [authenticate_user]
    matched. *)
Definition login_post (users : option (list dict)) (session : dict)
    (username password : option string) : visit :=
  match given username, given password with
  | Some u, Some p =>
      match authenticate_user users u p with
      | Some user =>
          if truthy (JObj user)
          then
            match index user "id" with
            | Raise _ => Visit session [] Failed
            | Ok id =>
                let s1 := Dict.set session "user_id" id in
                match index user "username" with
                | Raise _ => Visit s1 [] Failed
                | Ok name =>
                    let s2 := Dict.set s1 "username" name in
                    let s3 :=
                      Dict.set s2 "role"
                        (Dict.get_default user "role" (JStr "user")) in
                    Visit s3
                      [("Welcome back, "
                        +:+ match name with JStr n => n | _ => "" end
                        +:+ "!", "success")]
                      (Redirect "index")
                end
            end
          else Visit session [("Invalid username or password", "error")]
                 (Render "login.html")
      | None => Visit session [("Invalid username or password", "error")]
                  (Render "login.html")
      end
  | _, _ => Visit session [("Please fill in all fields", "error")]
              (Render "login.html")
  end.

(** [login] on a GET. *)
Definition login_get (session : dict) : visit :=
  if Dict.has session "user_id" then Visit session [] (Redirect "index")
  else Visit session [] (Render "login.html").

(** [logout]. *)
Definition logout (session : dict) : visit :=
  Visit [] [("You have been logged out successfully", "success")]
    (Redirect "login").

(** [login_required(f)] called with the session: [page] is what [f]
    returns. *)
Definition login_required (session : dict) (page : reply) : reply :=
  if Dict.has session "user_id" then page else Redirect "login".

(** [index]. *)
Definition index_page (session : dict) : reply :=
  login_required session (Render "index.html").

(** ** The chatbot's queries on the incidents: [chatbot.py] *)


(** [[x for x in l if p(x)]] with a condition that can raise: the first
    exception leaves the comprehension. *)
Fixpoint filter_res {A} (p : A -> res bool) (l : list A) : res (list A) :=
  match l with
  | [] => Ok []
  | x :: rest =>
      match p x with
      | Ok b => out ← filter_res p rest; Ok (if b then x :: out else out)
      | Raise x => Raise x
      end
  end.

(** [lo <= x <= hi]. *)
Definition in_range (lo hi x : float) : bool :=
  PrimFloat.leb lo x && PrimFloat.leb x hi.

Section Chatbot.

Variable rt : runtime.


(** [s.get('severity', '').lower() == severity.lower()]. *)
Definition severity_is (severity : string) (s : dict) : res bool :=
  low ← py_lower (Dict.get_default s "severity" (JStr ""));
  Ok (String.eqb low (Str.lower severity)).

(** [SitrepDatabase.get_sitreps_by_severity(severity)]. *)
Definition get_sitreps_by_severity (e : env) (w : world) (severity : string)
  : res (list dict) :=
  sitreps ← get_sitreps rt e w no_filters;
  filter_res (severity_is severity) sitreps.


(** The body of the loop of [_extract_coordinates]: [Ok None] when the
    row adds nothing. *)
Definition extracted (sitrep : dict) : res (option dict) :=
  let lat := Dict.get_none sitrep "lat" in
  let lon := Dict.get_none sitrep "lon" in
  if is_none lat || is_none lon then Ok None
  else
    match (latf ← py_float rt lat; lonf ← py_float rt lon; Ok (latf, lonf)) with
    | Raise ValueError | Raise TypeError => Ok None
    | Raise x => Raise x
    | Ok (lat_float, lon_float) =>
        if in_range (-90) 90 lat_float && in_range (-180) 180 lon_float
        then Ok (Some
                   [("id", Dict.get_none sitrep "id");
                    ("lat", JFloat lat_float);
                    ("lon", JFloat lon_float);
                    ("title", Dict.get_default sitrep "title" (JStr "Unknown"));
                    ("severity",
                     Dict.get_default sitrep "severity" (JStr "Unknown"));
                    ("status",
                     Dict.get_default sitrep "status" (JStr "Unknown"));
                    ("incident_type",
                     Dict.get_default sitrep "incident_type" (JStr "Unknown"));
                    ("description",
                     Dict.get_default sitrep "description" (JStr ""));
                    ("created_at",
                     Dict.get_default sitrep "created_at" (JStr ""));
                    ("unit", Dict.get_default sitrep "unit" (JStr ""));
                    ("contact", Dict.get_default sitrep "contact" (JStr ""))])
        else Ok None
    end.

(** [SitrepChatbot._extract_coordinates(data)]. *)
Fixpoint _extract_coordinates (data : list dict) : res (list dict) :=
  match data with
  | [] => Ok []
  | sitrep :: rest =>
      c ← extracted sitrep;
      coordinates ← _extract_coordinates rest;
      Ok (match c with Some d => d :: coordinates | None => coordinates end)
  end.

End Chatbot.

(** A point of the map: a latitude between -90 and 90 and a longitude
    between -180 and 180, both numbers. *)
Definition on_the_map (c : dict) : Prop :=
  exists lat lon,
    Dict.get c "lat" = Some (JFloat lat)
    /\ Dict.get c "lon" = Some (JFloat lon)
    /\ PrimFloat.leb (-90) lat = true /\ PrimFloat.leb lat 90 = true
    /\ PrimFloat.leb (-180) lon = true /\ PrimFloat.leb lon 180 = true.

(** ** The conversations of the chatbot: [supabase_client.py]

    The table [chatbot_conversations] during one request is a list of
    rows ([None]: the call to the store raises). *)

(** [select(cols)] on a row. *)
Definition select_columns (cols : list string) (r : dict) : dict :=
  List.filter (fun kv => existsb (String.eqb (fst kv)) cols) r.

Section Conversations.

Variable rt : runtime.

(** The column [timestamp] of a row as the store compares it. *)
Definition timestamp_of (r : dict) : option Z :=
  match Dict.get_none r "timestamp" with
  | JStr s => timestamp_in rt s
  | _ => None
  end.

(** [a] may stand before [b] from the newest to the oldest. *)
Definition not_earlier (a b : dict) : Prop :=
  ts_lt (timestamp_of a) (timestamp_of b) = false.

(** [eq("session_id", session_id).order("timestamp", desc=True)
    .limit(n)]. *)
Definition session_query (table : list dict) (session_id : string) (n : nat)
  : list dict :=
  take n
    (stable_sort (fun y x => ts_lt (timestamp_of x) (timestamp_of y))
       (List.filter (text_is "session_id" session_id) table)).

(** [get_conversation_history(session_id, limit)]. *)
Definition get_conversation_history (table : option (list dict))
    (session_id : string) (limit : nat) : res (list dict) :=
  match table with
  | None => Raise OtherError
  | Some t => Ok (rev (session_query t session_id limit))
  end.

(** [get_recent_conversations(session_id, count)]. *)
Definition get_recent_conversations (table : option (list dict))
    (session_id : string) (count : nat) : res (list dict) :=
  match table with
  | None => Raise OtherError
  | Some t =>
      Ok (rev (map (select_columns ["user_message"; "bot_response"])
                 (session_query t session_id count)))
  end.

(** [clear_conversation_history(session_id)]: the table afterwards and
    the answer. *)
Definition clear_conversation_history (table : option (list dict))
    (session_id : string) : res (list dict * dict) :=
  match table with
  | None => Raise OtherError
  | Some t =>
      let deleted := List.filter (text_is "session_id" session_id) t in
      Ok (List.filter (fun r => negb (text_is "session_id" session_id r)) t,
          [("status", JStr "success");
           ("deleted_count", JInt (Z.of_nat (length deleted)))])
  end.

End Conversations.

(** ** A random question: [api_random_question] *)

(** [c.isdigit()] for one character below code point 256: the ten
    digits and the superscripts two, three and one. *)
Definition isdigit (c : ascii) : bool :=
  let n := nat_of_ascii c in
  (((48 <=? n) && (n <=? 57)) || (n =? 178) || (n =? 179) || (n =? 185))%nat.

(** [s[n:]]. *)
Fixpoint str_drop (n : nat) (s : string) : string :=
  match n, s with
  | O, _ => s
  | S k, String _ s' => str_drop k s'
  | S _, EmptyString => EmptyString
  end.

(** [s.split(sep, 1)] for a non-empty [sep]: the text before the first
    [sep] and the text after it, or [s] alone. *)
Fixpoint split_once (sep s : string) : list string :=
  if String.prefix sep s
  then [EmptyString; str_drop (String.length sep) s]
  else
    match s with
    | EmptyString => [EmptyString]
    | String c s' =>
        match split_once sep s' with
        | [before; after] => [String c before; after]
        | _ => [s]
        end
    end.

(** The body of the loop over the lines: [Ok None] for a line that is
    no question; an index out of range is an exception. *)
Definition question_of (line0 : string) : res (option string) :=
  let line := Str.strip line0 in
  if negb (String.eqb line "") && (3 <? String.length line)%nat
     && match line with
        | String c _ => isdigit c
        | EmptyString => false
        end
     && Str.contains (Str.take 5 line) ". "
  then
    if Str.contains line ". "
    then match split_once ". " line with
         | _ :: question_text :: _ => Ok (Some question_text)
         | _ => Raise OtherError
         end
    else Ok (Some line)
  else Ok None.

Fixpoint questions_of (lines : list string) : res (list string) :=
  match lines with
  | [] => Ok []
  | line :: rest =>
      q ← question_of line;
      questions ← questions_of rest;
      Ok (match q with Some t => t :: questions | None => questions end)
  end.

(** [api_random_question]: [file] is the text of the questions file
    ([None]: there is no such file, [Some None]: reading it raises), and
    [pick] the number from which the generator draws the index. *)
Definition api_random_question (e : env) (file : option (option string))
    (pick : nat) : response :=
  match file with
  | None => Response (error_body "Questions file not found") 404
  | Some None =>
      Response (error_body ("Error fetching random question: " +:+ exn_text e))
        500
  | Some (Some content) =>
      match questions_of (Str.split "010" content) with
      | Raise _ =>
          Response
            (error_body ("Error fetching random question: " +:+ exn_text e))
            500
      | Ok [] => Response (error_body "No questions found in file") 404
      | Ok questions =>
          Response
            (JObj [("status", JStr "success");
                   ("question",
                    JStr (nth (Nat.modulo pick (length questions))
                            questions ""));
                   ("total_questions", JInt (Z.of_nat (length questions)))])
            200
      end
  end.

(** A line that holds a question: a number of one to three characters
    that starts with a digit, a period and a blank, and the question. *)
Definition numbered (line question : string) : Prop :=
  exists c number,
    isdigit c = true
    /\ (String.length number <= 2)%nat
    /\ Str.strip line = String c number +:+ ". " +:+ question.

(** ** The streamed completion: [chat_completion_stream] in
    [llm_client.py]

    The two clients read the stream in the same way; they differ in the
    name they put into the error message. *)

(** What one line of the stream does to the loop. *)
Inductive stream_step : Type :=
| StepSkip                      (* nothing, or [continue] *)
| StepDone                      (* [break] *)
| StepChunk (content : string)  (* [full_response += content] *)
| StepFail.                     (* an exception leaves the loop *)

Definition is_choices (j : json) : bool :=
  match j with JStr s => String.eqb s "choices" | _ => false end.

(** ['choices' in data]: a key of a dictionary, an element of a list, a
    part of a text; nothing can be looked for in anything else. *)
Definition has_choices (data : json) : res bool :=
  match data with
  | JObj d => Ok (Dict.has d "choices")
  | JArr l => Ok (existsb is_choices l)
  | JStr s => Ok (Str.contains s "choices")
  | _ => Raise TypeError
  end.

(** [data['choices']]: only a dictionary can be indexed by a text. *)
Definition choices_of (data : json) : res json :=
  match data with
  | JObj d => index d "choices"
  | _ => Raise TypeError
  end.

(** [x[0]] on something that has a positive length: the keys of a
    dictionary decoded from JSON are texts, so 0 is none of them. *)
Definition first_of (choices : json) : res json :=
  match choices with
  | JArr (x :: _) => Ok x
  | JStr (String c _) => Ok (JStr (String c EmptyString))
  | JObj _ => Raise KeyError
  | _ => Raise TypeError
  end.

(** [x.get(k, dflt)]: only a dictionary has the method. *)
Definition get_of (x : json) (k : string) (dflt : json) : res json :=
  match x with
  | JObj d => Ok (Dict.get_default d k dflt)
  | _ => Raise AttributeError
  end.

(** The body of the inner [try] on the decoded data. *)
Definition data_step (data : json) : res stream_step :=
  found ← has_choices data;
  if negb found then Ok StepSkip
  else
    choices ← choices_of data;
    n ← py_len choices;
    if negb (0 <? n) then Ok StepSkip
    else
      first ← first_of choices;
      delta ← get_of first "delta" (JObj []);
      content ← get_of delta "content" (JStr "");
      if negb (truthy content) then Ok StepSkip
      else
        match content with
        | JStr s => Ok (StepChunk s)
        | _ => Raise TypeError
        end.

Section Stream.

Variable rt : runtime.

(** One line of [response.iter_lines()]: [None] is a line that cannot be
    read, or is not empty and cannot be decoded. *)
Definition line_step (line : option string) : stream_step :=
  match line with
  | None => StepFail
  | Some text =>
      if String.eqb text "" then StepSkip
      else if negb (Str.startswith text "data: ") then StepSkip
      else
        let data_str := str_drop 6 text in
        if String.eqb (Str.strip data_str) "[DONE]" then StepDone
        else
          match json_loads rt data_str with
          | None => StepSkip
          | Some data =>
              match data_step data with
              | Ok step => step
              | Raise _ => StepFail
              end
          end
  end.

(** The loop over the lines from the text [full_response] on: the
    partial responses handed to the callback, in that order, and the
    text at the end of the loop ([None]: an exception left it). *)
Fixpoint stream_lines (lines : list (option string)) (full_response : string)
  : list string * option string :=
  match lines with
  | [] => ([], Some full_response)
  | line :: rest =>
      match line_step line with
      | StepSkip => stream_lines rest full_response
      | StepDone => ([], Some full_response)
      | StepChunk content =>
          let full_response' := full_response +:+ content in
          let '(partials, final) := stream_lines rest full_response' in
          (full_response' :: partials, final)
      | StepFail => ([], None)
      end
  end.

(** What the callback is called with. *)
Inductive stream_event : Type :=
| ChunkEvent (partial_response : string)   (* [chatbot_stream_chunk] *)
| ErrorEvent (error : string).             (* [chatbot_error] *)

(** [chat_completion_stream]: [client] is the name in the error
    message, [lines] the lines of the answer ([None]: the request
    raises), [callback] says whether a callback was given. *)
Definition chat_completion_stream (e : env) (client : string)
    (lines : option (list (option string))) (callback : bool)
  : list stream_event * string :=
  let error_msg :=
    "Error communicating with " +:+ client +:+ ": " +:+ exn_text e in
  let '(partials, final) :=
    match lines with
    | Some l => stream_lines l ""
    | None => ([], None)
    end in
  match final with
  | Some full_response =>
      (if callback then map ChunkEvent partials else [], full_response)
  | None =>
      (if callback then map ChunkEvent partials ++ [ErrorEvent error_msg]
       else [],
       error_msg)
  end.

End Stream.

(** [b] is [a] with something added at the end. *)
Definition extends (a b : string) : Prop :=
  exists c, c <> "" /\ b = a +:+ c.

Definition chunk_texts (events : list stream_event) : list string :=
  omap (fun ev => match ev with
                  | ChunkEvent p => Some p
                  | ErrorEvent _ => None
                  end) events.

(** ** The filters that the endpoints build from the query *)

(** [request.args.get]. *)
Definition query : Type := string -> option string.

(** The query of the GeoJSON view in the form [geojson_filters] takes
    it. *)
Definition geojson_args_of (q : query) : geojson_args :=
  GeojsonArgs (q "from_date") (q "fromDate") (q "to_date") (q "toDate")
    (q "source_category") (q "sources") (q "rangeDays").

(** [[s.strip().lower() for s in sources.split(',') if s.strip()]]. *)
Definition heat_sources (sources : string) : list string :=
  map (fun s => Str.lower (Str.strip s))
    (List.filter (fun s => negb (String.eqb (Str.strip s) ""))
       (Str.split "," sources)).

(** [api_sitreps] on a GET. *)
Definition sitreps_filters (q : query) : filters :=
  Filters (given (q "from_date")) (given (q "to_date"))
    (given (q "source_category")).

Section Filters.

(** [range_cutoff s] is [int(s)] days before [datetime.utcnow()] as ISO
    text with a final Z ([None]: [int] raises). *)
Variable range_cutoff : string -> option string.

(** The [rangeDays] block, which the blocks after it can overwrite. *)
Definition ranged (q : query) : option string :=
  match given (q "rangeDays") with
  | Some days => range_cutoff days
  | None => None
  end.

(** [api_sitreps_stats]. *)
Definition stats_filters (q : query) : filters :=
  Filters
    (match given (or_arg (q "fromDate") (q "from_date")) with
     | Some v => Some (v +:+ "T00:00:00Z")
     | None => ranged q
     end)
    (match given (or_arg (q "toDate") (q "to_date")) with
     | Some v => Some (v +:+ "T23:59:59Z")
     | None => None
     end)
    (given (or_arg (q "sources") (q "source_category"))).

(** [api_sitreps_ai_insights]. *)
Definition insights_filters (q : query) : filters :=
  Filters
    (match given (q "fromDate") with
     | Some v => Some (full_day v "T00:00:00Z")
     | None => ranged q
     end)
    (match given (q "toDate") with
     | Some v => Some (full_day v "T23:59:59Z")
     | None => None
     end)
    (given (q "sources")).

(** [api_sitreps_heatmap]. *)
Definition heatmap_filters (q : query) : filters :=
  Filters
    (match given (or_arg (q "fromDate")
                    (or_arg (q "from_date") (q "start_date"))) with
     | Some v => Some (full_day v "T00:00:00Z")
     | None => ranged q
     end)
    (match given (or_arg (q "toDate")
                    (or_arg (q "to_date") (q "end_date"))) with
     | Some v => Some (full_day v "T23:59:59Z")
     | None => None
     end)
    (match given (q "sources") with
     | Some sources =>
         match heat_sources sources with
         | [] => None
         | values => Some (Str.join "," values)
         end
     | None => None
     end).

End Filters.

(** The query uses the names of the dashboard only: [fromDate],
    [toDate], [sources] and [rangeDays]. *)
Definition dashboard_query (q : query) : Prop :=
  q "from_date" = None /\ q "to_date" = None /\ q "start_date" = None
  /\ q "end_date" = None /\ q "source_category" = None.

(** A value that is a day, not a timestamp. *)
Definition day_only (o : option string) : Prop :=
  forall v, given o = Some v -> Str.contains v "T" = false.

(** ** Layers: the local directory as [list_layers] sees it *)

(** [os.listdir(geojson_dir)], in an order the system chooses. *)
Definition listdir (w : world) : list string :=
  map fst (map_to_list (w_files w)).

(** ** Layers: the two GET rules under [/data/] *)

(** A GET of [/data/<name>], where [name] is one segment of the path.
    The rule [/data/layers] of [list_layers] has no variable part and is
    matched before the rule [/data/<layer>] of [get_geojson]: the segment
    "layers" never reaches [get_geojson], every other segment does.
    [listing] and [names] are what [list_layers] is given. *)
Definition get_data (e : env) (w : world) (listing : option (list dict))
    (names : list string) (name : string) : response :=
  if String.eqb name "layers"
  then list_layers e listing names
  else get_geojson e w name.

(** ** A runtime and stores for the examples

    The library functions as tables of their answers on the inputs of
    the examples; each line can be checked against Python and against
    the store. Outside the tables a function answers as if the call had
    failed; the examples do not go there. *)

Definition table_lookup {A} (t : list (string * A)) (s : string) : option A :=
  match List.find (fun kv => String.eqb s (fst kv)) t with
  | Some kv => Some (snd kv)
  | None => None
  end.

Definition sample_runtime : runtime :=
  Runtime
    (* float(s) *)
    (table_lookup [("12.5", 12.5%float); ("-4.3", (-4.3)%float)])
    (* datetime.fromisoformat(s).date().isoformat() *)
    (table_lookup [("2024-01-01T10:00:00", "2024-01-01");
                   ("2024-01-02T08:30:00", "2024-01-02");
                   ("2024-01-02T17:45:00", "2024-01-02")])
    (* json.loads(s) *)
    (table_lookup [("42", JInt 42)])
    (* re.findall: none of the four patterns matches a text without a brace *)
    (fun _ _ => [])
    (* str(x) *)
    (fun j => match j with JInt z => pretty z | _ => "" end)
    (* the store's reading of a timestamp: seconds since 1970 *)
    (table_lookup [("2024-01-01T00:00:00Z", 1704067200);
                   ("2024-01-01T10:00:00Z", 1704103200);
                   ("2024-01-02T08:30:00Z", 1704184200);
                   ("2024-01-02T17:45:00Z", 1704217500);
                   ("2024-01-02T23:59:59Z", 1704239999);
                   ("2024-01-05T12:00:00Z", 1704456000)]).

Definition sample_env (s : storage_mode) (d : db_mode) : env :=
  Env s true d "2024-01-05T12:00:00Z" "unavailable".

Definition empty_world : world := World [] ∅ ∅ None.

(** Three incidents: two in one cell of the default grid, one that has no
    severity. *)
Definition sample_sitreps : list dict :=
  [[("id", JInt 1); ("source", JStr "HQ"); ("lat", JFloat (-4.33));
    ("lon", JFloat 15.31); ("severity", JStr "High")];
   [("id", JInt 2); ("source", JStr "NGO"); ("lat", JFloat (-4.27));
    ("lon", JFloat 15.28); ("severity", JStr "CRITICAL")];
   [("id", JInt 3); ("source", JStr "HQ"); ("lat", JFloat 1.02);
    ("lon", JFloat 29.5); ("severity", JNull)]].

Definition sample_rows : list heat_row :=
  [HeatRow (-4.33) 15.31 (JStr "High") JNull 4;
   HeatRow (-4.27) 15.28 (JStr "CRITICAL") JNull 5;
   HeatRow 1.02 29.5 JNull JNull 1].

(** Three incidents on two days: one on the first day, two on the
    second. *)
Definition sample_dated : list dict :=
  [[("id", JInt 1); ("source", JStr "HQ"); ("severity", JStr "High");
    ("unit", JStr "Unit 1"); ("created_at", JStr "2024-01-01T10:00:00Z")];
   [("id", JInt 2); ("source", JStr "NGO"); ("severity", JStr "high");
    ("unit", JStr "Unit 2"); ("created_at", JStr "2024-01-02T08:30:00Z")];
   [("id", JInt 3); ("source", JStr "HQ"); ("severity", JStr "Low");
    ("unit", JStr "Unit 2"); ("created_at", JStr "2024-01-02T17:45:00Z")]].

(** The hosted table with the three dated incidents, titled. *)
Definition sample_titled : list dict :=
  [[("id", JInt 1); ("source", JStr "HQ"); ("title", JStr "Patrol report");
    ("created_at", JStr "2024-01-01T10:00:00Z")];
   [("id", JInt 2); ("source", JStr "NGO"); ("title", JStr "Bridge damage");
    ("created_at", JStr "2024-01-02T08:30:00Z")];
   [("id", JInt 3); ("source", JStr "HQ"); ("title", JStr "Patrol report");
    ("created_at", JStr "2024-01-02T17:45:00Z")]].

Definition sample_world : world := World sample_titled ∅ ∅ (Some []).

(** A request body that passes the checks of the creation endpoint. *)
Definition sample_post : dict :=
  [("source", JStr "HQ"); ("lat", JFloat (-4.33)); ("lon", JFloat 15.31);
   ("title", JStr "Patrol report")].

(** A layer of one feature, and the upload of a GeoPackage that holds
    it. *)
Definition sample_layer : json :=
  feature_collection
    (JArr [JObj [("type", JStr "Feature");
                 ("geometry", JObj [("type", JStr "Point");
                                    ("coordinates",
                                     JArr [JFloat 15.31; JFloat (-4.33)])]);
                 ("properties", JObj [("name", JStr "Depot")])]]).

Definition sample_upload : upload :=
  Upload "roads" ".gpkg" false false (Some sample_layer).

(** ** More sample data *)

(** Two accounts; the second has no role. *)
Definition sample_users : list dict :=
  [[("id", JInt 1); ("username", JStr "amina"); ("password", JStr "s3cret");
    ("role", JStr "admin")];
   [("id", JInt 2); ("username", JStr "joao"); ("password", JStr "pw2")]].

(** Four exchanges, three of them of the session s1. *)
Definition sample_conversations : list dict :=
  [[("id", JInt 1); ("session_id", JStr "s1"); ("user_message", JStr "first");
    ("bot_response", JStr "a1"); ("timestamp", JStr "2024-01-01T10:00:00Z")];
   [("id", JInt 2); ("session_id", JStr "s2"); ("user_message", JStr "other");
    ("bot_response", JStr "b"); ("timestamp", JStr "2024-01-02T08:30:00Z")];
   [("id", JInt 3); ("session_id", JStr "s1"); ("user_message", JStr "third");
    ("bot_response", JStr "a3"); ("timestamp", JStr "2024-01-02T17:45:00Z")];
   [("id", JInt 4); ("session_id", JStr "s1"); ("user_message", JStr "second");
    ("bot_response", JStr "a2"); ("timestamp", JStr "2024-01-02T08:30:00Z")]].

(** * Properties *)

(** ** Sorting *)

Section StableSort.

Context {A : Type} (before : A -> A -> bool).

Hypothesis before_asym : forall a b, before a b = true -> before b a = false.

Lemma insert_sorted_perm x l : Permutation (insert_sorted before x l) (x :: l).
Proof.
  induction l as [|y l IH]; simpl; [reflexivity|].
  destruct (before y x); [|reflexivity].
  rewrite IH. apply perm_swap.
Qed.

Lemma stable_sort_perm l : Permutation (stable_sort before l) l.
Proof.
  induction l as [|x l IH]; simpl; [reflexivity|].
  rewrite insert_sorted_perm. apply perm_skip. exact IH.
Qed.

Lemma stable_sort_In x l : In x (stable_sort before l) <-> In x l.
Proof.
  split; apply Permutation_in; [|symmetry]; apply stable_sort_perm.
Qed.

Lemma stable_sort_length l : length (stable_sort before l) = length l.
Proof. apply Permutation_length, stable_sort_perm. Qed.

Lemma insert_sorted_hd a x l :
  (in_order before) a x -> HdRel (in_order before) a l -> HdRel (in_order before) a (insert_sorted before x l).
Proof.
  intros Hax Hal. destruct l as [|y l]; simpl.
  - constructor. exact Hax.
  - destruct (before y x); constructor; [|exact Hax].
    inversion Hal; assumption.
Qed.

Lemma insert_sorted_sorted x l :
  Sorted (in_order before) l -> Sorted (in_order before) (insert_sorted before x l).
Proof.
  induction l as [|y l IH]; simpl; intros Hs.
  - repeat constructor.
  - inversion Hs as [|? ? Hl Hhd]; subst.
    destruct (before y x) eqn:E.
    + constructor; [apply IH; exact Hl|].
      apply insert_sorted_hd; [|exact Hhd].
      apply before_asym. exact E.
    + constructor; [exact Hs|]. constructor. exact E.
Qed.

Lemma stable_sort_sorted l : Sorted (in_order before) (stable_sort before l).
Proof.
  induction l as [|x l IH]; simpl; [constructor|].
  apply insert_sorted_sorted. exact IH.
Qed.

End StableSort.






(** ** Heat map *)

Lemma sf_eqb_eq (a b : spec_float) : Flt.sf_eqb a b = true <-> a = b.
Proof.
  destruct a as [s| s | |s m e], b as [s'|s'| |s' m' e']; simpl;
    try (split; [discriminate | congruence]).
  - rewrite Bool.eqb_true_iff. split; congruence.
  - rewrite Bool.eqb_true_iff. split; congruence.
  - split; reflexivity.
  - rewrite !andb_true_iff, Bool.eqb_true_iff, Pos.eqb_eq, Z.eqb_eq.
    split; [intros [[-> ->] ->]; reflexivity | intros [= -> -> ->]; auto].
Qed.

Lemma key_eqb_eq (a b : grid_key) : key_eqb a b = true <-> a = b.
Proof.
  destruct a as [a1 a2], b as [b1 b2]. unfold key_eqb. simpl.
  rewrite andb_true_iff, !sf_eqb_eq. split; [intros [-> ->] | intros [= -> ->]]; auto.
Qed.

Lemma key_eqb_refl (a : grid_key) : key_eqb a a = true.
Proof. apply key_eqb_eq. reflexivity. Qed.

Lemma key_eqb_neq (a b : grid_key) : key_eqb a b = false <-> a <> b.
Proof.
  rewrite <- key_eqb_eq. destruct (key_eqb a b); split; congruence.
Qed.

Lemma grid_find_bump_same gd k glat glon w :
  grid_find (grid_bump gd k glat glon w) k =
  Some (match grid_find gd k with
        | Some c => Cell (c_lat c) (c_lon c) (c_count c + 1) (c_weight c + w)
        | None => Cell glat glon (0 + 1) (0 + w)
        end).
Proof.
  induction gd as [|[k' c] gd IH]; simpl.
  - rewrite key_eqb_refl. reflexivity.
  - destruct (key_eqb k k') eqn:E; simpl; rewrite E; auto.
Qed.

Lemma grid_find_bump_other gd k k' glat glon w :
  k' <> k -> grid_find (grid_bump gd k glat glon w) k' = grid_find gd k'.
Proof.
  intros Hne. induction gd as [|[k0 c] gd IH]; simpl.
  - apply key_eqb_neq in Hne. rewrite Hne. reflexivity.
  - destruct (key_eqb k k0) eqn:E; simpl.
    + apply key_eqb_eq in E. subst k0.
      apply key_eqb_neq in Hne. rewrite Hne. reflexivity.
    + rewrite IH. reflexivity.
Qed.

Lemma grid_step_find g gd r k :
  grid_find (grid_step g gd r) k =
  match grid_point g r with
  | Ok p =>
      if key_eqb k (grid_key_of p)
      then Some (match grid_find gd k with
                 | Some c => Cell (c_lat c) (c_lon c) (c_count c + 1)
                               (c_weight c + hr_weight r)
                 | None => Cell (fst p) (snd p) (0 + 1) (0 + hr_weight r)
                 end)
      else grid_find gd k
  | Raise _ => grid_find gd k
  end.
Proof.
  unfold grid_step.
  destruct (grid_point g r) as [p|e]; [|reflexivity].
  destruct (key_eqb k (grid_key_of p)) eqn:E.
  - apply key_eqb_eq in E. subst k. apply grid_find_bump_same.
  - apply grid_find_bump_other. apply key_eqb_neq. exact E.
Qed.

Lemma grid_fold_count g rows : forall gd k,
  count_of (grid_find (fold_left (grid_step g) rows gd) k) =
  count_of (grid_find gd k)
  + Z.of_nat (length (List.filter (in_bucket g k) rows)).
Proof.
  induction rows as [|r rows IH]; intros gd k; cbn [fold_left List.filter].
  - simpl. lia.
  - rewrite IH, grid_step_find. unfold in_bucket at 2, bucket_of.
    destruct (grid_point g r) as [p|e]; [|lia].
    destruct (key_eqb k (grid_key_of p)); [|lia].
    cbn [length]. rewrite Nat2Z.inj_succ.
    destruct (grid_find gd k); cbn [count_of c_count]; lia.
Qed.

Lemma grid_fold_weight g rows : forall gd k,
  weight_of (grid_find (fold_left (grid_step g) rows gd) k) =
  weight_of (grid_find gd k)
  + sum_weights (List.filter (in_bucket g k) rows).
Proof.
  induction rows as [|r rows IH]; intros gd k; cbn [fold_left List.filter].
  - simpl. lia.
  - rewrite IH, grid_step_find. unfold in_bucket at 2, bucket_of.
    destruct (grid_point g r) as [p|e]; [|lia].
    destruct (key_eqb k (grid_key_of p)); [|lia].
    cbn [sum_weights fold_right].
    fold (sum_weights (List.filter (in_bucket g k) rows)).
    destruct (grid_find gd k); cbn [weight_of c_weight]; lia.
Qed.

Lemma grid_fold_present g rows : forall gd k,
  grid_find (fold_left (grid_step g) rows gd) k = None <->
  grid_find gd k = None /\ List.filter (in_bucket g k) rows = [].
Proof.
  induction rows as [|r rows IH]; intros gd k; cbn [fold_left List.filter].
  - tauto.
  - rewrite IH, grid_step_find. unfold in_bucket at 2, bucket_of.
    destruct (grid_point g r) as [p|e]; [|tauto].
    destruct (key_eqb k (grid_key_of p)); [|tauto].
    split; intros [H1 H2]; discriminate.
Qed.

Lemma grid_fold_keyed g rows : forall gd,
  keyed gd -> keyed (fold_left (grid_step g) rows gd).
Proof.
  induction rows as [|r rows IH]; intros gd Hk; simpl; [exact Hk|].
  apply IH. intros k c. rewrite grid_step_find.
  destruct (grid_point g r) as [[glat glon]|e]; [|apply Hk].
  destruct (key_eqb k (grid_key_of (glat, glon))) eqn:E; [|apply Hk].
  apply key_eqb_eq in E.
  destruct (grid_find gd k) as [c0|] eqn:F; intros [= <-]; simpl.
  - apply (Hk _ _ F).
  - exact E.
Qed.

Lemma grid_bump_keys gd k glat glon w :
  map fst (grid_bump gd k glat glon w) =
  match grid_find gd k with
  | Some _ => map fst gd
  | None => map fst gd ++ [k]
  end.
Proof.
  induction gd as [|[k' c] gd IH]; simpl; [reflexivity|].
  destruct (key_eqb k k') eqn:E; simpl; [reflexivity|].
  rewrite IH. destruct (grid_find gd k); reflexivity.
Qed.

Lemma grid_find_none_keys gd k : grid_find gd k = None -> ~ In k (map fst gd).
Proof.
  induction gd as [|[k' c] gd IH]; simpl; [tauto|].
  destruct (key_eqb k k') eqn:E; [discriminate|].
  intros H [Heq|Hin]; [|exact (IH H Hin)].
  apply key_eqb_neq in E. congruence.
Qed.

Lemma grid_fold_nodup g rows : forall gd,
  NoDup (map fst gd) ->
  NoDup (map fst (fold_left (grid_step g) rows gd)).
Proof.
  induction rows as [|r rows IH]; intros gd Hnd; simpl; [exact Hnd|].
  apply IH. unfold grid_step.
  destruct (grid_point g r) as [p|e]; [|exact Hnd].
  rewrite grid_bump_keys.
  destruct (grid_find gd (grid_key_of p)) eqn:F; [exact Hnd|].
  apply NoDup_app. repeat split.
  - exact Hnd.
  - intros x Hx Hin. apply list_elem_of_In in Hx.
    apply list_elem_of_In in Hin. simpl in Hin.
    destruct Hin as [<-|[]]. exact (grid_find_none_keys _ _ F Hx).
  - apply NoDup_singleton.
Qed.

Lemma heat_rows_origin rt sitreps : forall rows row,
  heat_rows rt sitreps = Ok rows -> In row rows ->
  exists sitrep, In sitrep sitreps /\ heat_row_of rt sitrep = Ok (Some row).
Proof.
  induction sitreps as [|s rest IH]; intros rows row; simpl.
  - intros [= <-] [].
  - destruct (heat_row_of rt s) as [o|e] eqn:Hs; simpl; [|discriminate].
    destruct (heat_rows rt rest) as [rows'|e] eqn:Hr; simpl; [|discriminate].
    intros [= <-] Hin.
    destruct o as [r0|].
    + destruct Hin as [<-|Hin]; [exists s; auto|].
      destruct (IH _ _ eq_refl Hin) as (s' & ? & ?). exists s'; auto.
    + destruct (IH _ _ eq_refl Hin) as (s' & ? & ?). exists s'; auto.
Qed.

Lemma grid_size_default rt : grid_size_of rt None = Ok 0.1%float.
Proof. reflexivity. Qed.

Lemma severity_weight_table (s : string) :
  (s = "critical" -> severity_weight s = 5)
  /\ (s = "high" -> severity_weight s = 4)
  /\ (s = "medium" -> severity_weight s = 3)
  /\ (s = "low" -> severity_weight s = 2)
  /\ (s <> "critical" -> s <> "high" -> s <> "medium" -> s <> "low" ->
      severity_weight s = 1).
Proof.
  repeat split; try (intros ->; reflexivity).
  intros H1 H2 H3 H4. unfold severity_weight.
  apply String.eqb_neq in H1, H2, H3, H4.
  rewrite H1, H2, H3, H4. reflexivity.
Qed.

Lemma heat_row_of_weight rt sitrep row :
  heat_row_of rt sitrep = Ok (Some row) ->
  exists sev,
    py_or (Dict.get_none sitrep "severity") (JStr "unknown") = JStr sev
    /\ hr_weight row = severity_weight (Str.lower sev).
Proof.
  unfold heat_row_of.
  destruct (is_none _ || is_none _); [discriminate|].
  destruct (py_float rt (Dict.get_none sitrep "lat")) as [latf|e1]; simpl.
  - destruct (py_float rt (Dict.get_none sitrep "lon")) as [lonf|e2]; simpl.
    + destruct (py_or _ _) as [| | | |s| |]; simpl; try discriminate.
      intros [= <-]. exists s. auto.
    + destruct e2; discriminate.
  - destruct e1; discriminate.
Qed.

(** On the default grid, within 180 degrees each way, the multiple
    [n * 0.1] determines [n]. *)
Lemma default_grid_index_recovered (n : Z) :
  -1800 <= n <= 1800 -> index_recovered n = true.
Proof.
  intros Hn.
  assert (Hall : forallb index_recovered default_indices = true)
    by (vm_compute; reflexivity).
  rewrite forallb_forall in Hall. apply Hall.
  unfold default_indices. apply in_map_iff.
  exists (Z.to_nat (n + 1800)). split; [lia|]. apply in_seq. lia.
Qed.

Lemma default_grid_multiple_injective (n1 n2 : Z) (x1 x2 : float) :
  -1800 <= n1 <= 1800 -> -1800 <= n2 <= 1800 ->
  Flt.int_mul n1 0.1 = Ok x1 -> Flt.int_mul n2 0.1 = Ok x2 ->
  Flt.printed x1 = Flt.printed x2 -> n1 = n2.
Proof.
  intros H1 H2 E1 E2 Hp.
  pose proof (default_grid_index_recovered n1 H1) as R1.
  pose proof (default_grid_index_recovered n2 H2) as R2.
  unfold index_recovered in R1, R2. rewrite E1 in R1. rewrite E2 in R2.
  rewrite Hp in R1.
  destruct (index_of_printed (Flt.printed x2)) as [n|]; try discriminate.
  apply Z.eqb_eq in R1, R2. congruence.
Qed.

(** On the default grid, two rows within 180 degrees each way share a
    bucket exactly when [round(lat / 0.1)] and [round(lon / 0.1)] are the
    same integers for both. *)
Lemma default_grid_bucket_by_index (r1 r2 : heat_row) (a1 b1 a2 b2 : Z) :
  grid_index (hr_lat r1) 0.1 = Ok a1 -> grid_index (hr_lon r1) 0.1 = Ok b1 ->
  grid_index (hr_lat r2) 0.1 = Ok a2 -> grid_index (hr_lon r2) 0.1 = Ok b2 ->
  -1800 <= a1 <= 1800 -> -1800 <= b1 <= 1800 ->
  -1800 <= a2 <= 1800 -> -1800 <= b2 <= 1800 ->
  (exists k, bucket_of 0.1 r1 = Some k)
  /\ (bucket_of 0.1 r1 = bucket_of 0.1 r2 <-> a1 = a2 /\ b1 = b2).
Proof.
  intros Ha1 Hb1 Ha2 Hb2 Ra1 Rb1 Ra2 Rb2.
  assert (Hmul : forall n, -1800 <= n <= 1800 ->
                   exists x, Flt.int_mul n 0.1 = Ok x).
  { intros n Hn. pose proof (default_grid_index_recovered n Hn) as R.
    unfold index_recovered in R.
    destruct (Flt.int_mul n 0.1) as [x|]; [eauto|discriminate]. }
  destruct (Hmul a1 Ra1) as [xa1 Ea1]. destruct (Hmul b1 Rb1) as [xb1 Eb1].
  destruct (Hmul a2 Ra2) as [xa2 Ea2]. destruct (Hmul b2 Rb2) as [xb2 Eb2].
  unfold bucket_of, grid_point, grid_coord.
  rewrite Ha1, Hb1, Ha2, Hb2. simpl. rewrite Ea1, Eb1, Ea2, Eb2. simpl.
  split; [eauto|]. unfold grid_key_of. simpl. split.
  - intros [= Hlat Hlon]. split.
    + exact (default_grid_multiple_injective _ _ _ _ Ra1 Ra2 Ea1 Ea2 Hlat).
    + exact (default_grid_multiple_injective _ _ _ _ Rb1 Rb2 Eb1 Eb2 Hlon).
  - intros [-> ->]. congruence.
Qed.

(** ** Layers *)

Lemma dict_get_set d k v : Dict.get (Dict.set d k v) k = Some v.
Proof.
  induction d as [|[k' v'] d IH]; simpl.
  - rewrite String.eqb_refl. reflexivity.
  - destruct (String.eqb k k') eqn:E; simpl; rewrite E; auto.
Qed.

Lemma dict_set_set d k v : Dict.set (Dict.set d k v) k v = Dict.set d k v.
Proof.
  induction d as [|[k' v'] d IH]; simpl.
  - rewrite String.eqb_refl. reflexivity.
  - destruct (String.eqb k k') eqn:E; simpl; rewrite E; congruence.
Qed.

Lemma dict_has_set d k v : Dict.has (Dict.set d k v) k = true.
Proof. unfold Dict.has. rewrite dict_get_set. reflexivity. Qed.

(** The two ways [upload_layer_to_bucket] ends: the document is in the
    bucket and the answer has [success], or nothing changed and the
    answer has [error]. *)
Lemma upload_outcome e w layer doc :
  upload_layer_to_bucket e w layer doc
  = (set_bucket w (<[layer_path layer := doc]> (w_bucket w)),
     success_dict (layer_path layer))
    /\ storage e = StorageUp /\ bucket_ready e = true
  \/ exists msg, upload_layer_to_bucket e w layer doc = (w, error_dict msg).
Proof.
  unfold upload_layer_to_bucket, update_layer_in_bucket.
  destruct (storage e) eqn:Hs; simpl; eauto;
    destruct (bucket_ready e); simpl; eauto.
  destruct (w_bucket w !! layer_path layer); auto.
Qed.

Lemma upload_again e w layer doc :
  storage e = StorageUp -> bucket_ready e = true ->
  let w1 := set_bucket w (<[layer_path layer := doc]> (w_bucket w)) in
  upload_layer_to_bucket e w1 layer doc = (w1, success_dict (layer_path layer)).
Proof.
  intros Hs Hb w1. unfold upload_layer_to_bucket, update_layer_in_bucket.
  rewrite Hs, Hb. simpl. rewrite lookup_insert_eq.
  unfold w1, set_bucket. simpl. rewrite insert_insert_eq. reflexivity.
Qed.

Lemma upload_error_set_files e w layer doc msg files :
  upload_layer_to_bucket e w layer doc = (w, error_dict msg) ->
  upload_layer_to_bucket e (set_files w files) layer doc
  = (set_files w files, error_dict msg).
Proof.
  unfold upload_layer_to_bucket, update_layer_in_bucket.
  destruct (storage e); simpl;
    try (intros [= <-]; reflexivity);
    destruct (bucket_ready e); simpl;
    try (intros [= <-]; reflexivity).
  destruct (w_bucket w !! layer_path layer); intros [= _ H]; discriminate.
Qed.

(** The document a successful local update leaves in the file holds the
    submitted features and is left alone by the same update. *)
Lemma merged_content_again old features content :
  merged_content old features = Ok (Some content) ->
  (exists d, content = JObj d /\ Dict.get d "features" = Some features)
  /\ merged_content (Some (Doc content)) features = Ok (Some content).
Proof.
  unfold merged_content.
  destruct old as [[|j]|].
  - discriminate.
  - destruct j as [| | | |s|l|d]; try discriminate.
    + destruct (Str.contains s "features"); discriminate.
    + destruct (existsb is_features l); discriminate.
    + destruct (Dict.has d "features"); [|discriminate].
      intros [= <-]. split.
      * eexists. split; [reflexivity|]. apply dict_get_set.
      * rewrite dict_has_set, dict_set_set. reflexivity.
  - intros [= <-]. split.
    + eexists. split; [reflexivity|]. reflexivity.
    + reflexivity.
Qed.

(** C2 (as the code has it). A layer update that succeeds on a list of
    features reports the length of the list and names a store. In the
    store it names, the layer has exactly the submitted features, with
    nothing of the earlier ones: the document of the bucket is a
    collection of the submitted features, the document of the local file
    carries them under [features]. The other store is left as it was.
    The update changes nothing when it is sent again: the second call
    returns the same answer and the same stores. *)
Theorem update_layer_replaces_features
    (e : env) (w w' : world) (layer : string) (data : dict)
    (features : list json) (answer : json) :
  Dict.get data "features" = Some (JArr features) ->
  update_layer e w layer (Some data) = (w', Response answer 200) ->
  (exists where_,
     answer = updated_body (Z.of_nat (length features)) where_
     /\ (where_ = "supabase"
         /\ w_bucket w' !! layer_path layer
            = Some (feature_collection (JArr features))
         /\ w_files w' = w_files w
         \/ where_ = "local"
            /\ (exists d,
                  w_files w' !! layer_path layer = Some (Doc (JObj d))
                  /\ Dict.get d "features" = Some (JArr features))
            /\ w_bucket w' = w_bucket w))
  /\ update_layer e w' layer (Some data) = (w', Response answer 200).
Proof.
  intros Hget. unfold update_layer.
  destruct data as [|kv data']; [discriminate|].
  set (data := kv :: data') in *. rewrite Hget.
  destruct (upload_outcome e w layer (feature_collection (JArr features)))
    as [(Hup & Hs & Hb)|[msg Hup]]; rewrite Hup; simpl.
  - intros [= <- <-]. split.
    + exists "supabase". split; [reflexivity|]. left.
      split; [reflexivity|]. split; [|reflexivity].
      simpl. apply lookup_insert_eq.
    + rewrite (upload_again e w layer _ Hs Hb). reflexivity.
  - unfold update_layer_local.
    destruct (merged_content (w_files w !! layer_path layer) (JArr features))
      as [[content|]|] eqn:Hm; simpl; try (intros [= _ _ H]; discriminate).
    intros [= <- <-].
    destruct (merged_content_again _ _ _ Hm) as [(d & -> & Hd) Hagain].
    split.
    + exists "local". split; [reflexivity|]. right.
      split; [reflexivity|]. split; [|reflexivity].
      exists d. split; [|exact Hd].
      simpl. apply lookup_insert_eq.
    + rewrite (upload_error_set_files e w layer _ msg _ Hup). simpl.
      rewrite lookup_insert_eq, Hagain. simpl.
      unfold set_files. simpl. rewrite insert_insert_eq. reflexivity.
Qed.

Lemma update_layer_replaces_features_witness :
  let e := sample_env StorageUp DbUp in
  let data := [("features", JArr [JStr "f1"; JStr "f2"])] in
  let w := set_bucket sample_world {[ "roads.geojson" := sample_layer ]} in
  let w1 := set_bucket sample_world
              {[ "roads.geojson" :=
                   feature_collection (JArr [JStr "f1"; JStr "f2"]) ]} in
  update_layer e w "roads" (Some data)
  = (w1, Response (updated_body 2 "supabase") 200)
  /\ update_layer e w1 "roads" (Some data)
     = (w1, Response (updated_body 2 "supabase") 200).
Proof.
  intros e data w w1.
  assert (H : update_layer e w "roads" (Some data)
              = (w1, Response (updated_body 2 "supabase") 200)).
  { unfold update_layer, upload_layer_to_bucket, update_layer_in_bucket.
    simpl. unfold w1, set_bucket. simpl.
    rewrite insert_singleton_eq. reflexivity. }
  split; [exact H|].
  apply (update_layer_replaces_features e w w1 "roads" data
           [JStr "f1"; JStr "f2"] (updated_body 2 "supabase")).
  - reflexivity.
  - exact H.
Defined.

(** C2 as stated fails when the bucket refuses the write and holds an
    older copy of the layer: the update answers 200 and names the local
    file, where the two submitted features now are, while the bucket
    keeps its document, and this older document, with its one feature,
    is what [get_geojson] goes on serving. *)
Lemma update_layer_keeps_bucket_copy :
  let e := sample_env StorageDenied DbUp in
  let w := set_bucket sample_world {[ "roads.geojson" := sample_layer ]} in
  let data := [("features", JArr [JStr "f1"; JStr "f2"])] in
  let out := update_layer e w "roads" (Some data) in
  get_geojson e w "roads" = Response sample_layer 200
  /\ snd out = Response (updated_body 2 "local") 200
  /\ w_files (fst out) !! layer_path "roads"
     = Some (Doc (feature_collection (JArr [JStr "f1"; JStr "f2"])))
  /\ w_bucket (fst out) !! layer_path "roads" = Some sample_layer
  /\ get_geojson e (fst out) "roads" = Response sample_layer 200
  /\ features_of sample_layer <> Some (JArr [JStr "f1"; JStr "f2"]).
Proof.
  repeat split; try reflexivity. discriminate.
Qed.

(** On the update endpoint a failed upload goes on to the local file. *)
Lemma update_layer_falls_back e w layer data features msg :
  Dict.get data "features" = Some features ->
  upload_layer_to_bucket e w layer (feature_collection features)
  = (w, error_dict msg) ->
  update_layer e w layer (Some data) = update_layer_local e w layer features.
Proof.
  intros Hget Hup. unfold update_layer.
  destruct data as [|kv data']; [discriminate|].
  rewrite Hget, Hup. reflexivity.
Qed.

Lemma update_layer_local_new_file e w layer features :
  w_files w !! layer_path layer = None ->
  w_files (fst (update_layer_local e w layer features)) !! layer_path layer
  = Some (Doc (feature_collection features)).
Proof.
  intros Hnone. unfold update_layer_local. rewrite Hnone. simpl.
  destruct (py_len features); simpl; apply lookup_insert_eq.
Qed.

(** On the conversion endpoint no upload, failed or not, reaches the
    local directory. *)
Lemma convert_keeps_local_files e w file :
  w_files (fst (convert_to_geojson e w file)) = w_files w.
Proof.
  unfold convert_to_geojson. destruct file as [f|]; [|reflexivity].
  destruct (negb _); [reflexivity|].
  destruct (_ && _); [reflexivity|].
  destruct (up_geojson f) as [doc|]; [|reflexivity].
  destruct (upload_outcome e w (up_layer_name f) doc)
    as [(Hup & _ & _)|[msg Hup]]; rewrite Hup; simpl;
    destruct (features_count doc); reflexivity.
Qed.

(** C1 (defect). With the storage service down, the upload of the
    conversion endpoint returns an error dictionary; the endpoint takes
    the dictionary for a success, answers that the layer is stored in
    "supabase" and writes no local file: the layer is in neither store
    and reading it answers 404. The update endpoint, in the same
    situation, writes the local file. *)
Theorem convert_upload_error_no_local_file :
  let e := sample_env StorageDown DbUp in
  let out := convert_to_geojson e sample_world (Some sample_upload) in
  upload_layer_to_bucket e sample_world "roads" sample_layer
  = (sample_world, error_dict "Upload failed: unavailable")
  /\ out = (sample_world, Response (converted_body "roads" "supabase" 1) 200)
  /\ w_files (fst out) !! layer_path "roads" = None
  /\ w_bucket (fst out) !! layer_path "roads" = None
  /\ get_geojson e (fst out) "roads"
     = Response (error_body "Layer not found") 404
  /\ w_files
       (fst (update_layer e sample_world "roads"
               (Some [("features", JArr [JStr "f1"])])))
     !! layer_path "roads"
     = Some (Doc (feature_collection (JArr [JStr "f1"]))).
Proof.
  repeat split; reflexivity.
Qed.

(** ** Incidents *)

Lemma date_filter_In rt keep value rows out r :
  date_filter rt keep value rows = Ok out -> In r out ->
  In r rows
  /\ forall v, given value = Some v ->
       exists t, timestamp_in rt v = Some t /\ keep t r = true.
Proof.
  unfold date_filter. destruct (given value) as [v|].
  - destruct (timestamp_in rt v) as [t|] eqn:Ht; [|discriminate].
    intros [= <-] Hin. apply filter_In in Hin. destruct Hin as [Hin Hk].
    split; [exact Hin|]. intros v' [= <-]. exists t. auto.
  - intros [= <-] Hin. split; [exact Hin|]. discriminate.
Qed.

(** C6. Every row that [get_sitreps] returns is a row of the table whose
    [created_at] is not before [from_date] when that filter is given and
    not after [to_date] when that one is given. *)
Theorem get_sitreps_within_range
    (rt : runtime) (e : env) (w : world) (f : filters)
    (rows : list dict) (r : dict) :
  get_sitreps rt e w f = Ok rows ->
  In r rows ->
  In r (w_table w)
  /\ (forall v, given (from_date f) = Some v ->
        exists tv tr,
          timestamp_in rt v = Some tv /\ created_at_of rt r = Some tr
          /\ tv <= tr)
  /\ (forall v, given (to_date f) = Some v ->
        exists tv tr,
          timestamp_in rt v = Some tv /\ created_at_of rt r = Some tr
          /\ tr <= tv).
Proof.
  unfold get_sitreps. intros Hget Hin.
  assert (Hq : exists q1 q2,
             date_filter rt (keep_gte rt) (from_date f) (w_table w) = Ok q1
             /\ date_filter rt (keep_lte rt) (to_date f) q1 = Ok q2
             /\ In r q2).
  { destruct (db e); try discriminate;
      destruct (date_filter rt (keep_gte rt) (from_date f) (w_table w))
        as [q1|] eqn:H1; simpl in Hget; try discriminate;
      destruct (date_filter rt (keep_lte rt) (to_date f) q1)
        as [q2|] eqn:H2; simpl in Hget; try discriminate;
      injection Hget as <-; exists q1, q2; repeat split; auto;
      unfold order_created_desc in Hin; apply stable_sort_In in Hin;
      destruct (given (source_category f)); auto;
      apply filter_In in Hin; tauto. }
  destruct Hq as (q1 & q2 & H1 & H2 & Hr).
  destruct (date_filter_In _ _ _ _ _ _ H2 Hr) as [Hr1 Hto].
  destruct (date_filter_In _ _ _ _ _ _ H1 Hr1) as [Hr0 Hfrom].
  split; [exact Hr0|]. split; intros v Hv.
  - destruct (Hfrom v Hv) as (t & Ht & Hk). unfold keep_gte in Hk.
    destruct (created_at_of rt r) as [tr|]; [|discriminate].
    exists t, tr. repeat split; auto. apply Z.leb_le. exact Hk.
  - destruct (Hto v Hv) as (t & Ht & Hk). unfold keep_lte in Hk.
    destruct (created_at_of rt r) as [tr|]; [|discriminate].
    exists t, tr. repeat split; auto. apply Z.leb_le. exact Hk.
Qed.

Lemma get_sitreps_within_range_witness :
  get_sitreps sample_runtime (sample_env StorageUp DbUp) sample_world
    (Filters (Some "2024-01-02T08:30:00Z") (Some "2024-01-02T23:59:59Z") None)
  = Ok [[("id", JInt 3); ("source", JStr "HQ"); ("title", JStr "Patrol report");
         ("created_at", JStr "2024-01-02T17:45:00Z")];
        [("id", JInt 2); ("source", JStr "NGO"); ("title", JStr "Bridge damage");
         ("created_at", JStr "2024-01-02T08:30:00Z")]]
  /\ exists tv tr,
       timestamp_in sample_runtime "2024-01-02T08:30:00Z" = Some tv
       /\ created_at_of sample_runtime
            [("id", JInt 2); ("source", JStr "NGO");
             ("title", JStr "Bridge damage");
             ("created_at", JStr "2024-01-02T08:30:00Z")] = Some tr
       /\ tv <= tr.
Proof.
  split; [vm_compute; reflexivity|].
  eapply (get_sitreps_within_range sample_runtime
            (sample_env StorageUp DbUp) sample_world
            (Filters (Some "2024-01-02T08:30:00Z")
               (Some "2024-01-02T23:59:59Z") None)).
  - vm_compute. reflexivity.
  - right. left. reflexivity.
  - reflexivity.
Defined.

Lemma first_missing_none data :
  first_missing data = None <->
  missing data "source" = false /\ missing data "lat" = false
  /\ missing data "lon" = false.
Proof.
  unfold first_missing. simpl.
  destruct (missing data "source"), (missing data "lat"), (missing data "lon");
    split; try discriminate; try tauto; intros (? & ? & ?); discriminate.
Qed.

Lemma next_id_above t r i :
  In r t -> Dict.get r "id" = Some (JInt i) -> i < next_id t.
Proof.
  unfold next_id. induction t as [|r0 t IH]; simpl; [tauto|].
  intros [->|Hin] Hid.
  - unfold Dict.get_none. rewrite Hid. lia.
  - specialize (IH Hin Hid).
    destruct (Dict.get_none r0 "id"); lia.
Qed.

(** A body that is the JSON value null is read as the empty object and
    rejected for its missing source. *)
Lemma api_sitreps_post_null_body rt e w :
  api_sitreps_post rt e w None
  = (w, Response (error_body "Missing required field: source") 400).
Proof. reflexivity. Qed.

(** C5 (as the code has it). [req] is the JSON body as [request.json]
    returns it: an object, or null, read as the empty object. A POST in
    which [source], [lat] or [lon] is absent, null or the empty text, or
    in which [lat] or [lon] is not read as a number, is answered with an
    error and status 400 and leaves the stores as they are. Any other
    POST hands the row to the store: when the store returns the new row,
    the answer carries its id, which no earlier row has, and the table
    has grown by that row; when the store returns no row, the answer is
    the error status of [insert_sitrep]; when the store call raises, the
    answer is 500. *)
Theorem api_sitreps_post_outcome
    (rt : runtime) (e : env) (w : world) (req : option dict) :
  let data := match req with Some d => d | None => [] end in
  let out := api_sitreps_post rt e w req in
  ((missing data "source" = true \/ missing data "lat" = true
    \/ missing data "lon" = true
    \/ (exists x, py_float rt (Dict.get_none data "lat") = Raise x)
    \/ (exists x, py_float rt (Dict.get_none data "lon") = Raise x)) ->
   http (snd out) = 400
   /\ (exists msg, body (snd out) = error_body msg)
   /\ fst out = w)
  /\ (forall lat lon,
        missing data "source" = false -> missing data "lat" = false ->
        missing data "lon" = false ->
        py_float rt (Dict.get_none data "lat") = Ok lat ->
        py_float rt (Dict.get_none data "lon") = Ok lon ->
        match db e with
        | DbUp =>
            snd out =
              Response (JObj [("status", JStr "success");
                              ("id", JInt (next_id (w_table w)))]) 200
            /\ w_table (fst out) =
                 w_table w
                 ++ [("id", JInt (next_id (w_table w)))
                     :: sitrep_data_of rt data lat lon
                     ++ [("created_at", JStr (db_now e))]]
            /\ (forall r i, In r (w_table w) ->
                  Dict.get r "id" = Some (JInt i) -> i < next_id (w_table w))
        | DbSilent =>
            snd out =
              Response (JObj [("status", JStr "error");
                              ("message", JStr "Failed to insert sitrep")]) 200
            /\ fst out = w
        | DbDown => http (snd out) = 500 /\ fst out = w
        end).
Proof.
  intros data out. subst out. unfold api_sitreps_post. fold data.
  split.
  - intros H.
    destruct (first_missing data) as [k|] eqn:Hm; simpl.
    { split; [reflexivity|]. split; [eexists; reflexivity|reflexivity]. }
    apply first_missing_none in Hm. destruct Hm as (M1 & M2 & M3).
    destruct H as [H|[H|[H|[[x H]|[x H]]]]]; try congruence.
    + rewrite H. simpl. split; [reflexivity|].
      split; [eexists; reflexivity|reflexivity].
    + rewrite H.
      destruct (py_float rt (Dict.get_none data "lat")); simpl;
        (split; [reflexivity|]; split; [eexists; reflexivity|reflexivity]).
  - intros lat lon M1 M2 M3 Hlat Hlon.
    assert (Hm : first_missing data = None)
      by (apply first_missing_none; auto).
    rewrite Hm, Hlat, Hlon. unfold insert_sitrep.
    destruct (db e); simpl; repeat split; auto.
    intros r i. apply next_id_above.
Qed.

Lemma api_sitreps_post_outcome_witness :
  api_sitreps_post sample_runtime (sample_env StorageUp DbUp) sample_world
    (Some sample_post)
  = (set_table sample_world
       (sample_titled
        ++ [("id", JInt 4)
            :: sitrep_data_of sample_runtime sample_post (-4.33) 15.31
            ++ [("created_at", JStr "2024-01-05T12:00:00Z")]]),
     Response (JObj [("status", JStr "success"); ("id", JInt 4)]) 200)
  /\ http (snd (api_sitreps_post sample_runtime (sample_env StorageUp DbUp)
                  sample_world (Some [("source", JStr "HQ"); ("lat", JStr "")])))
     = 400.
Proof.
  split; [vm_compute; reflexivity|].
  apply (api_sitreps_post_outcome sample_runtime (sample_env StorageUp DbUp)
           sample_world (Some [("source", JStr "HQ"); ("lat", JStr "")])).
  right. left. reflexivity.
Defined.

(** C5 as stated fails when the store returns no row for an insert: the
    request passes every check, and the answer carries no id. *)
Lemma api_sitreps_post_without_id :
  api_sitreps_post sample_runtime (sample_env StorageUp DbSilent) sample_world
    (Some sample_post)
  = (sample_world,
     Response (JObj [("status", JStr "error");
                     ("message", JStr "Failed to insert sitrep")]) 200).
Proof. vm_compute. reflexivity. Qed.

Lemma api_sitreps_delete_keeps_table rt e w req :
  w_table (fst (api_sitreps_delete rt e w req)) = w_table w.
Proof.
  unfold api_sitreps_delete.
  destruct (py_or _ _) as [| | | | |[|t ts]|]; try reflexivity.
  destruct (List.filter _ _); [reflexivity|].
  destruct (w_sqlite w); reflexivity.
Qed.

Lemma api_sitreps_delete_rejects rt e w req :
  (forall t ts, py_or (Dict.get_none (match req with Some d => d | None => [] end)
                         "titles") (JArr []) <> JArr (t :: ts)) ->
  api_sitreps_delete rt e w req =
  (w, Response (error_body "Provide a non-empty 'titles' array") 400).
Proof.
  unfold api_sitreps_delete. intros H.
  destruct (py_or _ _) as [| | | | |[|t ts]|]; try reflexivity.
  exfalso. exact (H t ts eq_refl).
Qed.

(** C7 (defect). The table that the read endpoints query holds two rows
    titled "Patrol report". The delete endpoint, asked for that title,
    runs its statement on the SQLite database at [DB_PATH]: it reports 0
    rows where that database has an empty table, answers 500 where it
    has none, and in both cases [get_sitreps] returns the two rows as
    before. *)
Theorem api_sitreps_delete_misses_hosted_table :
  let e := sample_env StorageUp DbUp in
  let req := Some [("titles", JArr [JStr " Patrol report "])] in
  let out := api_sitreps_delete sample_runtime e sample_world req in
  let out' :=
    api_sitreps_delete sample_runtime e (set_sqlite sample_world None) req in
  snd out
  = Response (JObj [("status", JStr "deleted"); ("count", JInt 0)]) 200
  /\ http (snd out') = 500
  /\ w_table (fst out) = sample_titled
  /\ w_table (fst out') = sample_titled
  /\ get_sitreps sample_runtime e (fst out) no_filters
     = get_sitreps sample_runtime e sample_world no_filters
  /\ exists r1 r2 r3,
       get_sitreps sample_runtime e (fst out) no_filters = Ok [r1; r2; r3]
       /\ Dict.get r1 "title" = Some (JStr "Patrol report")
       /\ Dict.get r3 "title" = Some (JStr "Patrol report").
Proof.
  repeat split; try (vm_compute; reflexivity).
  do 3 eexists. repeat split; vm_compute; reflexivity.
Qed.

(** ** Statistics *)


Lemma in_sorted_not_in_take {A} (n : nat) (l : list A) (b : A) :
  In b l -> ~ In b (take n l) -> In b (drop n l).
Proof.
  intros Hin Hnot. rewrite <- (take_drop n l) in Hin.
  apply in_app_or in Hin. tauto.
Qed.




(** ** GeoJSON view *)

Lemma of_Z_below_100 (m : Z) :
  0 <= m < 100 -> exists nf, Flt.of_Z m = Some nf.
Proof.
  intros Hm.
  assert (Hall : forallb (fun k => match Flt.of_Z k with
                                   | Some _ => true
                                   | None => false
                                   end)
                   (map Z.of_nat (seq 0 100)) = true)
    by (vm_compute; reflexivity).
  rewrite forallb_forall in Hall.
  specialize (Hall m).
  destruct (Flt.of_Z m) as [nf|]; [eauto|].
  assert (Hin : In m (map Z.of_nat (seq 0 100))).
  { apply in_map_iff. exists (Z.to_nat m). split; [lia|].
    apply in_seq. lia. }
  specialize (Hall Hin). discriminate.
Qed.

Lemma default_coordinate_int base i :
  exists nf,
    Flt.of_Z (i mod 100) = Some nf
    /\ default_coordinate base (JInt i) = Ok (JFloat (base + nf * 0.01)%float).
Proof.
  destruct (of_Z_below_100 (i mod 100)) as [nf Hnf].
  { apply Z.mod_pos_bound. lia. }
  exists nf. split; [exact Hnf|].
  unfold default_coordinate, Flt.int_mul. simpl. rewrite Hnf. reflexivity.
Qed.

Lemma default_coordinate_float base id c :
  default_coordinate base id = Ok c -> exists f, c = JFloat f.
Proof.
  unfold default_coordinate.
  destruct (id_mod_100 id) as [m|]; simpl; [|discriminate].
  destruct (match m with
            | JInt z => Flt.int_mul z 0.01
            | JFloat f => Ok (f * 0.01)%float
            | _ => Raise TypeError
            end) as [p|]; simpl; [|discriminate].
  intros [= <-]. eauto.
Qed.

Lemma is_none_false j : is_none j = false -> j <> JNull.
Proof. destruct j; simpl; congruence. Qed.

(** Whatever the row, a feature that the loop builds has coordinates, and
    neither is null. *)
Lemma sitrep_feature_not_null sitrep feature :
  sitrep_feature sitrep = Ok feature ->
  exists lon lat,
    coordinates_of feature = Some (lon, lat) /\ lon <> JNull /\ lat <> JNull.
Proof.
  unfold sitrep_feature.
  set (lon0 := get_either sitrep "lon" "longitude" JNull).
  set (lat0 := get_either sitrep "lat" "latitude" JNull).
  destruct (is_none lon0 || is_none lat0) eqn:Hnone.
  - destruct (index sitrep "id") as [id|]; simpl; [|discriminate].
    destruct (default_coordinate 15.2827 id) as [lon|] eqn:Hlon; simpl;
      [|discriminate].
    destruct (default_coordinate (-4.2634) id) as [lat|] eqn:Hlat; simpl;
      [|discriminate].
    destruct (index sitrep "source") as [source|]; simpl; [|discriminate].
    intros [= <-]. exists lon, lat.
    destruct (default_coordinate_float _ _ _ Hlon) as [f ->].
    destruct (default_coordinate_float _ _ _ Hlat) as [g ->].
    repeat split; discriminate.
  - apply orb_false_iff in Hnone. destruct Hnone as [H1 H2].
    simpl.
    destruct (index sitrep "id") as [id|]; simpl; [|discriminate].
    destruct (index sitrep "source") as [source|]; simpl; [|discriminate].
    intros [= <-]. exists lon0, lat0.
    repeat split; auto using is_none_false.
Qed.

Lemma sitrep_features_not_null sitreps : forall features,
  sitrep_features sitreps = Ok features ->
  Forall (fun feature =>
            exists lon lat,
              coordinates_of feature = Some (lon, lat)
              /\ lon <> JNull /\ lat <> JNull) features.
Proof.
  induction sitreps as [|s rest IH]; intros features; simpl.
  - intros [= <-]. constructor.
  - destruct (sitrep_feature s) as [f|] eqn:Hf; simpl; [|discriminate].
    destruct (sitrep_features rest) as [fs|]; simpl; [|discriminate].
    intros [= <-]. constructor; [|apply IH; reflexivity].
    exact (sitrep_feature_not_null _ _ Hf).
Qed.

Lemma sitrep_features_each sitreps : forall features,
  sitrep_features sitreps = Ok features ->
  Forall2 (fun sitrep feature => sitrep_feature sitrep = Ok feature)
    sitreps features.
Proof.
  induction sitreps as [|s rest IH]; intros features; simpl.
  - intros [= <-]. constructor.
  - destruct (sitrep_feature s) as [f|] eqn:Hf; simpl; [|discriminate].
    destruct (sitrep_features rest) as [fs|]; simpl; [|discriminate].
    intros [= <-]. constructor; [exact Hf|apply IH; reflexivity].
Qed.

Lemma sitrep_features_all sitreps : forall features,
  Forall2 (fun sitrep feature => sitrep_feature sitrep = Ok feature)
    sitreps features ->
  sitrep_features sitreps = Ok features.
Proof.
  induction sitreps as [|s rest IH]; intros features H; inversion H; subst.
  - reflexivity.
  - simpl. rewrite H2. simpl. rewrite (IH _ H4). reflexivity.
Qed.

Lemma sitrep_features_raise sitreps row x :
  In row sitreps -> sitrep_feature row = Raise x ->
  exists y, sitrep_features sitreps = Raise y.
Proof.
  induction sitreps as [|s rest IH]; simpl; [tauto|].
  intros [->|Hin] Hrow.
  - rewrite Hrow. simpl. eauto.
  - destruct (sitrep_feature s) as [f|y]; simpl; [|eauto].
    destruct (IH Hin Hrow) as [y ->]. simpl. eauto.
Qed.

Lemma mod_pos_100 (f : float) : exists m, Flt.mod_pos f 100 = Ok m.
Proof.
  assert (H100 : Flt.of_Z 100 = Some 100%float) by (vm_compute; reflexivity).
  unfold Flt.mod_pos. rewrite H100.
  destruct (Prim2SF f) as [s|s| |s m e]; eauto.
  destruct (PrimFloat.eqb _ 0); [eauto|]. destruct s; eauto.
Qed.

(** The value of [id % 100] as the float it is multiplied as, for the
    ids that have one. *)
Lemma default_coordinate_number base id :
  match id with
  | JInt i =>
      exists m, Flt.of_Z (i mod 100) = Some m
                /\ default_coordinate base id = Ok (JFloat (base + m * 0.01)%float)
  | JBool b =>
      exists m, Flt.of_Z (if b then 1 else 0) = Some m
                /\ default_coordinate base id = Ok (JFloat (base + m * 0.01)%float)
  | JFloat f =>
      exists m, Flt.mod_pos f 100 = Ok m
                /\ default_coordinate base id = Ok (JFloat (base + m * 0.01)%float)
  | _ => default_coordinate base id = Raise TypeError
  end.
Proof.
  destruct id as [|b|i|f|s|l|d]; try reflexivity.
  - destruct (of_Z_below_100 (if b then 1 else 0)) as [m Hm];
      [destruct b; lia|].
    exists m. split; [exact Hm|].
    unfold default_coordinate, Flt.int_mul. simpl.
    replace ((if b then 1 else 0) mod 100) with (if b then 1 else 0)
      by (destruct b; reflexivity).
    rewrite Hm. reflexivity.
  - apply default_coordinate_int.
  - destruct (mod_pos_100 f) as [m Hm]. exists m. split; [exact Hm|].
    unfold default_coordinate. simpl. rewrite Hm. reflexivity.
Qed.

(** C10 (as the code has it). For a row that has an id and a source
    field: when its longitude and latitude are both there and not null,
    the view builds a Point feature that carries them as they are; when
    one of them is missing and the id is a number (an integer, a
    boolean, which counts as 0 or 1, or a float), it builds a Point
    feature whose two coordinates are the floats
    [15.2827 + (id mod 100) * 0.01] and [-4.2634 + (id mod 100) * 0.01];
    when one of them is missing and the id is no number, the loop
    raises. When the loop raises on one of the rows fetched, the
    view answers 500; when it builds a feature for each of them, the
    view answers 200 with the collection of these features. An answer of
    the view with status 200 is a collection with one feature for each
    row fetched, built from that row, and no feature in it has a null
    coordinate. *)
Theorem sitrep_feature_coordinates (sitrep : dict) (id source : json) :
  Dict.get sitrep "id" = Some id ->
  Dict.get sitrep "source" = Some source ->
  (let lon0 := get_either sitrep "lon" "longitude" JNull in
   let lat0 := get_either sitrep "lat" "latitude" JNull in
   if is_none lon0 || is_none lat0
   then
     let built m :=
       exists properties,
         sitrep_feature sitrep
         = Ok (point_feature (JFloat (15.2827 + m * 0.01)%float)
                 (JFloat (-4.2634 + m * 0.01)%float) properties) in
     match id with
     | JInt i => exists m, Flt.of_Z (i mod 100) = Some m /\ built m
     | JBool b => exists m, Flt.of_Z (if b then 1 else 0) = Some m /\ built m
     | JFloat f => exists m, Flt.mod_pos f 100 = Ok m /\ built m
     | _ => exists x, sitrep_feature sitrep = Raise x
     end
   else
     lon0 <> JNull /\ lat0 <> JNull
     /\ exists properties,
          sitrep_feature sitrep = Ok (point_feature lon0 lat0 properties))
  /\ forall rt range_cutoff e w a,
       let view := api_sitreps_geojson rt range_cutoff e w a in
       let collection features :=
         JObj [("type", JStr "FeatureCollection");
               ("features", JArr features)] in
       (forall sitreps,
          get_sitreps rt e w (geojson_filters range_cutoff a) = Ok sitreps ->
          (forall row x,
             In row sitreps -> sitrep_feature row = Raise x ->
             view = Response (error_body (exn_text e)) 500)
          /\ (forall features,
                Forall2 (fun row feature => sitrep_feature row = Ok feature)
                  sitreps features ->
                view = Response (collection features) 200))
       /\ (forall answer,
             view = Response answer 200 ->
             exists sitreps features,
               get_sitreps rt e w (geojson_filters range_cutoff a) = Ok sitreps
               /\ answer = collection features
               /\ Forall2 (fun row feature => sitrep_feature row = Ok feature)
                    sitreps features
               /\ Forall (fun feature =>
                            exists lon lat,
                              coordinates_of feature = Some (lon, lat)
                              /\ lon <> JNull /\ lat <> JNull) features).
Proof.
  intros Hid Hsrc. split.
  - cbv zeta. unfold sitrep_feature, index. rewrite Hid, Hsrc.
    set (lon0 := get_either sitrep "lon" "longitude" JNull).
    set (lat0 := get_either sitrep "lat" "latitude" JNull).
    destruct (is_none lon0 || is_none lat0) eqn:Hnone.
    + pose proof (default_coordinate_number 15.2827 id) as Hlon.
      pose proof (default_coordinate_number (-4.2634) id) as Hlat.
      destruct id as [|b|i|f|s|l|d];
        try (eexists; reflexivity);
        destruct Hlon as (m & Hm & Hlon), Hlat as (m' & Hm' & Hlat);
        assert (m' = m) by congruence; subst m';
        exists m; (split; [exact Hm|]);
        simpl; rewrite Hlon; simpl; rewrite Hlat; simpl;
        eexists; reflexivity.
    + apply orb_false_iff in Hnone. destruct Hnone as [H1 H2]. simpl.
      split; [auto using is_none_false|]. split; [auto using is_none_false|].
      eexists. reflexivity.
  - intros rt range_cutoff e w a. cbv zeta. unfold api_sitreps_geojson.
    split.
    + intros sitreps ->. simpl. split.
      * intros row x Hin Hrow.
        destruct (sitrep_features_raise sitreps row x Hin Hrow) as [y ->].
        reflexivity.
      * intros features Hall.
        rewrite (sitrep_features_all _ _ Hall). reflexivity.
    + intros answer.
      destruct (get_sitreps rt e w (geojson_filters range_cutoff a))
        as [sitreps|]; simpl; [|discriminate].
      destruct (sitrep_features sitreps) as [features|] eqn:Hf;
        [|discriminate].
      intros [= <-]. exists sitreps, features.
      split; [reflexivity|]. split; [reflexivity|].
      split; [apply sitrep_features_each; exact Hf|].
      apply (sitrep_features_not_null sitreps). exact Hf.
Qed.

Lemma sitrep_feature_coordinates_witness :
  let row := [("id", JInt 207); ("source", JStr "HQ"); ("lat", JNull);
              ("lon", JFloat 15.31)] in
  exists properties,
    sitrep_feature row
    = Ok (point_feature (JFloat (15.2827 + 7 * 0.01)%float)
            (JFloat (-4.2634 + 7 * 0.01)%float) properties).
Proof.
  intros row.
  destruct (sitrep_feature_coordinates row (JInt 207) (JStr "HQ")
              eq_refl eq_refl) as [(m & Hm & properties & Hf) _].
  exists properties. rewrite Hf.
  vm_compute in Hm. injection Hm as <-. reflexivity.
Defined.

(** C10 as stated fails in three ways. A row that has an id and no
    source field makes the loop raise, and the view answers 500 instead
    of a collection. A row whose longitude is a text comes out as a
    feature with that text as its first coordinate, which is no number.
    A row whose id is a text and whose latitude is null makes the loop
    raise, and the view answers 500. *)
Lemma sitrep_feature_not_as_claimed :
  let view rows :=
    api_sitreps_geojson sample_runtime (fun _ => None)
      (sample_env StorageUp DbUp) (World rows ∅ ∅ None)
      (GeojsonArgs None None None None None None None) in
  let no_source := [("id", JInt 7); ("title", JStr "Patrol report");
                    ("latitude", JFloat (-4.33)); ("longitude", JFloat 15.31)] in
  let text_lon := [("id", JInt 8); ("source", JStr "HQ");
                   ("lat", JFloat (-4.33)); ("lon", JStr "east")] in
  let text_id := [("id", JStr "a7"); ("source", JStr "HQ");
                  ("lat", JNull); ("lon", JFloat 15.31)] in
  (Dict.get no_source "id" = Some (JInt 7)
   /\ sitrep_feature no_source = Raise KeyError
   /\ view [no_source] = Response (error_body "unavailable") 500)
  /\ (exists feature,
        sitrep_feature text_lon = Ok feature
        /\ coordinates_of feature = Some (JStr "east", JFloat (-4.33))
        /\ is_number (JStr "east") = false
        /\ view [text_lon]
           = Response (JObj [("type", JStr "FeatureCollection");
                             ("features", JArr [feature])]) 200)
  /\ (Dict.get text_id "id" = Some (JStr "a7")
      /\ sitrep_feature text_id = Raise TypeError
      /\ view [text_id] = Response (error_body "unavailable") 500).
Proof.
  repeat split; try reflexivity.
  eexists. repeat split; reflexivity.
Qed.

(** ** Insights *)

Lemma validate_keys insights d :
  validate_and_format_insights insights = Ok d -> Dict.keys d = insight_keys.
Proof.
  unfold validate_and_format_insights.
  destruct insights as [| | | | | |o]; try discriminate.
  destruct (fix_all fix_pattern _); simpl; [|discriminate].
  destruct (fix_all (fix_choice "severity" _ _) _); simpl; [|discriminate].
  destruct (fix_all (fix_choice "direction" _ _) _); simpl; [|discriminate].
  intros [= <-]. reflexivity.
Qed.

Lemma first_candidate_keys rt candidates d :
  first_candidate rt candidates = Some (Ok d) -> Dict.keys d = insight_keys.
Proof.
  induction candidates as [|c rest IH]; simpl; [discriminate|].
  destruct (json_loads rt c) as [j|]; [|exact IH].
  destruct (has_insight_key j); [|exact IH].
  intros [= H]. exact (validate_keys _ _ H).
Qed.

Lemma insights_of_reply_keys rt first reply d :
  insights_of_reply rt first reply = Ok d -> Dict.keys d = insight_keys.
Proof.
  unfold insights_of_reply. destruct reply as [s|]; [|discriminate].
  destruct (is_error_reply first s); [discriminate|].
  destruct (json_loads rt s) as [j|]; [apply validate_keys|].
  unfold parse_text_response_to_insights.
  destruct (first_candidate rt (json_candidates rt s)) as [r|] eqn:Hc.
  - intros ->. exact (first_candidate_keys _ _ _ Hc).
  - intros [= <-]. reflexivity.
Qed.

(** Whatever the provider returns, the insights have the four keys and no
    other. *)
Lemma generate_sitrep_insights_keys rt l data :
  Dict.keys (generate_sitrep_insights rt l data) = insight_keys.
Proof.
  unfold generate_sitrep_insights. destruct data as [|r data]; [reflexivity|].
  unfold analyze_with_openrouter.
  destruct (negb _); [reflexivity|].
  destruct (insights_of_reply rt true (first_reply l)) as [d|] eqn:H1.
  - exact (insights_of_reply_keys _ _ _ _ H1).
  - destruct (given (api_key l)); [|reflexivity].
    destruct (insights_of_reply rt false (second_reply l)) as [d|] eqn:H2.
    + exact (insights_of_reply_keys _ _ _ _ H2).
    + reflexivity.
Qed.

(** A response from which no candidate decodes to a dictionary with one
    of the three keys gets the key-word insights. *)
Lemma parse_text_falls_back rt text :
  Forall (fun c => match json_loads rt c with
                   | Some j => has_insight_key j = false
                   | None => True
                   end) (json_candidates rt text) ->
  parse_text_response_to_insights rt text = Ok (keyword_insights text).
Proof.
  unfold parse_text_response_to_insights. intros H.
  assert (Hnone : first_candidate rt (json_candidates rt text) = None).
  { induction H as [|c rest Hc _ IH]; simpl; [reflexivity|].
    destruct (json_loads rt c) as [j|]; [|exact IH].
    rewrite Hc. exact IH. }
  rewrite Hnone. reflexivity.
Qed.

Lemma clamp_confidence_range c c' :
  clamp_confidence c = Ok c' -> confidence_in_range c'.
Proof.
  destruct c as [|b|z|f| | |]; simpl; try discriminate; intros [= <-].
  - destruct b; simpl; [reflexivity|lia].
  - destruct (0 <? z) eqn:H0; [|simpl; lia].
    destruct (z <? 100) eqn:H1; simpl; lia.
  - destruct (PrimFloat.ltb 0 f) eqn:H0; [|simpl; lia].
    destruct (PrimFloat.ltb f 100) eqn:H1; simpl; [auto|lia].
Qed.

Lemma fix_pattern_ok p p' :
  fix_pattern p = Ok p' -> field_ok "confidence" confidence_in_range p'.
Proof.
  unfold fix_pattern. destruct p as [| | | | | |d]; try discriminate.
  destruct (clamp_confidence _) as [c|] eqn:Hc; simpl; [|discriminate].
  intros [= <-]. eexists _, c. split; [reflexivity|].
  split; [apply dict_get_set|]. exact (clamp_confidence_range _ _ Hc).
Qed.

Lemma one_of_true allowed j : one_of allowed j = true -> is_one_of allowed j.
Proof.
  destruct j as [| | | |s| |]; simpl; try discriminate.
  intros H. apply existsb_exists in H. destruct H as (t & Hin & Heq).
  apply String.eqb_eq in Heq. subst t. exists s. auto.
Qed.

Lemma fix_choice_ok field allowed dflt item item' :
  In dflt allowed ->
  fix_choice field allowed dflt item = Ok item' ->
  field_ok field (is_one_of allowed) item'.
Proof.
  intros Hd. unfold fix_choice. destruct item as [| | | | | |d]; try discriminate.
  intros [= <-].
  set (d1 := if Dict.has d field then d else Dict.set d field (JStr dflt)).
  destruct (one_of allowed (Dict.get_none d1 field)) eqn:H.
  - apply one_of_true in H. unfold Dict.get_none in H.
    destruct (Dict.get d1 field) as [v|] eqn:Hg.
    + exists d1, v. auto.
    + destruct H as (s & Hs & _). discriminate.
  - eexists _, (JStr dflt). split; [reflexivity|].
    split; [apply dict_get_set|]. exists dflt. auto.
Qed.

Lemma fix_all_ok repair field ok v v' :
  (forall x x', repair x = Ok x' -> field_ok field ok x') ->
  fix_all repair v = Ok v' -> items_ok field ok v'.
Proof.
  intros Hrep. unfold fix_all, items_ok.
  destruct v as [| | | |s|l|d]; try discriminate.
  - destruct s; [|discriminate]. intros [= <-] l; discriminate.
  - destruct (map_res repair l) as [l'|] eqn:Hm; simpl; [|discriminate].
    intros [= <-] l0 [= <-].
    revert l' Hm. induction l as [|x l IH]; simpl; intros l'.
    + intros [= <-]. constructor.
    + destruct (repair x) as [x'|] eqn:Hx; simpl; [|discriminate].
      destruct (map_res repair l) as [l''|]; simpl; [|discriminate].
      intros [= <-]. constructor; [exact (Hrep _ _ Hx)|].
      apply IH. reflexivity.
  - destruct d; [|discriminate]. intros [= <-] l; discriminate.
Qed.

(** Every result of the validation has its confidences in [0, 100], its
    severities among High, Medium, Low and its directions among Upward,
    Downward, Stable. *)
Lemma validate_ranges insights d :
  validate_and_format_insights insights = Ok d ->
  items_ok "confidence" confidence_in_range (Dict.get_none d "patterns")
  /\ items_ok "severity" (is_one_of severities) (Dict.get_none d "anomalies")
  /\ items_ok "direction" (is_one_of directions) (Dict.get_none d "trends").
Proof.
  unfold validate_and_format_insights.
  destruct insights as [| | | | | |o]; try discriminate.
  destruct (fix_all fix_pattern _) as [p|] eqn:Hp; simpl; [|discriminate].
  destruct (fix_all (fix_choice "severity" _ _) _) as [a|] eqn:Ha;
    simpl; [|discriminate].
  destruct (fix_all (fix_choice "direction" _ _) _) as [t|] eqn:Ht;
    simpl; [|discriminate].
  intros [= <-]. unfold Dict.get_none. simpl. repeat split.
  - eapply fix_all_ok; [|exact Hp]. apply fix_pattern_ok.
  - eapply fix_all_ok; [|exact Ha]. intros x x'.
    apply fix_choice_ok. simpl. auto.
  - eapply fix_all_ok; [|exact Ht]. intros x x'.
    apply fix_choice_ok. simpl. auto.
Qed.

(** C9 (defect). The reply "42" is valid JSON and holds no JSON object:
    none of the strategies of [parse_text_response_to_insights] finds a
    candidate in it, and that function would answer with the key-word
    insights. [analyze_with_openrouter] hands the decoded number to the
    validation, which raises; the second attempt gets the same reply and
    ends the same way, and the pipeline answers with the "LLM
    unavailable" insights instead. The four keys are there all the
    same. *)
Theorem insights_of_non_object_reply :
  let l := LlmEnv true true (Some "key") (Some "42") (Some "42") in
  let result := generate_sitrep_insights sample_runtime l sample_dated in
  json_loads sample_runtime "42" = Some (JInt 42)
  /\ json_candidates sample_runtime "42" = []
  /\ parse_text_response_to_insights sample_runtime "42"
     = Ok (keyword_insights "42")
  /\ validate_and_format_insights (JInt 42) = Raise AttributeError
  /\ result = basic_insights 3
  /\ result <> keyword_insights "42"
  /\ Dict.keys result = insight_keys.
Proof.
  repeat split; try reflexivity. discriminate.
Qed.

(** ** Layers: deleting, listing, reading back *)

Lemma string_length_app (a b : string) :
  String.length (a +:+ b) = (String.length a + String.length b)%nat.
Proof. induction a as [|c a IH]; simpl; [reflexivity|]. rewrite IH. reflexivity. Qed.

Lemma string_app_cancel_r (a b s : string) : a +:+ s = b +:+ s -> a = b.
Proof.
  revert b. induction a as [|c a IH]; intros [|d b] H.
  - reflexivity.
  - apply (f_equal String.length) in H.
    rewrite !string_length_app in H. simpl in H. lia.
  - apply (f_equal String.length) in H.
    rewrite !string_length_app in H. simpl in H. lia.
  - cbn in H. injection H as -> H. f_equal. apply IH. exact H.
Qed.

Lemma layer_path_inj (a b : string) : layer_path a = layer_path b -> a = b.
Proof. apply string_app_cancel_r. Qed.

Lemma endswith_spec (s suffix : string) :
  StrMore.endswith s suffix = true <-> exists p, s = p +:+ suffix.
Proof.
  induction s as [|c s IH]; cbn [StrMore.endswith].
  - rewrite orb_false_r, String.eqb_eq. split.
    + intros <-. exists "". reflexivity.
    + intros [[|d p] H]; cbn in H; [auto|discriminate].
  - rewrite orb_true_iff, String.eqb_eq, IH. split.
    + intros [<-|[p ->]]; [exists ""; reflexivity|].
      exists (String c p). reflexivity.
    + intros [[|d p] H]; cbn in H; [left; auto|].
      injection H as -> ->. right. eauto.
Qed.

Lemma str_take_app (p s : string) : Str.take (String.length p) (p +:+ s) = p.
Proof.
  unfold Str.take. induction p as [|c p IH]; simpl.
  - destruct s; reflexivity.
  - rewrite IH. reflexivity.
Qed.

Lemma drop_last_app (p s : string) :
  StrMore.drop_last (String.length s) (p +:+ s) = p.
Proof.
  unfold StrMore.drop_last. rewrite string_length_app.
  replace (String.length p + String.length s - String.length s)%nat
    with (String.length p) by lia.
  apply str_take_app.
Qed.

(** A GET of [/data/<name>] is served by [get_geojson] for every name
    but "layers", whose path belongs to [list_layers]. *)
Lemma get_data_layer e w listing names name :
  name <> "layers" ->
  get_data e w listing names name = get_geojson e w name.
Proof.
  intros Hne. unfold get_data.
  destruct (String.eqb_spec name "layers"); [contradiction|reflexivity].
Qed.

Lemma get_data_layers e w listing names :
  get_data e w listing names "layers" = list_layers e listing names.
Proof. reflexivity. Qed.

(** For a layer stored under the name "layers" the path of the read
    endpoint answers with the list of names, before and after the layer
    is deleted, and never with the document or with 404. *)
Example get_data_layers_is_the_list :
  let e := sample_env StorageUp DbUp in
  let w := set_bucket sample_world {[ "layers.geojson" := sample_layer ]} in
  let listing := Some [[("name", JStr "layers.geojson")]] in
  get_geojson e w "layers" = Response sample_layer 200
  /\ get_data e w listing [] "layers" = Response (JArr [JStr "layers"]) 200
  /\ get_data e (fst (delete_layer e w "layers")) (Some []) [] "layers"
     = Response (JArr []) 200.
Proof. repeat split; reflexivity. Qed.

(** X1. Once a layer is deleted it cannot be read any more: for every
    layer name but "layers" (whose path is that of the list of layers),
    with the storage service up or down (a service that refuses writes
    keeps its copy), a GET of [/data/<layer>] answers 404 after
    [delete_layer], whatever the stores held. *)
Theorem delete_layer_then_get_geojson
    (e : env) (w : world) (listing : option (list dict))
    (names : list string) (layer : string) :
  layer <> "layers" ->
  storage e <> StorageDenied ->
  get_data e (fst (delete_layer e w layer)) listing names layer
  = Response (error_body "Layer not found") 404.
Proof.
  intros Hne Hs. rewrite get_data_layer by exact Hne.
  unfold delete_layer, delete_layer_from_bucket, get_geojson,
    download_layer_from_bucket.
  destruct (storage e) eqn:E; [|congruence|]; simpl;
    destruct (w_files w !! layer_path layer) eqn:F; simpl;
    rewrite ?E, ?lookup_delete_eq, ?F; reflexivity.
Qed.

Lemma delete_layer_then_get_geojson_witness :
  let e := sample_env StorageUp DbUp in
  let w := set_bucket sample_world {[ "roads.geojson" := sample_layer ]} in
  get_data e w None [] "roads" = Response sample_layer 200
  /\ get_data e (fst (delete_layer e w "roads")) None [] "roads"
     = Response (error_body "Layer not found") 404.
Proof.
  split; [reflexivity|].
  apply (delete_layer_then_get_geojson (sample_env StorageUp DbUp)).
  - discriminate.
  - discriminate.
Defined.

Lemma get_geojson_same_stores e w w' layer :
  w_bucket w' !! layer_path layer = w_bucket w !! layer_path layer ->
  w_files w' !! layer_path layer = w_files w !! layer_path layer ->
  get_geojson e w' layer = get_geojson e w layer.
Proof.
  intros Hb Hf. unfold get_geojson, download_layer_from_bucket.
  rewrite Hb, Hf. reflexivity.
Qed.

Lemma upload_other_layer e w layer doc other :
  other <> layer ->
  let w' := fst (upload_layer_to_bucket e w layer doc) in
  w_bucket w' !! layer_path other = w_bucket w !! layer_path other
  /\ w_files w' = w_files w.
Proof.
  intros Hne.
  assert (Hp : layer_path layer <> layer_path other)
    by (intros H; apply layer_path_inj in H; congruence).
  destruct (upload_outcome e w layer doc) as [(Hup & _ & _)|[msg Hup]];
    rewrite Hup; simpl; [|auto].
  split; [|reflexivity]. apply lookup_insert_ne. exact Hp.
Qed.

Lemma update_layer_local_other e w layer features other :
  other <> layer ->
  let w' := fst (update_layer_local e w layer features) in
  w_bucket w' = w_bucket w
  /\ w_files w' !! layer_path other = w_files w !! layer_path other.
Proof.
  intros Hne.
  assert (Hp : layer_path layer <> layer_path other)
    by (intros H; apply layer_path_inj in H; congruence).
  unfold update_layer_local.
  destruct (merged_content _ _) as [[content|]|]; simpl; auto.
  destruct (py_len features); simpl; split; auto;
    apply lookup_insert_ne; exact Hp.
Qed.

(** X2. Updating or deleting one layer leaves every other layer as it
    was: whatever the request and the state of the services, reading a
    layer of another name gives the same answer before and after. *)
Theorem layer_writes_leave_other_layers
    (e : env) (w : world) (layer other : string) (data : option dict) :
  other <> layer ->
  get_geojson e (fst (update_layer e w layer data)) other
  = get_geojson e w other
  /\ get_geojson e (fst (delete_layer e w layer)) other
     = get_geojson e w other.
Proof.
  intros Hne.
  assert (Hp : layer_path layer <> layer_path other)
    by (intros H; apply layer_path_inj in H; congruence).
  split.
  - unfold update_layer.
    destruct data as [[|kv d]|]; try reflexivity.
    destruct (Dict.get (kv :: d) "features") as [features|]; [|reflexivity].
    pose proof (upload_other_layer e w layer (feature_collection features)
                  other Hne) as [Hb Hf].
    destruct (upload_layer_to_bucket e w layer (feature_collection features))
      as [w1 result]. simpl in Hb, Hf.
    assert (Hlocal :
              get_geojson e (fst (update_layer_local e w1 layer features)) other
              = get_geojson e w other).
    { pose proof (update_layer_local_other e w1 layer features other Hne)
        as [Hb' Hf'].
      apply get_geojson_same_stores; [rewrite Hb'; exact Hb|].
      rewrite Hf', Hf. reflexivity. }
    destruct (truthy (Dict.get_none result "success")); [|exact Hlocal].
    destruct (py_len features); [|exact Hlocal].
    simpl. apply get_geojson_same_stores; [exact Hb|rewrite Hf; reflexivity].
  - unfold delete_layer, delete_layer_from_bucket.
    destruct (storage e); simpl;
      destruct (w_files w !! layer_path layer); simpl;
      apply get_geojson_same_stores; simpl;
      rewrite ?lookup_delete_ne by exact Hp; reflexivity.
Qed.

Lemma layer_writes_leave_other_layers_witness :
  let e := sample_env StorageUp DbUp in
  let w := set_bucket sample_world {[ "roads.geojson" := sample_layer ]} in
  get_geojson e (fst (delete_layer e w "rivers")) "roads"
  = Response sample_layer 200.
Proof.
  intros e w.
  assert (H : "roads" <> "rivers") by discriminate.
  rewrite (proj2 (layer_writes_leave_other_layers e w "rivers" "roads" None H)).
  reflexivity.
Defined.

Lemma update_layer_success_cases e w w' layer data features where_ n :
  Dict.get data "features" = Some (JArr features) ->
  update_layer e w layer (Some data)
  = (w', Response (updated_body n where_) 200) ->
  where_ = "supabase"
  /\ w_bucket w' !! layer_path layer
     = Some (feature_collection (JArr features))
  /\ storage e = StorageUp
  \/ where_ = "local"
     /\ exists d,
          w_files w' !! layer_path layer = Some (Doc (JObj d))
          /\ Dict.get d "features" = Some (JArr features)
          /\ w_bucket w' = w_bucket w.
Proof.
  intros Hget. unfold update_layer.
  destruct data as [|kv data']; [discriminate|].
  rewrite Hget.
  destruct (upload_outcome e w layer (feature_collection (JArr features)))
    as [(Hup & Hs & Hb)|[msg Hup]]; rewrite Hup; simpl.
  - intros [= <- _ <-]. left. repeat split; auto. simpl.
    apply lookup_insert_eq.
  - unfold update_layer_local.
    destruct (merged_content (w_files w !! layer_path layer) (JArr features))
      as [[content|]|] eqn:Hm; simpl; try (intros [= _ _ H]; discriminate).
    intros [= <- _ <-].
    destruct (merged_content_again _ _ _ Hm) as [(d & -> & Hd) _].
    right. split; [reflexivity|]. exists d. repeat split; auto.
    simpl. apply lookup_insert_eq.
Qed.

(** X3. Read after write: for every layer name but "layers" (whose path
    is that of the list of layers), when a layer update succeeds and
    either went to the bucket, or the bucket holds no copy of the layer,
    or the storage service is down, a GET of [/data/<layer>] gives a
    document whose features are the submitted ones. (A bucket that
    refuses the write and still holds an older copy keeps serving that
    copy.) *)
Theorem update_layer_then_get_geojson
    (e : env) (w w' : world) (listing : option (list dict))
    (names : list string) (layer : string) (data : dict)
    (features : list json) (where_ : string) :
  layer <> "layers" ->
  Dict.get data "features" = Some (JArr features) ->
  update_layer e w layer (Some data)
  = (w', Response (updated_body (Z.of_nat (length features)) where_) 200) ->
  where_ = "supabase" \/ w_bucket w !! layer_path layer = None
  \/ storage e = StorageDown ->
  exists doc,
    get_data e w' listing names layer = Response doc 200
    /\ features_of doc = Some (JArr features).
Proof.
  intros Hne Hget Hupd Hcase. rewrite get_data_layer by exact Hne.
  destruct (update_layer_success_cases e w w' layer data features
              where_ _ Hget Hupd) as [(-> & Hb & Hs)|(-> & d & Hf & Hd & Hw)].
  - exists (feature_collection (JArr features)).
    unfold get_geojson, download_layer_from_bucket.
    rewrite Hs, Hb. simpl. split; reflexivity.
  - exists (JObj d). split; [|exact Hd].
    unfold get_geojson, download_layer_from_bucket. rewrite Hw, Hf.
    destruct Hcase as [Hc|[Hc|Hc]]; [discriminate|rewrite Hc|rewrite Hc];
      destruct (storage e); reflexivity.
Qed.

Lemma update_layer_then_get_geojson_witness :
  let e := sample_env StorageDown DbUp in
  let data := [("features", JArr [JStr "f1"])] in
  exists w' doc,
    update_layer e sample_world "roads" (Some data)
    = (w', Response (updated_body 1 "local") 200)
    /\ get_data e w' None [] "roads" = Response doc 200
    /\ features_of doc = Some (JArr [JStr "f1"]).
Proof.
  intros e data.
  exists (fst (update_layer e sample_world "roads" (Some data))).
  assert (H : update_layer e sample_world "roads" (Some data)
              = (fst (update_layer e sample_world "roads" (Some data)),
                 Response (updated_body 1 "local") 200)) by reflexivity.
  assert (Hne : "roads" <> "layers") by discriminate.
  destruct (update_layer_then_get_geojson e sample_world _ None [] "roads"
              data [JStr "f1"] "local" Hne eq_refl H) as (doc & Hdoc & Hf).
  - right. right. reflexivity.
  - exists doc. auto.
Defined.



(** X5. A features value that has no length (null, a number, a boolean)
    is not rejected before the upload: with the storage service up, the
    layer in the bucket is replaced by a collection that holds this
    value, and the call still answers with an error. *)
Theorem update_layer_unsized_features
    (e : env) (w : world) (layer : string) (d : dict) (features : json)
    (x : exn) :
  Dict.get d "features" = Some features ->
  py_len features = Raise x ->
  storage e = StorageUp -> bucket_ready e = true ->
  http (snd (update_layer e w layer (Some d))) <> 200
  /\ w_bucket (fst (update_layer e w layer (Some d))) !! layer_path layer
     = Some (feature_collection features).
Proof.
  intros Hget Hlen Hs Hb. unfold update_layer.
  destruct d as [|kv d']; [discriminate|]. rewrite Hget.
  destruct (upload_outcome e w layer (feature_collection features))
    as [(Hup & _ & _)|[msg Hup]].
  - rewrite Hup. simpl. rewrite Hlen. unfold update_layer_local.
    destruct (merged_content _ _) as [[content|]|]; simpl;
      rewrite ?Hlen; simpl;
      (split; [discriminate|apply lookup_insert_eq]).
  - exfalso. revert Hup.
    unfold upload_layer_to_bucket, update_layer_in_bucket.
    rewrite Hs, Hb. simpl.
    destruct (w_bucket w !! layer_path layer); intros [= _ H]; discriminate.
Qed.

Lemma update_layer_unsized_features_witness :
  let e := sample_env StorageUp DbUp in
  let w := set_bucket sample_world {[ "roads.geojson" := sample_layer ]} in
  let out := update_layer e w "roads" (Some [("features", JNull)]) in
  http (snd out) <> 200
  /\ w_bucket (fst out) !! layer_path "roads"
     = Some (feature_collection JNull).
Proof.
  intros e w out.
  apply (update_layer_unsized_features e w "roads" [("features", JNull)]
           JNull TypeError); reflexivity.
Defined.

Lemma listed_layer_some info n :
  listed_layer info = Ok (Some n) <->
  Dict.get_default info "name" (JStr "") = JStr (layer_path n).
Proof.
  unfold listed_layer, layer_path.
  destruct (Dict.get_default info "name" (JStr "")) as [| | | |name| |];
    try (split; discriminate).
  destruct (StrMore.endswith name ".geojson") eqn:E.
  - apply endswith_spec in E. destruct E as [p ->].
    change 8%nat with (String.length ".geojson").
    rewrite drop_last_app. split; [intros [= ->]; reflexivity|].
    intros [= H]. apply string_app_cancel_r in H. subst. reflexivity.
  - split; [discriminate|]. intros [= ->].
    assert (H : StrMore.endswith (n +:+ ".geojson") ".geojson" = true)
      by (apply endswith_spec; eauto).
    congruence.
Qed.

(** X6. The layers that [list_layers_in_bucket] reports are exactly the
    names [n] for which the bucket lists a file called [n].geojson; and
    as long as the bucket can be listed, [list_layers] answers with these
    names only, whatever the local directory holds. *)
Theorem listed_layers_are_bucket_files
    (e : env) (infos : list dict) (names : list string) :
  listed_layers infos = Ok names ->
  (forall n,
     In n names <->
     exists info,
       In info infos
       /\ Dict.get_default info "name" (JStr "") = JStr (layer_path n))
  /\ forall local_names,
       list_layers e (Some infos) local_names
       = Response (JArr (map JStr names)) 200.
Proof.
  intros H. split.
  - revert names H. induction infos as [|info rest IH]; intros names; simpl.
    + intros [= <-] n. split; [intros []|intros (? & [] & _)].
    + destruct (listed_layer info) as [o|] eqn:Ho; simpl; [|discriminate].
      destruct (listed_layers rest) as [ns|]; simpl; [|discriminate].
      intros [= <-] n. specialize (IH ns eq_refl n).
      split.
      * intros Hin.
        assert (Hcase : o = Some n \/ In n ns)
          by (destruct o; simpl in Hin; [destruct Hin; subst|]; auto).
        destruct Hcase as [->|Hin'].
        -- exists info. split; [left; reflexivity|].
           apply listed_layer_some. exact Ho.
        -- apply IH in Hin'. destruct Hin' as (i & Hi & Hn).
           exists i. split; [right; exact Hi|exact Hn].
      * intros (i & [<-|Hi] & Hn).
        -- apply listed_layer_some in Hn. rewrite Hn in Ho.
           injection Ho as <-. left. reflexivity.
        -- assert (Hin : In n ns) by (apply IH; eauto).
           destruct o; [right|]; exact Hin.
  - intros local_names. unfold list_layers, list_layers_in_bucket.
    rewrite H. reflexivity.
Qed.

Lemma listed_layers_are_bucket_files_witness :
  let infos := [[("name", JStr "roads.geojson")];
                [("name", JStr "notes.txt")];
                [("name", JStr "rivers.geojson")]] in
  listed_layers infos = Ok ["roads"; "rivers"]
  /\ list_layers (sample_env StorageUp DbUp) (Some infos) ["camps.geojson"]
     = Response (JArr [JStr "roads"; JStr "rivers"]) 200.
Proof.
  intros infos. split; [reflexivity|].
  apply (listed_layers_are_bucket_files (sample_env StorageUp DbUp) infos
           ["roads"; "rivers"]).
  reflexivity.
Defined.

(** ** Heat map: bounds, totals, order *)

Lemma SFltb_asym (a b : spec_float) : SFltb a b = true -> SFltb b a = false.
Proof.
  unfold SFltb, SFcompare.
  destruct a as [sa|sa| |sa ma ea], b as [sb|sb| |sb mb eb];
    try destruct sa; try destruct sb; simpl; try congruence;
    change (Pos.compare_cont Eq mb ma) with (Pos.compare mb ma);
    change (Pos.compare_cont Eq ma mb) with (Pos.compare ma mb);
    rewrite (Z.compare_antisym ea eb), (Pos.compare_antisym ma mb);
    destruct (ea ?= eb), (ma ?= mb)%positive; simpl; congruence.
Qed.

Lemma float_ltb_asym (a b : float) :
  PrimFloat.ltb a b = true -> PrimFloat.ltb b a = false.
Proof. rewrite !ltb_spec. apply SFltb_asym. Qed.

Lemma severity_weight_range (s : string) : 1 <= severity_weight s <= 5.
Proof.
  unfold severity_weight.
  repeat match goal with |- context [if ?b then _ else _] => destruct b end;
    lia.
Qed.

Lemma heat_rows_weight_range rt sitreps rows row :
  heat_rows rt sitreps = Ok rows -> In row rows -> 1 <= hr_weight row <= 5.
Proof.
  intros Hrows Hin.
  destruct (heat_rows_origin _ _ _ _ Hrows Hin) as (sitrep & _ & Hrow).
  destruct (heat_row_of_weight _ _ _ Hrow) as (sev & _ & ->).
  apply severity_weight_range.
Qed.

Lemma heat_rows_length rt sitreps : forall rows,
  heat_rows rt sitreps = Ok rows -> (length rows <= length sitreps)%nat.
Proof.
  induction sitreps as [|s rest IH]; intros rows; simpl.
  - intros [= <-]. simpl. lia.
  - destruct (heat_row_of rt s) as [o|]; simpl; [|discriminate].
    destruct (heat_rows rt rest) as [rows'|]; simpl; [|discriminate].
    intros [= <-]. specialize (IH rows' eq_refl).
    destruct o; simpl; lia.
Qed.

Lemma sum_weights_range (rows : list heat_row) :
  (forall r, In r rows -> 1 <= hr_weight r <= 5) ->
  Z.of_nat (length rows) <= sum_weights rows <= 5 * Z.of_nat (length rows).
Proof.
  induction rows as [|r rows IH]; intros H.
  - simpl. lia.
  - cbn [sum_weights fold_right length]. fold (sum_weights rows).
    rewrite Nat2Z.inj_succ.
    pose proof (H r (or_introl eq_refl)).
    assert (Hr : forall r', In r' rows -> 1 <= hr_weight r' <= 5)
      by (intros r' Hin; apply H; right; exact Hin).
    specialize (IH Hr). lia.
Qed.

Lemma grid_find_in (gd : list (grid_key * cell)) k c :
  NoDup (map fst gd) -> In (k, c) gd -> grid_find gd k = Some c.
Proof.
  induction gd as [|[k' c'] gd IH]; simpl; [tauto|].
  intros Hnd Hin. apply NoDup_cons in Hnd. destruct Hnd as [Hk' Hnd].
  destruct Hin as [[= -> ->]|Hin]; [rewrite key_eqb_refl; reflexivity|].
  destruct (key_eqb k k') eqn:E; [|apply IH; assumption].
  apply key_eqb_eq in E. subst k'. exfalso. apply Hk'.
  apply list_elem_of_In. apply in_map_iff. exists (k, c). auto.
Qed.

(** A cell of the aggregated grid counts the rows filed under its key,
    at least one, and its weight is their summed weight. *)
Lemma grid_aggregate_cell g rows k c :
  In (k, c) (grid_aggregate g rows) ->
  c_count c = Z.of_nat (length (List.filter (in_bucket g k) rows))
  /\ c_weight c = sum_weights (List.filter (in_bucket g k) rows)
  /\ List.filter (in_bucket g k) rows <> [].
Proof.
  intros Hin.
  assert (F : grid_find (grid_aggregate g rows) k = Some c).
  { apply grid_find_in; [|exact Hin].
    apply grid_fold_nodup. simpl. apply NoDup_nil_2. }
  pose proof (grid_fold_count g rows [] k) as Hc.
  pose proof (grid_fold_weight g rows [] k) as Hw.
  pose proof (grid_fold_present g rows [] k) as Hp.
  fold (grid_aggregate g rows) in Hc, Hw, Hp. rewrite F in Hc, Hw, Hp.
  simpl in Hc, Hw. repeat split; try lia.
  intros Hnil. destruct Hp as [_ Hp].
  specialize (Hp (conj eq_refl Hnil)). discriminate.
Qed.

Lemma cells_count_bump gd k glat glon w :
  cells_count (grid_bump gd k glat glon w) = cells_count gd + 1.
Proof.
  induction gd as [|[k' c] gd IH]; simpl; [lia|].
  destruct (key_eqb k k'); simpl; [lia|].
  fold cells_count in *. unfold cells_count in IH |- *.
  simpl. rewrite IH. lia.
Qed.

Lemma cells_count_fold g rows : forall gd,
  cells_count (fold_left (grid_step g) rows gd)
  <= cells_count gd + Z.of_nat (length rows).
Proof.
  induction rows as [|r rows IH]; intros gd; cbn [fold_left length].
  - lia.
  - specialize (IH (grid_step g gd r)). rewrite Nat2Z.inj_succ.
    assert (H : cells_count (grid_step g gd r) <= cells_count gd + 1).
    { unfold grid_step. destruct (grid_point g r) as [p|]; [|lia].
      rewrite cells_count_bump. lia. }
    lia.
Qed.

Lemma total_count_perm (l l' : list heat_point) :
  Permutation l l' -> total_count l = total_count l'.
Proof.
  unfold total_count. induction 1; simpl; lia.
Qed.

Lemma total_count_omap (gd : list (grid_key * cell)) :
  (forall kc, In kc gd -> 0 <= c_count (snd kc)) ->
  total_count (omap (fun kc => heat_point_of (snd kc)) gd) <= cells_count gd.
Proof.
  induction gd as [|kc gd IH]; intros H; [simpl; lia|].
  assert (H0 : 0 <= c_count (snd kc)) by (apply H; left; reflexivity).
  assert (IH' : total_count (omap (fun kc => heat_point_of (snd kc)) gd)
                <= cells_count gd)
    by (apply IH; intros kc' Hin; apply H; right; exact Hin).
  cbn [omap list_omap cells_count fold_right]. fold (cells_count gd).
  unfold heat_point_of at 1.
  destruct (Flt.of_Z (c_weight (snd kc))); [|lia].
  cbn [total_count fold_right hp_count].
  fold (total_count (omap (fun kc => heat_point_of (snd kc)) gd)). lia.
Qed.

Lemma heat_points_origin gd p :
  In p (heat_points_of gd) ->
  exists k c, In (k, c) gd /\ heat_point_of c = Some p.
Proof.
  unfold heat_points_of. intros Hin. apply stable_sort_In in Hin.
  apply list_elem_of_In in Hin. apply list_elem_of_omap in Hin.
  destruct Hin as ([k c] & Hin & Hp). exists k, c.
  split; [apply list_elem_of_In; exact Hin|exact Hp].
Qed.

(** X7. In every answer of the heat map, a heat point stands for at
    least one incident, its weight lies between its count and five times
    its count, and its intensity does not exceed 1; the counts of the
    heat points together do not exceed [totalIncidents], which does not
    exceed the number of incidents fetched. *)
Theorem heatmap_points_bounded
    (rt : runtime) (sitreps : list dict) (arg : option string) (h : heatmap) :
  api_sitreps_heatmap rt sitreps arg = Ok h ->
  (forall p, In p (heatPoints h) ->
     1 <= hp_count p
     /\ hp_count p <= hp_weight p <= 5 * hp_count p
     /\ PrimFloat.ltb 1 (hp_intensity p) = false)
  /\ total_count (heatPoints h) <= totalIncidents h
  /\ totalIncidents h <= Z.of_nat (length sitreps).
Proof.
  unfold api_sitreps_heatmap.
  destruct (heat_rows rt sitreps) as [rows|] eqn:Hrows; simpl; [|discriminate].
  destruct (grid_size_of rt arg) as [g|]; simpl; [|discriminate].
  intros [= <-]. cbn [heatPoints totalIncidents].
  assert (Hcell : forall k c, In (k, c) (grid_aggregate g rows) ->
                    1 <= c_count c /\ c_count c <= c_weight c <= 5 * c_count c).
  { intros k c Hin.
    destruct (grid_aggregate_cell g rows k c Hin) as (Hc & Hw & Hne).
    rewrite Hc, Hw.
    pose proof (sum_weights_range (List.filter (in_bucket g k) rows)) as Hr.
    split.
    - destruct (List.filter (in_bucket g k) rows); [congruence|simpl; lia].
    - apply Hr. intros r Hin'. apply filter_In in Hin'.
      apply (heat_rows_weight_range rt sitreps rows); tauto. }
  split; [|split].
  - intros p Hp. apply heat_points_origin in Hp.
    destruct Hp as (k & c & Hin & Hp). specialize (Hcell k c Hin).
    unfold heat_point_of in Hp.
    destruct (Flt.of_Z (c_weight c)) as [wf|]; [|discriminate].
    injection Hp as <-. cbn [hp_count hp_weight hp_intensity].
    repeat split; try lia.
    destruct (PrimFloat.ltb 1 (wf / 10)) eqn:E; [reflexivity|exact E].
  - unfold heat_points_of.
    rewrite (total_count_perm _ _ (stable_sort_perm _ _)).
    etransitivity.
    + apply total_count_omap. intros [k c] Hin.
      specialize (Hcell k c Hin). simpl. lia.
    + pose proof (cells_count_fold g rows []) as H. simpl in H. exact H.
  - apply Nat2Z.inj_le. eapply heat_rows_length. exact Hrows.
Qed.

Lemma heatmap_points_bounded_witness :
  exists h,
    api_sitreps_heatmap sample_runtime sample_sitreps None = Ok h
    /\ map hp_count (heatPoints h) = [2; 1]
    /\ map hp_weight (heatPoints h) = [9; 1]
    /\ total_count (heatPoints h) <= totalIncidents h
    /\ totalIncidents h <= 3.
Proof.
  destruct (api_sitreps_heatmap sample_runtime sample_sitreps None)
    as [h|] eqn:E; [|vm_compute in E; discriminate].
  exists h.
  destruct (heatmap_points_bounded sample_runtime sample_sitreps None h E)
    as (_ & Ht & Hn).
  split; [reflexivity|].
  assert (H : Ok h = api_sitreps_heatmap sample_runtime sample_sitreps None)
    by (symmetry; exact E).
  vm_compute in H. injection H as ->.
  repeat split; try reflexivity; assumption.
Defined.

(** X8. The heat points of an answer are in descending order of
    intensity: no point is less intense than the point after it; and the
    critical areas are the heat points up to the tenth, in that order. *)
Theorem heatmap_points_sorted
    (rt : runtime) (sitreps : list dict) (arg : option string) (h : heatmap) :
  api_sitreps_heatmap rt sitreps arg = Ok h ->
  Sorted not_less_intense (heatPoints h)
  /\ criticalAreas h = take 10 (heatPoints h)
  /\ Sorted not_less_intense (criticalAreas h)
  /\ (length (criticalAreas h) <= 10)%nat.
Proof.
  unfold api_sitreps_heatmap.
  destruct (heat_rows rt sitreps) as [rows|]; simpl; [|discriminate].
  destruct (grid_size_of rt arg) as [g|]; simpl; [|discriminate].
  intros [= <-]. cbn [heatPoints criticalAreas].
  assert (Hs : Sorted not_less_intense (heat_points_of (grid_aggregate g rows))).
  { unfold heat_points_of.
    apply (stable_sort_sorted
             (fun y x => PrimFloat.ltb (hp_intensity x) (hp_intensity y))).
    intros a b. apply float_ltb_asym. }
  split; [exact Hs|]. split; [reflexivity|]. split.
  - generalize 10%nat. revert Hs.
    generalize (heat_points_of (grid_aggregate g rows)).
    induction l as [|a l IH]; intros Hs [|n]; simpl; try constructor.
    + apply IH. inversion Hs; assumption.
    + inversion Hs as [|? ? _ Hhd]; subst.
      destruct l as [|b l], n as [|n]; simpl; constructor.
      inversion Hhd; assumption.
  - rewrite length_take. lia.
Qed.

Lemma heatmap_points_sorted_witness :
  exists h,
    api_sitreps_heatmap sample_runtime sample_sitreps None = Ok h
    /\ map hp_intensity (heatPoints h) = [0.9%float; 0.1%float]
    /\ Sorted not_less_intense (heatPoints h).
Proof.
  destruct (api_sitreps_heatmap sample_runtime sample_sitreps None)
    as [h|] eqn:E; [|vm_compute in E; discriminate].
  exists h.
  destruct (heatmap_points_sorted sample_runtime sample_sitreps None h E)
    as (Hs & _).
  split; [reflexivity|].
  assert (H : Ok h = api_sitreps_heatmap sample_runtime sample_sitreps None)
    by (symmetry; exact E).
  vm_compute in H. injection H as ->.
  split; [reflexivity|exact Hs].
Defined.

(** ** Floats: an integer below 2^53 is a float

    [float(n)] for such an integer is exact, so the conversion does not
    overflow. *)

Lemma digits2_pos_iter (p : positive) (k : positive) :
  Z.pos (digits2_pos (Pos.iter xO p k)) = Z.pos (digits2_pos p) + Z.pos k.
Proof.
  revert p. induction k using Pos.peano_ind; intros p.
  - simpl. lia.
  - rewrite Pos.iter_succ. simpl. rewrite Pos2Z.inj_succ, IHk. lia.
Qed.

Lemma digits2_pos_bound (p : positive) :
  2 ^ (Z.pos (digits2_pos p) - 1) <= Z.pos p < 2 ^ Z.pos (digits2_pos p).
Proof.
  induction p as [p IH|p IH|]; simpl digits2_pos.
  - rewrite Pos2Z.inj_succ.
    replace (Z.succ (Z.pos (digits2_pos p)) - 1) with (Z.pos (digits2_pos p)) by lia.
    rewrite Z.pow_succ_r by lia.
    assert (Z.pos (digits2_pos p) = Z.succ (Z.pos (digits2_pos p) - 1)) by lia.
    assert (2 ^ Z.pos (digits2_pos p) = 2 * 2 ^ (Z.pos (digits2_pos p) - 1)).
    { rewrite H at 1. rewrite Z.pow_succ_r by lia. reflexivity. }
    lia.
  - rewrite Pos2Z.inj_succ.
    replace (Z.succ (Z.pos (digits2_pos p)) - 1) with (Z.pos (digits2_pos p)) by lia.
    rewrite Z.pow_succ_r by lia.
    assert (Z.pos (digits2_pos p) = Z.succ (Z.pos (digits2_pos p) - 1)) by lia.
    assert (2 ^ Z.pos (digits2_pos p) = 2 * 2 ^ (Z.pos (digits2_pos p) - 1)).
    { rewrite H at 1. rewrite Z.pow_succ_r by lia. reflexivity. }
    lia.
  - simpl. lia.
Qed.

Lemma binary_round_aux_full (sx : bool) (mz : positive) (ez : Z) :
  Z.pos (digits2_pos mz) = 53 -> -1074 <= ez <= 971 ->
  binary_round_aux prec emax sx (Z.pos mz) ez loc_Exact = S754_finite sx mz ez.
Proof.
  intros Hd He.
  assert (Hf : fexp prec emax (Z.pos (digits2_pos mz) + ez) - ez = 0).
  { unfold fexp, SpecFloat.emin, prec, emax. rewrite Hd. lia. }
  unfold binary_round_aux, shr_fexp. cbn [Zdigits2 shr_record_of_loc].
  rewrite Hf. cbn [shr shr_m loc_of_shr_record round_nearest_even Zdigits2 shr_r shr_s].
  rewrite Hf. cbn [shr shr_m].
  replace (ez <=? emax - prec) with true; [reflexivity|].
  symmetry. apply Z.leb_le. unfold emax, prec. lia.
Qed.

Lemma binary_round_small (sx : bool) (p : positive) :
  Z.pos p < 2 ^ 53 ->
  exists mz ez,
    binary_round prec emax sx p 0 = S754_finite sx mz ez
    /\ valid_binary (S754_finite sx mz ez) = true.
Proof.
  intros Hp.
  pose proof (digits2_pos_bound p) as Hb.
  assert (Hd : Z.pos (digits2_pos p) <= 53).
  { destruct (Z_le_gt_dec (Z.pos (digits2_pos p)) 53) as [H|H]; [exact H|].
    exfalso.
    assert (2 ^ 53 <= 2 ^ (Z.pos (digits2_pos p) - 1))
      by (apply Z.pow_le_mono_r; lia).
    lia. }
  unfold binary_round.
  assert (Hf : fexp prec emax (Z.pos (digits2_pos p) + 0) = Z.pos (digits2_pos p) - 53).
  { unfold fexp, SpecFloat.emin, prec, emax. lia. }
  rewrite Hf. unfold shl_align.
  assert (Hvalid : forall mz ez, Z.pos (digits2_pos mz) = 53 -> -1074 <= ez <= 971 ->
            valid_binary (S754_finite sx mz ez) = true).
  { intros mz ez Hm He. unfold SpecFloat.valid_binary, bounded, canonical_mantissa.
    apply andb_true_iff. split.
    - apply Z.eqb_eq. unfold fexp, SpecFloat.emin, prec, emax. rewrite Hm. lia.
    - apply Z.leb_le. unfold emax, prec. lia. }
  destruct (Z.pos (digits2_pos p) - 53 - 0) as [|q|q] eqn:E.
  - exists p, 0. split; [apply binary_round_aux_full; lia|apply Hvalid; lia].
  - lia.
  - exists (Pos.iter xO p q), (Z.pos (digits2_pos p) - 53).
    assert (Hq : Z.pos (digits2_pos (Pos.iter xO p q)) = 53)
      by (rewrite digits2_pos_iter; lia).
    split; [apply binary_round_aux_full; lia|apply Hvalid; lia].
Qed.

Lemma SF2Prim_finite_not_infinity (x : spec_float) :
  valid_binary x = true ->
  (forall s, x <> S754_infinity s) ->
  PrimFloat.is_infinity (SF2Prim x) = false.
Proof.
  intros Hv Hx. unfold PrimFloat.is_infinity.
  rewrite FloatAxioms.eqb_spec.
  rewrite abs_spec, (Prim2SF_SF2Prim _ Hv).
  destruct x as [s|s| |s m e]; try reflexivity.
  exfalso. exact (Hx s eq_refl).
Qed.

Lemma of_Z_small (z : Z) :
  - 2 ^ 53 < z < 2 ^ 53 -> exists f, Flt.of_Z z = Some f.
Proof.
  intros Hz. unfold Flt.of_Z.
  assert (H : PrimFloat.is_infinity
                (SF2Prim (binary_normalize prec emax z 0 false)) = false).
  { destruct z as [|p|p]; simpl binary_normalize.
    - apply SF2Prim_finite_not_infinity; [reflexivity|discriminate].
    - destruct (binary_round_small false p) as (mz & ez & -> & Hv); [lia|].
      apply SF2Prim_finite_not_infinity; [exact Hv|discriminate].
    - destruct (binary_round_small true p) as (mz & ez & -> & Hv); [lia|].
      apply SF2Prim_finite_not_infinity; [exact Hv|discriminate]. }
  rewrite H. eauto.
Qed.

Lemma of_Z_none (z : Z) : 0 <= z -> Flt.of_Z z = None -> 2 ^ 53 <= z.
Proof.
  intros H0 Hnone.
  destruct (Z_lt_ge_dec z (2 ^ 53)) as [Hlt|Hge]; [|lia].
  destruct (of_Z_small z) as [f Hf]; [lia|congruence].
Qed.

(** ** Heat map: the answer of the endpoint, bucket by bucket *)

Lemma heatmap_answer rt sitreps arg h :
  api_sitreps_heatmap rt sitreps arg = Ok h ->
  exists rows,
    heat_rows rt sitreps = Ok rows
    /\ grid_size_of rt arg = Ok (gridSize h)
    /\ heatPoints h = heat_points_of (grid_aggregate (gridSize h) rows)
    /\ totalIncidents h = Z.of_nat (length rows).
Proof.
  unfold api_sitreps_heatmap.
  destruct (heat_rows rt sitreps) as [rows|]; simpl; [|discriminate].
  destruct (grid_size_of rt arg) as [g|]; simpl; [|discriminate].
  intros [= <-]. exists rows. repeat split; reflexivity.
Qed.

(** The grid size is 0.1 without a [gridSize] parameter, and the float
    that the parameter reads as otherwise. *)
Lemma grid_size_of_arg rt arg g :
  grid_size_of rt arg = Ok g ->
  match arg with
  | None => g = 0.1%float
  | Some s => str_to_float rt s = Some g
  end.
Proof.
  unfold grid_size_of. destruct arg as [s|].
  - destruct (str_to_float rt s); [intros [= <-]; reflexivity|discriminate].
  - intros [= <-]. reflexivity.
Qed.

(** When the first loop ends without an exception, every incident was
    turned into a row or passed over, and the rows are all kept. *)
Lemma heat_rows_each rt sitreps : forall rows sitrep,
  heat_rows rt sitreps = Ok rows -> In sitrep sitreps ->
  exists o, heat_row_of rt sitrep = Ok o
            /\ forall row, o = Some row -> In row rows.
Proof.
  induction sitreps as [|s rest IH]; intros rows sitrep; simpl.
  - intros _ [].
  - destruct (heat_row_of rt s) as [o|] eqn:Hs; simpl; [|discriminate].
    destruct (heat_rows rt rest) as [rows'|] eqn:Hr; simpl; [|discriminate].
    intros [= <-] [<-|Hin].
    + exists o. split; [exact Hs|]. intros row ->. left. reflexivity.
    + destruct (IH rows' sitrep eq_refl Hin) as (o' & Ho & Hin').
      exists o'. split; [exact Ho|]. intros row Hrow.
      specialize (Hin' row Hrow). destruct o; [right|]; exact Hin'.
Qed.

Lemma heat_rows_kept rt sitreps rows sitrep row :
  heat_rows rt sitreps = Ok rows -> In sitrep sitreps ->
  heat_row_of rt sitrep = Ok (Some row) -> In row rows.
Proof.
  intros Hrows Hin Hrow.
  destruct (heat_rows_each _ _ _ _ Hrows Hin) as (o & Ho & Hkept).
  apply Hkept. congruence.
Qed.

(** An incident with coordinates that read as floats becomes a row with
    these floats, and its severity is a text or counts as false. *)
Lemma heat_row_of_floats rt sitrep latf lonf o :
  is_none (Dict.get_none sitrep "lat") = false ->
  is_none (Dict.get_none sitrep "lon") = false ->
  py_float rt (Dict.get_none sitrep "lat") = Ok latf ->
  py_float rt (Dict.get_none sitrep "lon") = Ok lonf ->
  heat_row_of rt sitrep = Ok o ->
  exists row, o = Some row /\ hr_lat row = latf /\ hr_lon row = lonf.
Proof.
  intros Nlat Nlon Hlat Hlon. unfold heat_row_of.
  rewrite Nlat, Nlon, Hlat, Hlon. simpl.
  destruct (py_lower _) as [severity|]; simpl; [|discriminate].
  intros [= <-]. eexists. split; [reflexivity|]. split; reflexivity.
Qed.

Lemma grid_find_some gd k c : grid_find gd k = Some c -> In (k, c) gd.
Proof.
  induction gd as [|[k' c'] gd IH]; simpl; [discriminate|].
  destruct (key_eqb k k') eqn:E.
  - intros [= ->]. apply key_eqb_eq in E. subst k'. left. reflexivity.
  - intros H. right. apply IH. exact H.
Qed.

Lemma grid_aggregate_nodup g rows : NoDup (map fst (grid_aggregate g rows)).
Proof. apply grid_fold_nodup. simpl. apply NoDup_nil_2. Qed.

Lemma grid_aggregate_keyed g rows : keyed (grid_aggregate g rows).
Proof. apply grid_fold_keyed. intros k c H. discriminate H. Qed.

Lemma heat_point_of_some c p :
  heat_point_of c = Some p ->
  hp_lat p = c_lat c /\ hp_lng p = c_lon c
  /\ hp_count p = c_count c /\ hp_weight p = c_weight c.
Proof.
  unfold heat_point_of. destruct (Flt.of_Z (c_weight c)); [|discriminate].
  intros [= <-]. repeat split; reflexivity.
Qed.

Lemma heat_points_member gd k c p :
  In (k, c) gd -> heat_point_of c = Some p -> In p (heat_points_of gd).
Proof.
  intros Hin Hp. unfold heat_points_of. apply stable_sort_In.
  apply list_elem_of_In. apply list_elem_of_omap. exists (k, c).
  split; [apply list_elem_of_In; exact Hin|exact Hp].
Qed.

(** A heat point comes from the cell of its own key, and carries the
    number and the summed weight of the rows filed under that key. *)
Lemma heat_point_bucket g rows p :
  In p (heat_points_of (grid_aggregate g rows)) ->
  (exists c, grid_find (grid_aggregate g rows) (point_key p) = Some c
             /\ heat_point_of c = Some p)
  /\ hp_count p = Z.of_nat (length (bucket_rows g (point_key p) rows))
  /\ hp_weight p = sum_weights (bucket_rows g (point_key p) rows)
  /\ bucket_rows g (point_key p) rows <> [].
Proof.
  intros Hin. apply heat_points_origin in Hin.
  destruct Hin as (k & c & Hin & Hp).
  assert (F : grid_find (grid_aggregate g rows) k = Some c)
    by (apply grid_find_in; [apply grid_aggregate_nodup|exact Hin]).
  destruct (heat_point_of_some _ _ Hp) as (Hlat & Hlng & Hn & Hw).
  assert (Hk : point_key p = k).
  { unfold point_key. rewrite Hlat, Hlng. symmetry.
    exact (grid_aggregate_keyed g rows _ _ F). }
  rewrite Hk, Hn, Hw. unfold bucket_rows.
  destruct (grid_aggregate_cell g rows k c Hin) as (Hc & Hs & Hne).
  split; [exists c; auto|]. auto.
Qed.

Lemma heat_points_one_per_key g rows p q :
  In p (heat_points_of (grid_aggregate g rows)) ->
  In q (heat_points_of (grid_aggregate g rows)) ->
  point_key p = point_key q -> p = q.
Proof.
  intros Hp Hq Hk.
  destruct (heat_point_bucket g rows p Hp) as [(c & Fc & Hc) _].
  destruct (heat_point_bucket g rows q Hq) as [(c' & Fc' & Hc') _].
  rewrite Hk in Fc. congruence.
Qed.

(** A row that is not skipped is among the rows of its key, and its key
    has a heat point with the count and the weight of these rows, unless
    their weight is past the largest float, where the division by 10.0
    raises and the cell is passed over. *)
Lemma bucket_heat_point g rows r k :
  In r rows -> bucket_of g r = Some k ->
  In r (bucket_rows g k rows)
  /\ (Flt.of_Z (sum_weights (bucket_rows g k rows)) = None
      \/ exists p,
           In p (heat_points_of (grid_aggregate g rows))
           /\ point_key p = k
           /\ hp_count p = Z.of_nat (length (bucket_rows g k rows))
           /\ hp_weight p = sum_weights (bucket_rows g k rows)).
Proof.
  intros Hin Hk.
  assert (Hr : In r (bucket_rows g k rows)).
  { apply filter_In. split; [exact Hin|].
    unfold in_bucket. rewrite Hk. apply key_eqb_refl. }
  split; [exact Hr|].
  destruct (grid_find (grid_aggregate g rows) k) as [c|] eqn:F.
  - pose proof (grid_find_some _ _ _ F) as Hc.
    destruct (grid_aggregate_cell g rows k c Hc) as (Hn & Hw & _).
    fold (bucket_rows g k rows) in Hn, Hw. rewrite <- Hw, <- Hn.
    destruct (heat_point_of c) as [p|] eqn:Hp.
    + right. exists p.
      destruct (heat_point_of_some _ _ Hp) as (Hlat & Hlng & Hpn & Hpw).
      split; [exact (heat_points_member _ _ _ _ Hc Hp)|].
      split; [|auto].
      unfold point_key. rewrite Hlat, Hlng. symmetry.
      exact (grid_aggregate_keyed g rows _ _ F).
    + left. unfold heat_point_of in Hp.
      destruct (Flt.of_Z (c_weight c)); [discriminate|reflexivity].
  - exfalso. apply grid_fold_present in F. destruct F as [_ F].
    unfold bucket_rows in Hr. rewrite F in Hr. destruct Hr.
Qed.

Lemma bucket_of_point g r lat lon :
  grid_coord (hr_lat r) g = Ok lat -> grid_coord (hr_lon r) g = Ok lon ->
  bucket_of g r = Some (grid_key_of (lat, lon)).
Proof.
  intros Hlat Hlon. unfold bucket_of, grid_point.
  rewrite Hlat, Hlon. reflexivity.
Qed.

(** The rows of a bucket weigh between one and five each. *)
Lemma bucket_weight_range rt sitreps rows g k :
  heat_rows rt sitreps = Ok rows ->
  Z.of_nat (length (bucket_rows g k rows))
  <= sum_weights (bucket_rows g k rows)
  <= 5 * Z.of_nat (length (bucket_rows g k rows)).
Proof.
  intros Hrows. apply sum_weights_range. intros r Hin.
  apply filter_In in Hin.
  apply (heat_rows_weight_range rt sitreps rows); tauto.
Qed.

(** A bucket whose weight does not convert to a float weighs 2^53 or
    more. *)
Lemma bucket_too_heavy rt sitreps rows g k :
  heat_rows rt sitreps = Ok rows ->
  Flt.of_Z (sum_weights (bucket_rows g k rows)) = None ->
  2 ^ 53 <= sum_weights (bucket_rows g k rows).
Proof.
  intros Hrows Hnone. apply of_Z_none; [|exact Hnone].
  pose proof (bucket_weight_range rt sitreps rows g k Hrows). lia.
Qed.

(** C3. Take an answer of the heat map and two incidents that the first
    loop keeps as rows, for both of which
    [round(lat / gridSize) * gridSize] and
    [round(lon / gridSize) * gridSize] are computed. The grid size of the
    answer is 0.1 when the request has no [gridSize], and what the
    parameter reads as otherwise. The second row is among the rows of
    the first one's bucket exactly when the two pairs of grid multiples
    print alike. The answer has at most one heat point for a bucket,
    every heat point counts the rows of its bucket, and the bucket of the
    first row has its heat point, with that count, in the answer. (The
    one exception is a bucket whose rows weigh 2^53 or more together
    and whose weight is past the largest float: the division by 10.0
    raises and the loop passes the cell over.) *)
Theorem heatmap_buckets_by_grid_multiple
    (rt : runtime) (sitreps : list dict) (arg : option string) (h : heatmap)
    (s1 s2 : dict) (r1 r2 : heat_row) (lat1 lon1 lat2 lon2 : float) :
  api_sitreps_heatmap rt sitreps arg = Ok h ->
  In s1 sitreps -> heat_row_of rt s1 = Ok (Some r1) ->
  In s2 sitreps -> heat_row_of rt s2 = Ok (Some r2) ->
  grid_coord (hr_lat r1) (gridSize h) = Ok lat1 ->
  grid_coord (hr_lon r1) (gridSize h) = Ok lon1 ->
  grid_coord (hr_lat r2) (gridSize h) = Ok lat2 ->
  grid_coord (hr_lon r2) (gridSize h) = Ok lon2 ->
  let g := gridSize h in
  let k1 := grid_key_of (lat1, lon1) in
  match arg with
  | None => g = 0.1%float
  | Some s => str_to_float rt s = Some g
  end
  /\ exists rows,
       heat_rows rt sitreps = Ok rows
       /\ In r1 (bucket_rows g k1 rows)
       /\ (In r2 (bucket_rows g k1 rows) <->
           Flt.printed lat1 = Flt.printed lat2
           /\ Flt.printed lon1 = Flt.printed lon2)
       /\ (forall p q,
             In p (heatPoints h) -> In q (heatPoints h) ->
             point_key p = point_key q -> p = q)
       /\ (forall p,
             In p (heatPoints h) ->
             hp_count p
             = Z.of_nat (length (bucket_rows g (point_key p) rows)))
       /\ (Flt.of_Z (sum_weights (bucket_rows g k1 rows)) = None
           /\ 2 ^ 53 <= sum_weights (bucket_rows g k1 rows)
           \/ exists p,
                In p (heatPoints h)
                /\ Flt.printed (hp_lat p) = Flt.printed lat1
                /\ Flt.printed (hp_lng p) = Flt.printed lon1
                /\ hp_count p = Z.of_nat (length (bucket_rows g k1 rows))).
Proof.
  intros Hh Hs1 Hr1 Hs2 Hr2 Ha1 Hb1 Ha2 Hb2 g k1.
  destruct (heatmap_answer _ _ _ _ Hh) as (rows & Hrows & Hg & Hpts & _).
  fold g in Hg, Hpts.
  split; [exact (grid_size_of_arg _ _ _ Hg)|].
  exists rows. split; [exact Hrows|].
  pose proof (heat_rows_kept _ _ _ _ _ Hrows Hs1 Hr1) as Hin1.
  pose proof (heat_rows_kept _ _ _ _ _ Hrows Hs2 Hr2) as Hin2.
  pose proof (bucket_of_point g r1 _ _ Ha1 Hb1) as Hk1. fold k1 in Hk1.
  pose proof (bucket_of_point g r2 _ _ Ha2 Hb2) as Hk2.
  destruct (bucket_heat_point g rows r1 k1 Hin1 Hk1) as [Hb Hpoint].
  rewrite Hpts.
  split; [exact Hb|]. split; [|split; [|split]].
  - unfold bucket_rows. rewrite filter_In. unfold in_bucket.
    rewrite Hk2, key_eqb_eq. unfold k1, grid_key_of. simpl.
    split; [intros [_ [= -> ->]]; auto|].
    intros [-> ->]. auto.
  - apply heat_points_one_per_key.
  - intros p Hp. apply (heat_point_bucket g rows p Hp).
  - destruct Hpoint as [Hnone|(p & Hp & Hkey & Hn & _)].
    { left. split; [exact Hnone|].
      exact (bucket_too_heavy _ _ _ _ _ Hrows Hnone). }
    right. exists p. split; [exact Hp|].
    unfold point_key, k1, grid_key_of in Hkey. simpl in Hkey.
    injection Hkey as Hlat Hlng. auto.
Qed.

Lemma heatmap_buckets_by_grid_multiple_witness :
  exists h p,
    api_sitreps_heatmap sample_runtime sample_sitreps None = Ok h
    /\ gridSize h = 0.1%float
    /\ In p (heatPoints h)
    /\ Flt.printed (hp_lat p) = Flt.printed (-4.3)%float
    /\ Flt.printed (hp_lng p) = Flt.printed 15.3%float
    /\ hp_count p = 2.
Proof.
  destruct (api_sitreps_heatmap sample_runtime sample_sitreps None)
    as [h|] eqn:E; [|vm_compute in E; discriminate].
  assert (H : Ok h = api_sitreps_heatmap sample_runtime sample_sitreps None)
    by (symmetry; exact E).
  vm_compute in H. injection H as ->.
  destruct (heatmap_buckets_by_grid_multiple sample_runtime sample_sitreps
              None _
              [("id", JInt 1); ("source", JStr "HQ"); ("lat", JFloat (-4.33));
               ("lon", JFloat 15.31); ("severity", JStr "High")]
              [("id", JInt 2); ("source", JStr "NGO"); ("lat", JFloat (-4.27));
               ("lon", JFloat 15.28); ("severity", JStr "CRITICAL")]
              (HeatRow (-4.33) 15.31 (JStr "High") JNull 4)
              (HeatRow (-4.27) 15.28 (JStr "CRITICAL") JNull 5)
              (-4.3) 15.3 (-4.3) 15.3 E)
    as (Hg & rows & Hrows & _ & _ & _ & _ & Hpoint);
    try (vm_compute; reflexivity).
  - left. reflexivity.
  - right. left. reflexivity.
  - vm_compute in Hrows. injection Hrows as <-.
    destruct Hpoint as [[Hnone _]|(p & Hp & Hlat & Hlng & Hn)];
      [vm_compute in Hnone; discriminate|].
    eexists _, p. split; [reflexivity|]. split; [reflexivity|].
    split; [exact Hp|]. split; [exact Hlat|]. split; [exact Hlng|].
    rewrite Hn. vm_compute. reflexivity.
Defined.

(** With [gridSize=12.5] the two incidents that shared a cell of the
    default grid, and the third one, which lies thirty degrees away,
    are filed as the parameter says: the answer carries the grid size
    12.5 and one heat point for the first two. *)
Example heatmap_with_grid_size :
  exists h,
    api_sitreps_heatmap sample_runtime sample_sitreps (Some "12.5") = Ok h
    /\ gridSize h = 12.5%float
    /\ map hp_count (heatPoints h) = [2; 1]
    /\ map hp_lat (heatPoints h) = [0%float; 0%float]
    /\ map hp_lng (heatPoints h) = [12.5%float; 25%float].
Proof.
  eexists. split; [vm_compute; reflexivity|].
  repeat split; reflexivity.
Qed.

(** C8. In an answer of the heat map, every incident whose coordinates
    read as floats is a row of the first loop, and every row has the
    weight of the fixed lookup on the lowered severity of its incident:
    critical 5, high 4, medium 3, low 2, and 1 for any other text and for
    a missing (absent, null or empty) severity. The weight of every heat
    point is the sum of the weights of the rows of its bucket, and the
    bucket of every row that the aggregation does not skip has its heat
    point, with that weight, in the answer. (The one exception is a
    bucket whose rows weigh 2^53 or more together and whose weight is
    past the largest float: the division by 10.0 raises and the loop
    passes the cell over.) *)
Theorem heatmap_weight_lookup_and_sum
    (rt : runtime) (sitreps : list dict) (arg : option string) (h : heatmap) :
  api_sitreps_heatmap rt sitreps arg = Ok h ->
  let g := gridSize h in
  let looked_up (sitrep : dict) (row : heat_row) :=
    exists sev,
      py_or (Dict.get_none sitrep "severity") (JStr "unknown") = JStr sev
      /\ (Str.lower sev = "critical" -> hr_weight row = 5)
      /\ (Str.lower sev = "high" -> hr_weight row = 4)
      /\ (Str.lower sev = "medium" -> hr_weight row = 3)
      /\ (Str.lower sev = "low" -> hr_weight row = 2)
      /\ (Str.lower sev <> "critical" -> Str.lower sev <> "high" ->
          Str.lower sev <> "medium" -> Str.lower sev <> "low" ->
          hr_weight row = 1)
      /\ (truthy (Dict.get_none sitrep "severity") = false ->
          hr_weight row = 1) in
  exists rows,
    heat_rows rt sitreps = Ok rows
    /\ totalIncidents h = Z.of_nat (length rows)
    /\ (forall sitrep latf lonf,
          In sitrep sitreps ->
          is_none (Dict.get_none sitrep "lat") = false ->
          is_none (Dict.get_none sitrep "lon") = false ->
          py_float rt (Dict.get_none sitrep "lat") = Ok latf ->
          py_float rt (Dict.get_none sitrep "lon") = Ok lonf ->
          exists row,
            In row rows /\ hr_lat row = latf /\ hr_lon row = lonf
            /\ looked_up sitrep row)
    /\ (forall row,
          In row rows ->
          exists sitrep,
            In sitrep sitreps /\ heat_row_of rt sitrep = Ok (Some row)
            /\ looked_up sitrep row)
    /\ (forall p,
          In p (heatPoints h) ->
          hp_weight p = sum_weights (bucket_rows g (point_key p) rows)
          /\ bucket_rows g (point_key p) rows <> [])
    /\ (forall row k,
          In row rows -> bucket_of g row = Some k ->
          In row (bucket_rows g k rows)
          /\ (Flt.of_Z (sum_weights (bucket_rows g k rows)) = None
              /\ 2 ^ 53 <= sum_weights (bucket_rows g k rows)
              \/ exists p,
                   In p (heatPoints h) /\ point_key p = k
                   /\ hp_weight p = sum_weights (bucket_rows g k rows))).
Proof.
  intros Hh g looked_up.
  destruct (heatmap_answer _ _ _ _ Hh) as (rows & Hrows & Hg & Hpts & Hn).
  fold g in Hg, Hpts.
  assert (Hlook : forall sitrep row,
            heat_row_of rt sitrep = Ok (Some row) -> looked_up sitrep row).
  { intros sitrep row Hrow.
    destruct (heat_row_of_weight _ _ _ Hrow) as (sev & Hsev & Hw).
    exists sev.
    destruct (severity_weight_table (Str.lower sev))
      as (T1 & T2 & T3 & T4 & T5).
    rewrite Hw. repeat split; auto.
    intros Hfalse. unfold py_or in Hsev. rewrite Hfalse in Hsev.
    injection Hsev as <-. reflexivity. }
  exists rows. split; [exact Hrows|]. split; [exact Hn|].
  rewrite Hpts. split; [|split; [|split]].
  - intros sitrep latf lonf Hin Nlat Nlon Hlat Hlon.
    destruct (heat_rows_each _ _ _ _ Hrows Hin) as (o & Ho & Hkept).
    destruct (heat_row_of_floats _ _ _ _ _ Nlat Nlon Hlat Hlon Ho)
      as (row & -> & Hrlat & Hrlon).
    exists row. split; [apply Hkept; reflexivity|].
    split; [exact Hrlat|]. split; [exact Hrlon|].
    apply Hlook. exact Ho.
  - intros row Hin.
    destruct (heat_rows_origin _ _ _ _ Hrows Hin) as (sitrep & Hs & Hrow).
    exists sitrep. split; [exact Hs|]. split; [exact Hrow|].
    apply Hlook. exact Hrow.
  - intros p Hp.
    destruct (heat_point_bucket g rows p Hp) as (_ & _ & Hw & Hne). auto.
  - intros row k Hin Hk.
    destruct (bucket_heat_point g rows row k Hin Hk) as [Hb Hpoint].
    split; [exact Hb|].
    destruct Hpoint as [Hnone|(p & Hp & Hkey & _ & Hw)].
    { left. split; [exact Hnone|].
      exact (bucket_too_heavy _ _ _ _ _ Hrows Hnone). }
    right. exists p. auto.
Qed.

Lemma heatmap_weight_lookup_and_sum_witness :
  exists h p,
    api_sitreps_heatmap sample_runtime sample_sitreps None = Ok h
    /\ In p (heatPoints h)
    /\ point_key p = grid_key_of ((-4.3)%float, 15.3%float)
    /\ hp_weight p = 4 + 5.
Proof.
  destruct (api_sitreps_heatmap sample_runtime sample_sitreps None)
    as [h|] eqn:E; [|vm_compute in E; discriminate].
  assert (H : Ok h = api_sitreps_heatmap sample_runtime sample_sitreps None)
    by (symmetry; exact E).
  vm_compute in H. injection H as ->.
  destruct (heatmap_weight_lookup_and_sum sample_runtime sample_sitreps
              None _ E)
    as (rows & Hrows & _ & _ & _ & _ & Hcell).
  vm_compute in Hrows. injection Hrows as <-.
  destruct (Hcell (HeatRow (-4.33) 15.31 (JStr "High") JNull 4)
              (grid_key_of ((-4.3)%float, 15.3%float)))
    as [_ [[Hnone _]|(p & Hp & Hkey & Hw)]];
    [left; reflexivity|vm_compute; reflexivity| |].
  - vm_compute in Hnone. discriminate.
  - eexists _, p. split; [reflexivity|]. split; [exact Hp|].
    split; [exact Hkey|]. rewrite Hw. vm_compute. reflexivity.
Defined.

(** ** Incidents: listing, creating, deleting *)

Lemma date_filter_complete rt keep value rows out r :
  date_filter rt keep value rows = Ok out ->
  In r rows ->
  (forall v t, given value = Some v -> timestamp_in rt v = Some t ->
               keep t r = true) ->
  In r out.
Proof.
  unfold date_filter. destruct (given value) as [v|].
  - destruct (timestamp_in rt v) as [t|] eqn:Ht; [|discriminate].
    intros [= <-] Hin Hk. apply filter_In. split; [exact Hin|].
    apply (Hk v t); auto.
  - intros [= <-] Hin _. exact Hin.
Qed.

Lemma ts_lt_asym (a b : option Z) : ts_lt a b = true -> ts_lt b a = false.
Proof.
  destruct a as [x|], b as [y|]; simpl; try congruence.
  intros H. apply Z.ltb_lt in H. apply Z.ltb_ge. lia.
Qed.

Lemma ts_lt_false_trans (a b c : option Z) :
  ts_lt a b = false -> ts_lt b c = false -> ts_lt a c = false.
Proof.
  destruct a as [x|], b as [y|], c as [z|]; simpl; try congruence.
  intros H1 H2. apply Z.ltb_ge in H1, H2. apply Z.ltb_ge. lia.
Qed.

Lemma order_created_desc_sorted rt rows :
  StronglySorted (not_older rt) (order_created_desc rt rows).
Proof.
  apply Sorted_StronglySorted.
  - intros a b c. unfold not_older. apply ts_lt_false_trans.
  - unfold order_created_desc.
    apply (stable_sort_sorted
             (fun y x => ts_lt (created_at_of rt x) (created_at_of rt y))).
    intros a b. apply ts_lt_asym.
Qed.

(** X9. [get_sitreps] leaves out no row that passes the filters given,
    returns only rows of a requested category when categories are given,
    and lists the rows from the newest [created_at] to the oldest, the
    rows without one first. *)
Theorem get_sitreps_complete_and_ordered
    (rt : runtime) (e : env) (w : world) (f : filters) (rows : list dict) :
  get_sitreps rt e w f = Ok rows ->
  (forall r,
     In r (w_table w) ->
     (forall v t, given (from_date f) = Some v -> timestamp_in rt v = Some t ->
                  keep_gte rt t r = true) ->
     (forall v t, given (to_date f) = Some v -> timestamp_in rt v = Some t ->
                  keep_lte rt t r = true) ->
     (forall cats, given (source_category f) = Some cats ->
                   keep_in (Str.split "," cats) r = true) ->
     In r rows)
  /\ (forall r cats,
        In r rows -> given (source_category f) = Some cats ->
        exists c,
          Dict.get_none r "source_category" = JStr c
          /\ In c (Str.split "," cats))
  /\ StronglySorted (not_older rt) rows.
Proof.
  unfold get_sitreps. intros Hget.
  assert (Hq : exists q1 q2,
             date_filter rt (keep_gte rt) (from_date f) (w_table w) = Ok q1
             /\ date_filter rt (keep_lte rt) (to_date f) q1 = Ok q2
             /\ rows = order_created_desc rt
                         match given (source_category f) with
                         | Some cats =>
                             List.filter (keep_in (Str.split "," cats)) q2
                         | None => q2
                         end).
  { destruct (db e); try discriminate;
      destruct (date_filter rt (keep_gte rt) (from_date f) (w_table w))
        as [q1|] eqn:H1; simpl in Hget; try discriminate;
      destruct (date_filter rt (keep_lte rt) (to_date f) q1)
        as [q2|] eqn:H2; simpl in Hget; try discriminate;
      injection Hget as <-; exists q1, q2; auto. }
  destruct Hq as (q1 & q2 & H1 & H2 & ->).
  split; [|split].
  - intros r Hin Hfrom Hto Hcat.
    apply stable_sort_In.
    pose proof (date_filter_complete _ _ _ _ _ _ H1 Hin Hfrom) as Hr1.
    pose proof (date_filter_complete _ _ _ _ _ _ H2 Hr1 Hto) as Hr2.
    destruct (given (source_category f)) as [cats|]; [|exact Hr2].
    apply filter_In. split; [exact Hr2|]. apply Hcat. reflexivity.
  - intros r cats Hin Hc. apply stable_sort_In in Hin. rewrite Hc in Hin.
    apply filter_In in Hin. destruct Hin as [_ Hk]. unfold keep_in in Hk.
    destruct (Dict.get_none r "source_category") as [| | | |c| |];
      try discriminate.
    exists c. split; [reflexivity|].
    apply existsb_exists in Hk. destruct Hk as (x & Hx & Heq).
    apply String.eqb_eq in Heq. subst x. exact Hx.
  - apply order_created_desc_sorted.
Qed.

Lemma get_sitreps_complete_and_ordered_witness :
  get_sitreps sample_runtime (sample_env StorageUp DbUp) sample_world
    no_filters
  = Ok (rev sample_titled)
  /\ StronglySorted (not_older sample_runtime) (rev sample_titled).
Proof.
  split; [reflexivity|].
  apply (get_sitreps_complete_and_ordered sample_runtime
           (sample_env StorageUp DbUp) sample_world no_filters
           (rev sample_titled)).
  reflexivity.
Defined.

Lemma id_is_next_id (t : list dict) :
  List.filter (id_is (next_id t)) t = [].
Proof.
  assert (H : forall r, In r t -> id_is (next_id t) r = false).
  { intros r Hin. unfold id_is, Dict.get_none.
    destruct (Dict.get r "id") as [[| |j| | | |]|] eqn:Hid; try reflexivity.
    pose proof (next_id_above t r j Hin Hid). apply Z.eqb_neq. lia. }
  revert H. generalize (next_id t). intros n.
  induction t as [|r t IH]; intros H; simpl; [reflexivity|].
  rewrite (H r (or_introl eq_refl)). apply IH.
  intros r' Hin. apply H. right. exact Hin.
Qed.

(** X10. An incident that the creation endpoint reports as created with
    id [i] is in the table afterwards: the listing without filters
    answers 200 with one row more than the table held, among them every
    earlier row and the new one, and [get_sitrep_by_id i] returns the new
    row. *)
Theorem created_incident_is_listed
    (rt : runtime) (e : env) (w w' : world) (req : option dict) (i : Z) :
  api_sitreps_post rt e w req
  = (w', Response (JObj [("status", JStr "success"); ("id", JInt i)]) 200) ->
  exists rows row,
    api_sitreps_get rt e w' no_filters = Response (JArr (map JObj rows)) 200
    /\ length rows = S (length (w_table w))
    /\ (forall r, In r (w_table w) -> In r rows)
    /\ In row rows
    /\ Dict.get row "id" = Some (JInt i)
    /\ get_sitrep_by_id e w' i = Ok (Some row).
Proof.
  unfold api_sitreps_post. cbv zeta.
  destruct (first_missing _) as [k|]; [intros [= _ H]; discriminate|].
  destruct (py_float rt _) as [lat|]; [|intros [= _ H]; discriminate].
  destruct (py_float rt _) as [lon|]; [|intros [= _ H]; discriminate].
  unfold insert_sitrep.
  destruct (db e) eqn:Hdb; try (intros [= _ H]; discriminate).
  match goal with
  | |- context [sitrep_data_of rt ?d lat lon] =>
      generalize (sitrep_data_of rt d lat lon)
  end.
  intros data [= <- <-].
  set (row := ("id", JInt (next_id (w_table w)))
              :: data ++ [("created_at", JStr (db_now e))]).
  exists (order_created_desc rt (w_table w ++ [row])), row.
  unfold api_sitreps_get, get_sitreps, get_sitrep_by_id. rewrite Hdb.
  cbn [w_table set_table]. repeat split.
  - unfold order_created_desc. rewrite stable_sort_length, length_app.
    simpl. lia.
  - intros r Hin. apply stable_sort_In. apply in_or_app. left. exact Hin.
  - apply stable_sort_In. apply in_or_app. right. left. reflexivity.
  - rewrite List.filter_app, id_is_next_id. simpl.
    unfold id_is at 1. unfold row at 1. cbn [Dict.get_none Dict.get].
    simpl. rewrite Z.eqb_refl. reflexivity.
Qed.

Lemma created_incident_is_listed_witness :
  exists w' rows row,
    api_sitreps_post sample_runtime (sample_env StorageUp DbUp) sample_world
      (Some sample_post)
    = (w', Response (JObj [("status", JStr "success"); ("id", JInt 4)]) 200)
    /\ api_sitreps_get sample_runtime (sample_env StorageUp DbUp) w' no_filters
       = Response (JArr (map JObj rows)) 200
    /\ length rows = 4%nat
    /\ Dict.get row "id" = Some (JInt 4)
    /\ get_sitrep_by_id (sample_env StorageUp DbUp) w' 4 = Ok (Some row).
Proof.
  set (e := sample_env StorageUp DbUp).
  set (w' := fst (api_sitreps_post sample_runtime e sample_world
                    (Some sample_post))).
  assert (H : api_sitreps_post sample_runtime e sample_world (Some sample_post)
              = (w', Response (JObj [("status", JStr "success");
                                     ("id", JInt 4)]) 200))
    by reflexivity.
  destruct (created_incident_is_listed sample_runtime e sample_world w'
              (Some sample_post) 4 H)
    as (rows & row & Hget & Hlen & _ & _ & Hid & Hby).
  exists w', rows, row. repeat split; assumption.
Defined.

(** X11. After [delete_sitrep i] no row has the id [i] any more, the
    rows returned are those that had it, and looking up any other id
    gives what it gave before. *)
Theorem delete_sitrep_then_get
    (e : env) (w w' : world) (i : Z) (deleted : list dict) :
  delete_sitrep e w i = Ok (w', deleted) ->
  get_sitrep_by_id e w' i = Ok None
  /\ (forall r, In r deleted <-> In r (w_table w) /\ id_is i r = true)
  /\ (forall j, j <> i -> get_sitrep_by_id e w' j = get_sitrep_by_id e w j).
Proof.
  unfold delete_sitrep, get_sitrep_by_id.
  assert (Hsame : forall t,
            List.filter (id_is i)
              (List.filter (fun r => negb (id_is i r)) t) = []).
  { induction t as [|r t IH]; simpl; [reflexivity|].
    destruct (id_is i r) eqn:E; simpl; [exact IH|]. rewrite E. exact IH. }
  assert (Hother : forall j t, j <> i ->
            List.filter (id_is j)
              (List.filter (fun r => negb (id_is i r)) t)
            = List.filter (id_is j) t).
  { intros j t Hne. induction t as [|r t IH]; simpl; [reflexivity|].
    destruct (id_is i r) eqn:E; simpl.
    - assert (Hj : id_is j r = false).
      { unfold id_is in *. destruct (Dict.get_none r "id"); try reflexivity.
        apply Z.eqb_eq in E. apply Z.eqb_neq. lia. }
      rewrite Hj. exact IH.
    - destruct (id_is j r); [f_equal|]; exact IH. }
  destruct (db e); try discriminate; intros [= <- <-]; cbn [w_table set_table];
    (split; [rewrite Hsame; reflexivity|]);
    (split; [intros r; apply filter_In|]);
    intros j Hne; rewrite Hother by exact Hne; reflexivity.
Qed.

Lemma delete_sitrep_then_get_witness :
  let e := sample_env StorageUp DbUp in
  exists w' deleted,
    delete_sitrep e sample_world 2 = Ok (w', deleted)
    /\ length deleted = 1%nat
    /\ get_sitrep_by_id e w' 2 = Ok None.
Proof.
  intros e.
  exists (set_table sample_world
            (List.filter (fun r => negb (id_is 2 r)) sample_titled)),
         (List.filter (id_is 2) sample_titled).
  split; [reflexivity|]. split; [reflexivity|].
  apply (delete_sitrep_then_get e sample_world _ 2
           (List.filter (id_is 2) sample_titled)).
  reflexivity.
Defined.

(** ** Statistics: the counts of the groupings *)

Lemma counter_add_counted c k k' :
  counted (counter_add String.eqb c k) k'
  = counted c k' + (if String.eqb k' k then 1 else 0).
Proof.
  unfold counted. induction c as [|[k0 n] c IH]; simpl.
  - destruct (String.eqb k' k); reflexivity.
  - destruct (String.eqb k k0) eqn:E; simpl.
    + apply String.eqb_eq in E. subst k0.
      destruct (String.eqb k' k); simpl; lia.
    + destruct (String.eqb k' k0) eqn:E'; simpl; [|exact IH].
      apply String.eqb_eq in E'. subst k0.
      rewrite String.eqb_sym, E. lia.
Qed.

Lemma counter_add_keys c k :
  map fst (counter_add String.eqb c k)
  = if existsb (String.eqb k) (map fst c) then map fst c
    else map fst c ++ [k].
Proof.
  induction c as [|[k0 n] c IH]; simpl; [reflexivity|].
  destruct (String.eqb k k0); simpl; [reflexivity|].
  rewrite IH. destruct (existsb _ _); reflexivity.
Qed.

Lemma counter_add_nodup c k :
  NoDup (map fst c) -> NoDup (map fst (counter_add String.eqb c k)).
Proof.
  intros Hnd. rewrite counter_add_keys.
  destruct (existsb (String.eqb k) (map fst c)) eqn:E; [exact Hnd|].
  apply NoDup_app. repeat split.
  - exact Hnd.
  - intros x Hx Hin. apply list_elem_of_In in Hx.
    apply list_elem_of_In in Hin. simpl in Hin. destruct Hin as [<-|[]].
    assert (Ht : existsb (String.eqb k) (map fst c) = true).
    { apply existsb_exists. exists k. split; [exact Hx|].
      apply String.eqb_refl. }
    congruence.
  - apply NoDup_singleton.
Qed.

Lemma counter_add_pos {K} (eqb : K -> K -> bool) c k :
  (forall kv, In kv c -> 1 <= snd kv) ->
  forall kv, In kv (counter_add eqb c k) -> 1 <= snd kv.
Proof.
  induction c as [|[k0 n] c IH]; simpl; intros H kv.
  - intros [<-|[]]. simpl. lia.
  - destruct (eqb k k0); simpl.
    + intros [<-|Hin]; [|apply H; right; exact Hin].
      specialize (H (k0, n) (or_introl eq_refl)). simpl in *. lia.
    + intros [<-|Hin]; [apply H; left; reflexivity|].
      apply IH; [|exact Hin]. intros kv' Hin'. apply H. right. exact Hin'.
Qed.

Lemma counter_add_sum {K} (eqb : K -> K -> bool) c k :
  sum_counts (counter_add eqb c k) = sum_counts c + 1.
Proof.
  unfold sum_counts. induction c as [|[k0 n] c IH]; simpl; [lia|].
  destruct (eqb k k0); simpl; lia.
Qed.

Lemma count_rows_pos {K} (eqb : K -> K -> bool) key rows : forall c c',
  count_rows eqb key rows c = Ok c' ->
  (forall kv, In kv c -> 1 <= snd kv) ->
  forall kv, In kv c' -> 1 <= snd kv.
Proof.
  induction rows as [|r rows IH]; intros c c'; simpl.
  - intros [= <-]. auto.
  - destruct (key r) as [o|]; simpl; [|discriminate].
    intros Hc Hpos. apply (IH _ _ Hc).
    destruct o; [apply counter_add_pos|]; exact Hpos.
Qed.

Lemma count_rows_sum {K} (eqb : K -> K -> bool) key rows : forall c c',
  count_rows eqb key rows c = Ok c' ->
  sum_counts c' <= sum_counts c + Z.of_nat (length rows)
  /\ ((forall r, In r rows -> key r <> Ok None) ->
      sum_counts c' = sum_counts c + Z.of_nat (length rows)).
Proof.
  induction rows as [|r rows IH]; intros c c'; cbn [count_rows length].
  - intros [= <-]. simpl. lia.
  - destruct (key r) as [o|] eqn:Hk; simpl; [|discriminate].
    intros Hc. destruct (IH _ _ Hc) as [Hle Heq].
    rewrite Nat2Z.inj_succ. split.
    + destruct o; [rewrite counter_add_sum in Hle|]; lia.
    + intros Hsome.
      assert (Hrest : forall r', In r' rows -> key r' <> Ok None)
        by (intros r' Hin; apply Hsome; right; exact Hin).
      specialize (Heq Hrest).
      destruct o; [rewrite counter_add_sum in Heq; lia|].
      exfalso. apply (Hsome r); [left; reflexivity|exact Hk].
Qed.

Lemma count_rows_counted key rows : forall c c' k,
  count_rows String.eqb key rows c = Ok c' ->
  counted c' k
  = counted c k + Z.of_nat (length (List.filter (has_key key k) rows)).
Proof.
  induction rows as [|r rows IH]; intros c c' k; cbn [count_rows List.filter].
  - intros [= <-]. simpl. lia.
  - unfold has_key at 1.
    destruct (key r) as [o|]; simpl; [|discriminate].
    intros Hc. rewrite (IH _ _ k Hc).
    destruct o as [k0|]; [|lia].
    rewrite counter_add_counted.
    destruct (String.eqb k k0); cbn [length]; lia.
Qed.

Lemma count_rows_nodup key rows : forall c c',
  count_rows String.eqb key rows c = Ok c' ->
  NoDup (map fst c) -> NoDup (map fst c').
Proof.
  induction rows as [|r rows IH]; intros c c'; simpl.
  - intros [= <-]. auto.
  - destruct (key r) as [o|]; simpl; [|discriminate].
    intros Hc Hnd. apply (IH _ _ Hc).
    destruct o; [apply counter_add_nodup|]; exact Hnd.
Qed.

Lemma counted_in c k n :
  NoDup (map fst c) -> In (k, n) c -> counted c k = n.
Proof.
  unfold counted. induction c as [|[k0 n0] c IH]; simpl; [tauto|].
  intros Hnd Hin. apply NoDup_cons in Hnd. destruct Hnd as [Hk0 Hnd].
  destruct Hin as [[= -> ->]|Hin]; [rewrite String.eqb_refl; reflexivity|].
  destruct (String.eqb k k0) eqn:E; [|apply IH; assumption].
  apply String.eqb_eq in E. subst k0. exfalso. apply Hk0.
  apply list_elem_of_In. apply in_map_iff. exists (k, n). auto.
Qed.

Lemma counted_found c k : counted c k <> 0 -> In (k, counted c k) c.
Proof.
  unfold counted. intros H.
  destruct (List.find _ c) as [[k0 n]|] eqn:F; [|congruence].
  apply find_some in F. destruct F as [Hin E]. simpl in E.
  apply String.eqb_eq in E. subst k0. exact Hin.
Qed.

Lemma count_rows_counts key rows c :
  count_rows String.eqb key rows [] = Ok c -> counts_rows key rows c.
Proof.
  intros Hc.
  assert (Hnd : NoDup (map fst c))
    by (apply (count_rows_nodup _ _ _ _ Hc); simpl; apply NoDup_nil_2).
  split; [exact Hnd|]. intros k n.
  pose proof (count_rows_counted _ _ _ _ k Hc) as Hk.
  change (counted [] k) with 0 in Hk. rewrite Z.add_0_l in Hk.
  split.
  - intros Hin. rewrite <- Hk. split.
    + symmetry. apply counted_in; assumption.
    + apply (count_rows_pos _ _ _ _ _ Hc (fun _ H => match H with end) _ Hin).
  - intros [-> Hn]. rewrite <- Hk in *. apply counted_found. lia.
Qed.

Lemma counts_rows_perm key rows c c' :
  Permutation c' c -> counts_rows key rows c -> counts_rows key rows c'.
Proof.
  intros Hp [Hnd Hin]. split.
  - eapply NoDup_Permutation_proper; [|exact Hnd].
    apply Permutation_map. exact Hp.
  - intros k n. rewrite <- Hin. split; apply Permutation_in;
      [exact Hp|symmetry; exact Hp].
Qed.

Lemma sum_counts_perm {K} (c c' : list (K * Z)) :
  Permutation c c' -> sum_counts c = sum_counts c'.
Proof. unfold sum_counts. induction 1; simpl; lia. Qed.

Lemma sum_counts_take {K} (n : nat) (c : list (K * Z)) :
  (forall kv, In kv c -> 1 <= snd kv) ->
  sum_counts (take n c) <= sum_counts c.
Proof.
  unfold sum_counts. revert n. induction c as [|kv c IH]; intros [|n] H;
    simpl; try lia.
  - pose proof (H kv (or_introl eq_refl)).
    assert (Hc : forall kv', In kv' c -> 1 <= snd kv')
      by (intros kv' Hin; apply H; right; exact Hin).
    specialize (IH 0%nat Hc). simpl in IH.
    destruct c; simpl in *; lia.
  - assert (Hc : forall kv', In kv' c -> 1 <= snd kv')
      by (intros kv' Hin; apply H; right; exact Hin).
    specialize (IH n Hc). lia.
Qed.

Lemma lowered_some field dflt r : lowered field dflt r <> Ok None.
Proof.
  unfold lowered. destruct (py_lower _); simpl; discriminate.
Qed.

(** X12. In the statistics, each of the groupings by severity, by
    source category, by status and by day holds one entry per key, with
    the number of rows that have this key; the counts by severity, by
    source category and by status each add up to [total], those by day
    (rows without a readable date are not counted) and those of the unit
    list to no more than [total]. *)
Theorem stats_counts_add_up (rt : runtime) (rows : list dict) (s : stats) :
  api_sitreps_stats rt rows = Ok s ->
  total s = Z.of_nat (length rows)
  /\ counts_rows (lowered "severity" "unknown") rows (by_severity s)
  /\ counts_rows (lowered "source_category" "other") rows
       (by_source_category s)
  /\ counts_rows (lowered "status" "unknown") rows (by_status s)
  /\ counts_rows (day_of rt) rows (by_day s)
  /\ sum_counts (by_severity s) = total s
  /\ sum_counts (by_source_category s) = total s
  /\ sum_counts (by_status s) = total s
  /\ sum_counts (by_day s) <= total s
  /\ sum_counts (top_units s) <= total s.
Proof.
  unfold api_sitreps_stats.
  destruct (count_rows String.eqb (day_of rt) rows []) as [cd|] eqn:Hd;
    simpl; [|discriminate].
  destruct (count_rows String.eqb (lowered "severity" "unknown") rows [])
    as [cs|] eqn:Hs; simpl; [|discriminate].
  destruct (count_rows String.eqb (lowered "source_category" "other") rows [])
    as [cc|] eqn:Hc; simpl; [|discriminate].
  destruct (count_rows String.eqb (lowered "status" "unknown") rows [])
    as [ct|] eqn:Ht; simpl; [|discriminate].
  destruct (count_rows key_eq unit_of rows []) as [cu|] eqn:Hu;
    simpl; [|discriminate].
  intros [= <-]. cbn [total by_day by_severity by_source_category by_status
                        top_units].
  unfold by_count_desc, by_key_asc.
  assert (Hall : forall field dflt c,
            count_rows String.eqb (lowered field dflt) rows [] = Ok c ->
            sum_counts c = Z.of_nat (length rows)).
  { intros field dflt c H. destruct (count_rows_sum _ _ _ _ _ H) as [_ Heq].
    rewrite Heq; [reflexivity|]. intros r _. apply lowered_some. }
  assert (Hg : forall key c before,
            count_rows String.eqb key rows [] = Ok c ->
            counts_rows key rows (stable_sort before c)).
  { intros key c before H. eapply counts_rows_perm;
      [apply stable_sort_perm|apply count_rows_counts; exact H]. }
  split; [reflexivity|].
  split; [apply Hg; exact Hs|]. split; [apply Hg; exact Hc|].
  split; [apply Hg; exact Ht|]. split; [apply Hg; exact Hd|].
  split; [rewrite (sum_counts_perm _ _ (stable_sort_perm _ cs));
          eapply Hall; exact Hs|].
  split; [rewrite (sum_counts_perm _ _ (stable_sort_perm _ cc));
          eapply Hall; exact Hc|].
  split; [rewrite (sum_counts_perm _ _ (stable_sort_perm _ ct));
          eapply Hall; exact Ht|].
  split.
  - rewrite (sum_counts_perm _ _ (stable_sort_perm _ _)).
    destruct (count_rows_sum _ _ _ _ _ Hd) as [Hle _]. simpl in Hle. lia.
  - etransitivity.
    + apply sum_counts_take. intros kv Hin. apply stable_sort_In in Hin.
      apply (count_rows_pos _ _ _ _ _ Hu (fun _ H => match H with end) _ Hin).
    + rewrite (sum_counts_perm _ _ (stable_sort_perm _ _)).
      destruct (count_rows_sum _ _ _ _ _ Hu) as [Hle _]. simpl in Hle. lia.
Qed.

Lemma stats_counts_add_up_witness :
  exists s,
    api_sitreps_stats sample_runtime sample_dated = Ok s
    /\ by_severity s = [("high", 2); ("low", 1)]
    /\ sum_counts (by_severity s) = total s
    /\ sum_counts (by_day s) <= total s.
Proof.
  destruct (api_sitreps_stats sample_runtime sample_dated) as [s|] eqn:E;
    [|vm_compute in E; discriminate].
  exists s.
  destruct (stats_counts_add_up sample_runtime sample_dated s E)
    as (_ & _ & _ & _ & _ & Hsev & _ & _ & Hday & _).
  split; [reflexivity|].
  assert (H : Ok s = api_sitreps_stats sample_runtime sample_dated)
    by (symmetry; exact E).
  vm_compute in H. injection H as ->.
  split; [reflexivity|]. split; assumption.
Defined.

(** ** Insights: every answer is well formed; validating twice *)

Lemma validate_insights_ok insights d :
  validate_and_format_insights insights = Ok d -> insights_ok d.
Proof.
  intros H. split; [exact (validate_keys _ _ H)|exact (validate_ranges _ _ H)].
Qed.

Lemma keyword_insights_ok text : insights_ok (keyword_insights text).
Proof.
  unfold keyword_insights.
  set (low := Str.lower text).
  set (b1 := Str.contains low "pattern").
  set (b2 := Str.contains low "anomaly" || Str.contains low "unusual").
  set (b3 := Str.contains low "trend" || Str.contains low "increasing"
             || Str.contains low "decreasing").
  set (b4 := Str.contains low "increasing").
  set (b5 := Str.contains low "decreasing").
  set (summary := JStr _).
  clearbody b1 b2 b3 b4 b5 summary.
  unfold insights_ok, items_ok. split; [reflexivity|].
  unfold Dict.get_none. simpl.
  split; [|split]; intros l [= <-].
  - destruct b1; repeat constructor.
    eexists _, _. split; [reflexivity|]. split; [reflexivity|]. simpl. lia.
  - destruct b2; repeat constructor.
    eexists _, _. split; [reflexivity|]. split; [reflexivity|].
    exists "Medium". simpl. auto.
  - destruct b3; repeat constructor.
    eexists _, _. split; [reflexivity|]. split; [reflexivity|].
    eexists. split; [reflexivity|].
    destruct b4; [|destruct b5]; simpl; auto.
Qed.

Lemma basic_insights_ok n : insights_ok (basic_insights n).
Proof.
  unfold basic_insights. set (summary := JStr _). clearbody summary.
  unfold insights_ok, items_ok. split; [reflexivity|].
  unfold Dict.get_none. simpl.
  split; [|split]; intros l [= <-]; repeat constructor.
  eexists _, _. split; [reflexivity|]. split; [reflexivity|]. simpl. lia.
Qed.

Lemma no_data_insights_ok : insights_ok no_data_insights.
Proof.
  unfold insights_ok, items_ok. split; [reflexivity|].
  unfold Dict.get_none. simpl.
  split; [|split]; intros l [= <-]; constructor.
Qed.

Lemma first_candidate_ok rt candidates d :
  first_candidate rt candidates = Some (Ok d) -> insights_ok d.
Proof.
  induction candidates as [|c rest IH]; simpl; [discriminate|].
  destruct (json_loads rt c) as [j|]; [|exact IH].
  destruct (has_insight_key j); [|exact IH].
  intros [= H]. exact (validate_insights_ok _ _ H).
Qed.

Lemma insights_of_reply_ok rt first reply d :
  insights_of_reply rt first reply = Ok d -> insights_ok d.
Proof.
  unfold insights_of_reply. destruct reply as [s|]; [|discriminate].
  destruct (is_error_reply first s); [discriminate|].
  destruct (json_loads rt s) as [j|]; [apply validate_insights_ok|].
  unfold parse_text_response_to_insights.
  destruct (first_candidate rt (json_candidates rt s)) as [r|] eqn:Hc.
  - intros ->. exact (first_candidate_ok _ _ _ Hc).
  - intros [= <-]. apply keyword_insights_ok.
Qed.

(** X13. Whatever the incidents and whatever the model provider
    returns or fails to return, the insights that
    [generate_sitrep_insights] hands out have the keys patterns,
    anomalies, trends and summary and no other, every pattern of a list
    of patterns has a confidence between 0 and 100, every anomaly a
    severity among High, Medium, Low, and every trend a direction among
    Upward, Downward, Stable. *)
Theorem generate_sitrep_insights_well_formed
    (rt : runtime) (l : llm_env) (data : list dict) :
  insights_ok (generate_sitrep_insights rt l data).
Proof.
  unfold generate_sitrep_insights.
  destruct data as [|r data]; [apply no_data_insights_ok|].
  unfold analyze_with_openrouter.
  destruct (negb _); [apply basic_insights_ok|].
  destruct (insights_of_reply rt true (first_reply l)) as [d|] eqn:H1.
  - exact (insights_of_reply_ok _ _ _ _ H1).
  - destruct (given (api_key l)); [|apply basic_insights_ok].
    destruct (insights_of_reply rt false (second_reply l)) as [d|] eqn:H2.
    + exact (insights_of_reply_ok _ _ _ _ H2).
    + apply basic_insights_ok.
Qed.

Lemma clamp_confidence_again c c' :
  clamp_confidence c = Ok c' -> clamp_confidence c' = Ok c'.
Proof.
  destruct c as [|b|z|f| | |]; simpl; try discriminate; intros [= <-].
  - destruct b; reflexivity.
  - destruct (0 <? z) eqn:H0; [|reflexivity].
    destruct (z <? 100) eqn:H1; [|reflexivity].
    simpl. rewrite H0, H1. reflexivity.
  - destruct (PrimFloat.ltb 0 f) eqn:H0; [|reflexivity].
    destruct (PrimFloat.ltb f 100) eqn:H1; [|reflexivity].
    simpl. rewrite H0, H1. reflexivity.
Qed.

Lemma fix_pattern_again p p' : fix_pattern p = Ok p' -> fix_pattern p' = Ok p'.
Proof.
  unfold fix_pattern. destruct p as [| | | | | |d]; try discriminate.
  set (d1 := if Dict.has d "confidence" then d
             else Dict.set d "confidence" (JInt 75)).
  destruct (clamp_confidence (Dict.get_none d1 "confidence")) as [c|] eqn:Hc;
    simpl; [|discriminate].
  intros [= <-]. rewrite dict_has_set.
  unfold Dict.get_none at 1. rewrite dict_get_set.
  rewrite (clamp_confidence_again _ _ Hc). simpl.
  rewrite dict_set_set. reflexivity.
Qed.

Lemma existsb_eqb_in (s : string) (allowed : list string) :
  In s allowed -> existsb (String.eqb s) allowed = true.
Proof.
  intros H. apply existsb_exists. exists s. split; [exact H|].
  apply String.eqb_refl.
Qed.

Lemma fix_choice_again field allowed dflt item item' :
  In dflt allowed ->
  fix_choice field allowed dflt item = Ok item' ->
  fix_choice field allowed dflt item' = Ok item'.
Proof.
  intros Hd. unfold fix_choice.
  destruct item as [| | | | | |d]; try discriminate.
  set (d1 := if Dict.has d field then d else Dict.set d field (JStr dflt)).
  assert (H1 : Dict.has d1 field = true).
  { unfold d1. destruct (Dict.has d field) eqn:E; [exact E|].
    apply dict_has_set. }
  intros [= <-].
  destruct (one_of allowed (Dict.get_none d1 field)) eqn:H.
  - rewrite H1, H. reflexivity.
  - rewrite dict_has_set. unfold Dict.get_none. rewrite dict_get_set.
    simpl. rewrite (existsb_eqb_in _ _ Hd). reflexivity.
Qed.

Lemma fix_all_again repair v v' :
  (forall x x', repair x = Ok x' -> repair x' = Ok x') ->
  fix_all repair v = Ok v' -> fix_all repair v' = Ok v'.
Proof.
  intros Hrep. unfold fix_all.
  destruct v as [| | | |s|l|d]; try discriminate.
  - destruct s; [|discriminate]. intros [= <-]. reflexivity.
  - destruct (map_res repair l) as [l'|] eqn:Hm; simpl; [|discriminate].
    intros [= <-].
    assert (Hl : map_res repair l' = Ok l').
    { revert l' Hm. induction l as [|x l IH]; simpl; intros l'.
      - intros [= <-]. reflexivity.
      - destruct (repair x) as [x'|] eqn:Hx; simpl; [|discriminate].
        destruct (map_res repair l) as [l''|]; simpl; [|discriminate].
        intros [= <-]. simpl. rewrite (Hrep _ _ Hx). simpl.
        rewrite (IH l'' eq_refl). reflexivity. }
    rewrite Hl. reflexivity.
  - destruct d; [|discriminate]. intros [= <-]. reflexivity.
Qed.

(** X14. Validating validated insights changes nothing: the result of
    [validate_and_format_insights] passes the validation again and comes
    out as it went in. *)
Theorem validate_and_format_insights_again (insights : json) (d : dict) :
  validate_and_format_insights insights = Ok d ->
  validate_and_format_insights (JObj d) = Ok d.
Proof.
  unfold validate_and_format_insights.
  destruct insights as [| | | | | |o]; try discriminate.
  destruct (fix_all fix_pattern _) as [p|] eqn:Hp; simpl; [|discriminate].
  destruct (fix_all (fix_choice "severity" _ _) _) as [a|] eqn:Ha;
    simpl; [|discriminate].
  destruct (fix_all (fix_choice "direction" _ _) _) as [t|] eqn:Ht;
    simpl; [|discriminate].
  intros [= <-]. unfold Dict.get_default. simpl.
  rewrite (fix_all_again _ _ _ fix_pattern_again Hp). simpl.
  rewrite (fix_all_again _ _ _
             (fun x x' => fix_choice_again "severity" severities "Medium" x x'
                            ltac:(simpl; auto)) Ha). simpl.
  rewrite (fix_all_again _ _ _
             (fun x x' => fix_choice_again "direction" directions "Stable" x x'
                            ltac:(simpl; auto)) Ht). simpl.
  reflexivity.
Qed.

Lemma validate_and_format_insights_again_witness :
  let insights :=
    JObj [("patterns", JArr [JObj [("title", JStr "Night moves");
                                   ("confidence", JInt 140)]]);
          ("anomalies", JArr [JObj [("severity", JStr "Extreme")]])] in
  let d :=
    [("patterns", JArr [JObj [("title", JStr "Night moves");
                              ("confidence", JInt 100)]]);
     ("anomalies", JArr [JObj [("severity", JStr "Medium")]]);
     ("trends", JArr []);
     ("summary", JStr "Analysis completed.")] in
  validate_and_format_insights insights = Ok d
  /\ validate_and_format_insights (JObj d) = Ok d.
Proof.
  intros insights d. split; [reflexivity|].
  apply (validate_and_format_insights_again insights d). reflexivity.
Defined.

(** ** Layers: reading a converted layer *)

Lemma upload_up e w layer doc :
  storage e = StorageUp -> bucket_ready e = true ->
  upload_layer_to_bucket e w layer doc
  = (set_bucket w (<[layer_path layer := doc]> (w_bucket w)),
     success_dict (layer_path layer)).
Proof.
  intros Hs Hb. unfold upload_layer_to_bucket, update_layer_in_bucket.
  rewrite Hs, Hb. simpl.
  destruct (w_bucket w !! layer_path layer); reflexivity.
Qed.

(** X15. With the storage service up, a file of a supported format that
    the geospatial library can read, and whose layer name is not
    "layers" (the path of the list of layers), is readable as a layer
    right after its conversion: a GET of [/data/<layer>] answers 200
    with the converted document, the local directory is left as it was,
    and when the features can be counted the conversion answers 200,
    names "supabase" and gives their number. *)
Theorem convert_then_get_geojson
    (e : env) (w : world) (listing : option (list dict))
    (names : list string) (f : upload) (geojson_data : json) :
  up_layer_name f <> "layers" ->
  storage e = StorageUp -> bucket_ready e = true ->
  up_geojson f = Some geojson_data ->
  Str.lower (up_ext f) = ".gpkg" \/ Str.lower (up_ext f) = ".csv"
  \/ (Str.lower (up_ext f) = ".shp"
      /\ up_has_shx f = true /\ up_has_dbf f = true) ->
  let out := convert_to_geojson e w (Some f) in
  get_data e (fst out) listing names (up_layer_name f)
  = Response geojson_data 200
  /\ w_files (fst out) = w_files w
  /\ forall n,
       features_count geojson_data = Ok n ->
       snd out
       = Response (converted_body (up_layer_name f) "supabase" n) 200.
Proof.
  intros Hne Hs Hb Hg Hext. cbv zeta. rewrite get_data_layer by exact Hne.
  unfold convert_to_geojson.
  assert (Hfmt :
            negb (String.eqb (Str.lower (up_ext f)) ".gpkg"
                  || String.eqb (Str.lower (up_ext f)) ".shp"
                  || String.eqb (Str.lower (up_ext f)) ".csv") = false
            /\ String.eqb (Str.lower (up_ext f)) ".shp"
               && negb (up_has_shx f && up_has_dbf f) = false).
  { destruct Hext as [->|[->|(-> & -> & ->)]]; split; reflexivity. }
  destruct Hfmt as [-> ->]. rewrite Hg, (upload_up _ _ _ _ Hs Hb).
  cbn [truthy success_dict].
  assert (Hread :
            get_geojson e
              (set_bucket w
                 (<[layer_path (up_layer_name f) := geojson_data]> (w_bucket w)))
              (up_layer_name f)
            = Response geojson_data 200).
  { unfold get_geojson, download_layer_from_bucket. rewrite Hs. simpl.
    rewrite lookup_insert_eq. reflexivity. }
  destruct (features_count geojson_data) as [n|x]; simpl;
    (split; [exact Hread|]); (split; [reflexivity|]).
  - intros n' [= <-]. reflexivity.
  - discriminate.
Qed.

Lemma convert_then_get_geojson_witness :
  let e := sample_env StorageUp DbUp in
  let out := convert_to_geojson e sample_world (Some sample_upload) in
  get_data e (fst out) None [] "roads" = Response sample_layer 200
  /\ snd out = Response (converted_body "roads" "supabase" 1) 200.
Proof.
  intros e out.
  destruct (convert_then_get_geojson e sample_world None [] sample_upload
              sample_layer)
    as (Hread & _ & Hn); try reflexivity.
  - discriminate.
  - left. reflexivity.
  - split; [exact Hread|]. apply Hn. reflexivity.
Defined.

(** ** The map view of all incidents *)

Lemma position_features_spec rt sitreps : forall i features,
  position_features rt i sitreps = Ok features ->
  length features = length sitreps
  /\ forall (k : nat) r f,
       sitreps !! k = Some r -> features !! k = Some f ->
       position_feature rt (i + Z.of_nat k) r = Ok f.
Proof.
  induction sitreps as [|s rest IH]; intros i features;
    cbn [position_features].
  - intros [= <-]. split; [reflexivity|]. intros k r f H. discriminate.
  - destruct (position_feature rt i s) as [f0|] eqn:Hf; simpl; [|discriminate].
    destruct (position_features rt (i + 1) rest) as [fs|] eqn:Hfs;
      simpl; [|discriminate].
    intros [= <-]. destruct (IH _ _ Hfs) as [Hlen Hk].
    split; [simpl; congruence|].
    intros [|k] r f; simpl.
    + intros [= <-] [= <-]. rewrite Z.add_0_r. exact Hf.
    + intros Hr Hfk. specialize (Hk k r f Hr Hfk).
      replace (i + Z.of_nat (S k)) with (i + 1 + Z.of_nat k) by lia.
      exact Hk.
Qed.

Lemma position_feature_default rt i sitrep f :
  no_position sitrep ->
  position_feature rt i sitrep = Ok f ->
  exists lon lat,
    position_coordinate 28.8 i = Ok lon
    /\ position_coordinate (-2.5) i = Ok lat
    /\ coordinates_of f = Some (JFloat lon, JFloat lat).
Proof.
  intros Hno. unfold position_feature.
  assert (Hb : negb (truthy (Dict.get_none sitrep "latitude"))
               || negb (truthy (Dict.get_none sitrep "longitude")) = true).
  { destruct Hno as [-> | ->]; simpl; [reflexivity|apply orb_true_r]. }
  rewrite Hb.
  destruct (position_coordinate (-2.5) i) as [lat|]; simpl; [|discriminate].
  destruct (position_coordinate 28.8 i) as [lon|]; simpl; [|discriminate].
  intros [= <-]. exists lon, lat. repeat split.
Qed.

(** X16. The map view of all incidents answers with one feature per row
    of the unfiltered listing, in the order of the listing; and a row
    without a usable latitude or longitude (missing, null, zero or
    empty: every row of a table whose columns are lat and lon) gets its
    point from its position [k] in the listing alone, at longitude
    28.8 + k * 0.05 and latitude -2.5 + k * 0.05. *)
Theorem get_sitrep_geojson_by_position
    (rt : runtime) (e : env) (w : world) (features : list json) :
  get_sitrep_geojson rt e w
  = Response (feature_collection (JArr features)) 200 ->
  exists rows,
    get_sitreps rt e w no_filters = Ok rows
    /\ length features = length rows
    /\ forall (k : nat) r f,
         rows !! k = Some r -> features !! k = Some f ->
         position_feature rt (Z.of_nat k) r = Ok f
         /\ (no_position r ->
             exists lon lat,
               position_coordinate 28.8 (Z.of_nat k) = Ok lon
               /\ position_coordinate (-2.5) (Z.of_nat k) = Ok lat
               /\ coordinates_of f = Some (JFloat lon, JFloat lat)).
Proof.
  unfold get_sitrep_geojson.
  destruct (get_sitreps rt e w no_filters) as [rows|]; simpl;
    [|intros [= _ H]; discriminate].
  destruct (position_features rt 0 rows) as [fs|] eqn:Hfs;
    [|intros [= _ H]; discriminate].
  intros [= <-]. exists rows.
  destruct (position_features_spec _ _ _ _ Hfs) as [Hlen Hk].
  split; [reflexivity|]. split; [exact Hlen|].
  intros k r f Hr Hf. specialize (Hk k r f Hr Hf). simpl in Hk.
  split; [exact Hk|]. intros Hno.
  exact (position_feature_default _ _ _ _ Hno Hk).
Qed.

Lemma get_sitrep_geojson_by_position_witness :
  let e := sample_env StorageUp DbUp in
  exists features f,
    get_sitrep_geojson sample_runtime e sample_world
    = Response (feature_collection (JArr features)) 200
    /\ length features = 3%nat
    /\ features !! 1%nat = Some f
    /\ coordinates_of f
       = Some (JFloat (28.8 + 1 * 0.05)%float, JFloat (-2.5 + 1 * 0.05)%float).
Proof.
  intros e.
  assert (H : exists features,
            get_sitrep_geojson sample_runtime e sample_world
            = Response (feature_collection (JArr features)) 200)
    by (vm_compute; eexists; reflexivity).
  destruct H as [features Hget].
  destruct (get_sitrep_geojson_by_position sample_runtime e sample_world
              features Hget) as (rows & Hrows & Hlen & Hk).
  vm_compute in Hrows. injection Hrows as <-.
  destruct (features !! 1%nat) as [f|] eqn:Ef.
  - exists features, f. split; [exact Hget|]. split; [exact Hlen|].
    split; [exact Ef|].
    destruct (Hk 1%nat _ f eq_refl Ef) as [_ Hpos].
    destruct Hpos as (lon & lat & Hlon & Hlat & Hc); [left; reflexivity|].
    vm_compute in Hlon, Hlat. injection Hlon as <-. injection Hlat as <-.
    rewrite Hc. vm_compute. reflexivity.
  - exfalso. apply lookup_ge_None in Ef. simpl in Hlen. lia.
Defined.

(** ** Accounts and sessions *)

Lemma dict_get_set_other d k k' v :
  k' <> k -> Dict.get (Dict.set d k v) k' = Dict.get d k'.
Proof.
  intros Hne. induction d as [|[k0 v0] d IH]; simpl.
  - apply String.eqb_neq in Hne. rewrite Hne. reflexivity.
  - destruct (String.eqb k k0) eqn:E; simpl.
    + apply String.eqb_eq in E. subst k0.
      apply String.eqb_neq in Hne. rewrite Hne. reflexivity.
    + destruct (String.eqb k' k0); [reflexivity|exact IH].
Qed.

Lemma dict_pop_get d k : Dict.get (dict_pop d k) k = None.
Proof.
  unfold dict_pop. induction d as [|[k0 v0] d IH]; simpl; [reflexivity|].
  destruct (String.eqb k k0) eqn:E; simpl; [exact IH|].
  rewrite E. exact IH.
Qed.

Lemma dict_pop_other d k k' :
  k' <> k -> Dict.get (dict_pop d k) k' = Dict.get d k'.
Proof.
  intros Hne. unfold dict_pop.
  induction d as [|[k0 v0] d IH]; simpl; [reflexivity|].
  destruct (String.eqb k k0) eqn:E; simpl.
  - apply String.eqb_eq in E. subst k0.
    apply String.eqb_neq in Hne. rewrite Hne. exact IH.
  - destruct (String.eqb k' k0); [reflexivity|exact IH].
Qed.

Lemma text_is_get k v r : text_is k v r = true -> Dict.get r k = Some (JStr v).
Proof.
  unfold text_is, Dict.get_none.
  destruct (Dict.get r k) as [[| | | |s| |]|]; try discriminate.
  intros H. apply String.eqb_eq in H. subst s. reflexivity.
Qed.

Lemma filter_head {A} (p : A -> bool) (l : list A) x rest :
  List.filter p l = x :: rest -> In x l /\ p x = true.
Proof.
  intros H. apply filter_In. rewrite H. left. reflexivity.
Qed.

Lemma authenticate_user_row users username password user :
  authenticate_user users username password = Some user ->
  exists table row,
    users = Some table /\ In row table
    /\ Dict.get row "username" = Some (JStr username)
    /\ Dict.get row "password" = Some (JStr password)
    /\ user = dict_pop row "password".
Proof.
  unfold authenticate_user. destruct users as [table|]; [|discriminate].
  destruct (List.filter _ table) as [|row rest] eqn:F; [discriminate|].
  intros [= <-].
  apply filter_head in F. destruct F as [Hin Hm].
  unfold credentials_match in Hm. apply andb_true_iff in Hm.
  destruct Hm as [Hu Hp].
  exists table, row. repeat split; auto using text_is_get.
Qed.

(** X17. What [authenticate_user] returns is a row of the table that
    has the given user name and the given password, without its
    password: the key is gone and every other field is as in the row. A
    failing store gives no user. *)
Theorem authenticate_user_hides_password
    (users : option (list dict)) (username password : string) (user : dict) :
  authenticate_user users username password = Some user ->
  Dict.get user "password" = None
  /\ exists table row,
       users = Some table /\ In row table
       /\ Dict.get row "username" = Some (JStr username)
       /\ Dict.get row "password" = Some (JStr password)
       /\ forall k, k <> "password" -> Dict.get user k = Dict.get row k.
Proof.
  intros Ha.
  destruct (authenticate_user_row _ _ _ _ Ha)
    as (table & row & -> & Hin & Hu & Hp & ->).
  split; [apply dict_pop_get|].
  exists table, row. repeat split; auto.
  intros k Hk. apply dict_pop_other. exact Hk.
Qed.

Lemma authenticate_user_hides_password_witness :
  authenticate_user (Some sample_users) "amina" "s3cret"
  = Some [("id", JInt 1); ("username", JStr "amina"); ("role", JStr "admin")]
  /\ Dict.get [("id", JInt 1); ("username", JStr "amina");
               ("role", JStr "admin")] "password" = None.
Proof.
  split; [reflexivity|].
  apply (authenticate_user_hides_password (Some sample_users)
           "amina" "s3cret").
  reflexivity.
Defined.

Lemma given_some (o : option string) s : given o = Some s -> o = Some s.
Proof.
  destruct o as [t|]; simpl; [|discriminate].
  destruct (String.eqb t ""); [discriminate|]. auto.
Qed.

(** The two ways a login ends: the session gets the id, the name and the
    role of an authenticated user and the reply is the redirection to
    the main page, or the session is left alone and the reply is
    another one. *)
Lemma login_post_cases users session username password :
  (exists u p user id,
     username = Some u /\ password = Some p
     /\ authenticate_user users u p = Some user
     /\ Dict.get user "id" = Some id
     /\ v_session (login_post users session username password)
        = Dict.set (Dict.set (Dict.set session "user_id" id)
                      "username" (JStr u))
            "role" (Dict.get_default user "role" (JStr "user"))
     /\ v_reply (login_post users session username password)
        = Redirect "index")
  \/ (v_session (login_post users session username password) = session
      /\ v_reply (login_post users session username password)
         <> Redirect "index").
Proof.
  unfold login_post.
  destruct (given username) as [u|] eqn:Gu; [|right; split; [auto|discriminate]].
  destruct (given password) as [p|] eqn:Gp; [|right; split; [auto|discriminate]].
  apply given_some in Gu, Gp.
  destruct (authenticate_user users u p) as [user|] eqn:Ha;
    [|right; split; [auto|discriminate]].
  destruct (authenticate_user_row _ _ _ _ Ha)
    as (table & row & _ & _ & Hu & _ & Hpop).
  destruct (truthy (JObj user)); [|right; split; [auto|discriminate]].
  unfold index.
  assert (Hname : Dict.get user "username" = Some (JStr u))
    by (rewrite Hpop, dict_pop_other by discriminate; exact Hu).
  rewrite Hname.
  destruct (Dict.get user "id") as [id|] eqn:Hid;
    [|right; split; [auto|discriminate]].
  left. exists u, p, user, id. repeat split; auto.
Qed.

(** X18. A login that redirects to the main page was made with the user
    name and the password of a row of the table; the session then holds
    the id of that row and the user name, and the main page is served.
    Any other outcome of a login leaves the session as it was. After a
    logout the main page redirects to the login page again. *)
Theorem login_post_outcome
    (users : option (list dict)) (session : dict)
    (username password : option string) :
  let v := login_post users session username password in
  (v_reply v = Redirect "index" ->
   exists table row u p,
     users = Some table /\ In row table
     /\ username = Some u /\ password = Some p
     /\ Dict.get row "username" = Some (JStr u)
     /\ Dict.get row "password" = Some (JStr p)
     /\ Dict.get (v_session v) "user_id" = Dict.get row "id"
     /\ Dict.get (v_session v) "username" = Some (JStr u)
     /\ index_page (v_session v) = Render "index.html")
  /\ (v_reply v <> Redirect "index" -> v_session v = session)
  /\ index_page (v_session (logout (v_session v))) = Redirect "login".
Proof.
  cbv zeta. split; [|split; [|reflexivity]].
  - intros Hr.
    destruct (login_post_cases users session username password)
      as [(u & p & user & id & -> & -> & Ha & Hid & Hs & _)|[_ Hne]];
      [|contradiction].
    destruct (authenticate_user_row _ _ _ _ Ha)
      as (table & row & -> & Hin & Hu & Hp & Hpop).
    rewrite Hs. exists table, row, u, p. repeat split; auto.
    + rewrite dict_get_set_other by discriminate.
      rewrite dict_get_set_other by discriminate.
      rewrite dict_get_set, <- Hid, Hpop. apply dict_pop_other. discriminate.
    + rewrite dict_get_set_other by discriminate. apply dict_get_set.
    + unfold index_page, login_required, Dict.has.
      rewrite dict_get_set_other by discriminate.
      rewrite dict_get_set_other by discriminate.
      rewrite dict_get_set. reflexivity.
  - intros Hne.
    destruct (login_post_cases users session username password)
      as [(u & p & user & id & _ & _ & _ & _ & _ & Hr)|[Hs _]];
      [contradiction|exact Hs].
Qed.

Lemma login_post_outcome_witness :
  let v := login_post (Some sample_users) [] (Some "joao") (Some "pw2") in
  v_reply v = Redirect "index"
  /\ Dict.get (v_session v) "user_id" = Some (JInt 2)
  /\ Dict.get (v_session v) "role" = Some (JStr "user")
  /\ index_page (v_session v) = Render "index.html"
  /\ index_page (v_session (logout (v_session v))) = Redirect "login"
  /\ v_session (login_post (Some sample_users) (v_session v)
                  (Some "amina") (Some "wrong"))
     = v_session v.
Proof.
  intros v.
  destruct (login_post_outcome (Some sample_users) [] (Some "joao")
              (Some "pw2")) as (Hin & _ & Hout).
  destruct (Hin eq_refl) as (table & row & u & p & _ & _ & _ & _ & _ & _
                             & _ & _ & Hpage).
  split; [reflexivity|]. split; [reflexivity|]. split; [reflexivity|].
  split; [exact Hpage|]. split; [exact Hout|].
  apply (login_post_outcome (Some sample_users) (v_session v)
           (Some "amina") (Some "wrong")).
  discriminate.
Defined.

(** ** The chatbot's queries on the incidents *)

Lemma sorted_take_drop {A} (R : A -> A -> Prop) (n : nat) (l : list A) a b :
  StronglySorted R l -> In a (take n l) -> In b (drop n l) -> R a b.
Proof.
  revert n. induction l as [|x l IH]; intros [|n] Hs Ha Hb;
    simpl in *; try contradiction.
  inversion Hs as [|? ? Hl Hall]; subst.
  destruct Ha as [<-|Ha].
  - rewrite Forall_forall in Hall. apply Hall.
    apply list_elem_of_In in Hb. exact (subseteq_drop n l b Hb).
  - eapply IH; eauto.
Qed.

Lemma get_sitreps_sorted rt e w f rows :
  get_sitreps rt e w f = Ok rows -> StronglySorted (not_older rt) rows.
Proof.
  unfold get_sitreps.
  destruct (db e); try discriminate;
    destruct (date_filter rt (keep_gte rt) (from_date f) (w_table w))
      as [q1|]; simpl; try discriminate;
    destruct (date_filter rt (keep_lte rt) (to_date f) q1)
      as [q2|]; simpl; try discriminate;
    intros [= <-]; apply order_created_desc_sorted.
Qed.



Lemma severity_is_text severity r s :
  Dict.get_default r "severity" (JStr "") = JStr s ->
  severity_is severity r = Ok (String.eqb (Str.lower s) (Str.lower severity)).
Proof. unfold severity_is. intros ->. reflexivity. Qed.

Lemma severity_is_raises severity r x :
  severity_is severity r = Raise x ->
  x = AttributeError
  /\ forall s, Dict.get_default r "severity" (JStr "") <> JStr s.
Proof.
  unfold severity_is, py_lower.
  destruct (Dict.get_default r "severity" (JStr "")); simpl;
    try discriminate; intros [= <-]; split; try reflexivity; discriminate.
Qed.

Lemma filter_res_ok {A} (p : A -> res bool) (l : list A) :
  (forall x, In x l -> exists b, p x = Ok b) ->
  exists out,
    filter_res p l = Ok out
    /\ forall x, In x out <-> In x l /\ p x = Ok true.
Proof.
  induction l as [|x l IH]; intros H.
  - exists []. split; [reflexivity|]. simpl. tauto.
  - destruct (H x (or_introl eq_refl)) as [b Hb].
    destruct IH as (out & Hout & Hin);
      [intros y Hy; apply H; right; exact Hy|].
    simpl. rewrite Hb, Hout. simpl.
    exists (if b then x :: out else out). split; [reflexivity|].
    intros y. destruct b; simpl; rewrite Hin.
    + split.
      * intros [<-|[Hy Hp]]; auto.
      * intros [[<-|Hy] Hp]; auto.
    + split.
      * intros [Hy Hp]; auto.
      * intros [[<-|Hy] Hp]; [congruence|auto].
Qed.

Lemma filter_res_raises {A} (p : A -> res bool) (l : list A) (x0 : exn) a :
  (forall x e', p x = Raise e' -> e' = x0) ->
  In a l -> p a = Raise x0 ->
  filter_res p l = Raise x0.
Proof.
  intros Hall. induction l as [|x l IH]; simpl; [tauto|].
  intros Hin Ha.
  destruct (p x) as [b|e'] eqn:Hx; simpl.
  - destruct Hin as [->|Hin]; [congruence|].
    rewrite (IH Hin Ha). reflexivity.
  - rewrite (Hall _ _ Hx). reflexivity.
Qed.

(** X20. A query by severity compares without regard to case: when the
    severity of every listed row is a text or is missing, it returns
    the listed rows whose lowered severity is the lowered query, in the
    order of the listing, and the same rows for every other spelling of
    the query. One listed row whose severity is null makes the query
    raise [AttributeError], whatever the severity asked for. *)
Theorem get_sitreps_by_severity_outcome
    (rt : runtime) (e : env) (w : world) (severity : string)
    (listing : list dict) :
  get_sitreps rt e w no_filters = Ok listing ->
  ((forall r, In r listing ->
      exists s, Dict.get_default r "severity" (JStr "") = JStr s) ->
   exists rows,
     get_sitreps_by_severity rt e w severity = Ok rows
     /\ (forall r,
           In r rows <->
           In r listing
           /\ exists s,
                Dict.get_default r "severity" (JStr "") = JStr s
                /\ Str.lower s = Str.lower severity)
     /\ StronglySorted (not_older rt) rows
     /\ forall severity',
          Str.lower severity' = Str.lower severity ->
          get_sitreps_by_severity rt e w severity' = Ok rows)
  /\ (forall r,
        In r listing -> Dict.get r "severity" = Some JNull ->
        get_sitreps_by_severity rt e w severity = Raise AttributeError).
Proof.
  intros Hl. unfold get_sitreps_by_severity. rewrite Hl. simpl. split.
  - intros Htext.
    destruct (filter_res_ok (severity_is severity) listing)
      as (rows & Hrows & Hin).
    { intros r Hr. destruct (Htext r Hr) as [s Hs].
      rewrite (severity_is_text _ _ _ Hs). eauto. }
    exists rows. split; [exact Hrows|]. split; [|split].
    + intros r. rewrite Hin. split.
      * intros [Hr Hp]. split; [exact Hr|].
        destruct (Htext r Hr) as [s Hs]. exists s. split; [exact Hs|].
        rewrite (severity_is_text _ _ _ Hs) in Hp. injection Hp as Hp.
        apply String.eqb_eq. exact Hp.
      * intros [Hr (s & Hs & Hlow)]. split; [exact Hr|].
        rewrite (severity_is_text _ _ _ Hs), Hlow, String.eqb_refl.
        reflexivity.
    + pose proof (get_sitreps_sorted _ _ _ _ _ Hl) as Hsorted.
      clear Hin Htext Hl. revert rows Hrows.
      induction Hsorted as [|r l Hs IH Hall]; simpl; intros rows.
      * intros [= <-]. constructor.
      * destruct (severity_is severity r) as [b|]; simpl; [|discriminate].
        destruct (filter_res (severity_is severity) l) as [out|] eqn:Ho;
          simpl; [|discriminate].
        intros [= <-]. specialize (IH out eq_refl).
        destruct b; [|exact IH]. constructor; [exact IH|].
        rewrite Forall_forall in Hall |- *. intros y Hy. apply Hall.
        apply list_elem_of_In in Hy. apply list_elem_of_In.
        clear -Ho Hy. revert out Ho Hy.
        induction l as [|z l IHl]; simpl; intros out.
        -- intros [= <-] [].
        -- destruct (severity_is severity z) as [b|]; simpl; [|discriminate].
           destruct (filter_res (severity_is severity) l) as [out'|];
             simpl; [|discriminate].
           intros [= <-] Hy. specialize (IHl out' eq_refl).
           destruct b; simpl in Hy; [destruct Hy as [<-|Hy]|]; auto.
    + intros severity' Hsame.
      assert (Heq : forall r, severity_is severity' r = severity_is severity r)
        by (intros r; unfold severity_is; rewrite Hsame; reflexivity).
      rewrite <- Hrows. clear -Heq.
      induction listing as [|r l IH]; simpl; [reflexivity|].
      rewrite Heq, IH. reflexivity.
  - intros r Hr Hnull.
    apply (filter_res_raises _ _ _ r).
    + intros x e' He'. apply (severity_is_raises _ _ _ He').
    + exact Hr.
    + unfold severity_is, Dict.get_default. rewrite Hnull. reflexivity.
Qed.

Lemma get_sitreps_by_severity_outcome_witness :
  let e := sample_env StorageUp DbUp in
  let w := set_table sample_world sample_dated in
  let null_row := [("id", JInt 9); ("severity", JNull)] in
  (exists rows,
     get_sitreps_by_severity sample_runtime e w "HIGH" = Ok rows
     /\ map (fun r => Dict.get_none r "id") rows = [JInt 2; JInt 1])
  /\ get_sitreps_by_severity sample_runtime e
       (set_table w (sample_dated ++ [null_row])) "HIGH"
     = Raise AttributeError.
Proof.
  intros e w null_row. split.
  - destruct (get_sitreps_by_severity_outcome sample_runtime e w "HIGH"
                (rev sample_dated) eq_refl) as [Hok _].
    destruct Hok as (rows & Hrows & _).
    + intros r Hr. simpl in Hr.
      destruct Hr as [<-|[<-|[<-|[]]]]; eexists; reflexivity.
    + exists rows. split; [exact Hrows|].
      vm_compute in Hrows. injection Hrows as <-. reflexivity.
  - destruct (get_sitreps_by_severity_outcome sample_runtime e
                (set_table w (sample_dated ++ [null_row])) "HIGH"
                (null_row :: rev sample_dated) eq_refl) as [_ Hraise].
    apply (Hraise null_row); [left; reflexivity|reflexivity].
Defined.

Lemma extracted_on_the_map rt sitrep c :
  extracted rt sitrep = Ok (Some c) ->
  on_the_map c /\ Dict.get_none c "id" = Dict.get_none sitrep "id".
Proof.
  unfold extracted.
  destruct (is_none _ || is_none _); [discriminate|].
  destruct (py_float rt (Dict.get_none sitrep "lat")) as [latf|x1]; simpl.
  - destruct (py_float rt (Dict.get_none sitrep "lon")) as [lonf|x2]; simpl.
    + destruct (in_range (-90) 90 latf && in_range (-180) 180 lonf) eqn:E;
        [|discriminate].
      intros [= <-]. split; [|reflexivity].
      unfold in_range in E. apply andb_true_iff in E. destruct E as [E1 E2].
      apply andb_true_iff in E1, E2. destruct E1, E2.
      exists latf, lonf. repeat split; assumption.
    + destruct x2; discriminate.
  - destruct x1; discriminate.
Qed.

(** X21. Every coordinate that [_extract_coordinates] hands to the map
    is a point of the map: a latitude between -90 and 90 and a
    longitude between -180 and 180, both numbers (a NaN passes neither
    test), with the id of a row of the data whose [lat] and [lon] are
    not null; there are no more coordinates than rows. *)
Theorem extract_coordinates_on_the_map
    (rt : runtime) (data : list dict) (coordinates : list dict) :
  _extract_coordinates rt data = Ok coordinates ->
  (length coordinates <= length data)%nat
  /\ forall c,
       In c coordinates ->
       on_the_map c
       /\ exists sitrep,
            In sitrep data
            /\ Dict.get_none c "id" = Dict.get_none sitrep "id"
            /\ Dict.get_none sitrep "lat" <> JNull
            /\ Dict.get_none sitrep "lon" <> JNull.
Proof.
  revert coordinates. induction data as [|s rest IH]; intros coordinates;
    simpl.
  - intros [= <-]. split; [simpl; lia|]. intros c [].
  - destruct (extracted rt s) as [o|] eqn:Hs; simpl; [|discriminate].
    destruct (_extract_coordinates rt rest) as [cs|]; simpl; [|discriminate].
    intros [= <-]. destruct (IH cs eq_refl) as [Hlen Hcs].
    assert (Hrest : forall c, In c cs ->
              on_the_map c
              /\ exists sitrep,
                   (s = sitrep \/ In sitrep rest)
                   /\ Dict.get_none c "id" = Dict.get_none sitrep "id"
                   /\ Dict.get_none sitrep "lat" <> JNull
                   /\ Dict.get_none sitrep "lon" <> JNull).
    { intros c Hc. destruct (Hcs c Hc) as [Hm (r & Hr & Hrest)].
      split; [exact Hm|]. exists r. split; [right; exact Hr|exact Hrest]. }
    destruct o as [c0|]; [|split; [lia|exact Hrest]].
    split; [simpl; lia|].
    intros c [<-|Hc]; [|exact (Hrest c Hc)].
    destruct (extracted_on_the_map _ _ _ Hs) as [Hm Hid].
    split; [exact Hm|]. exists s. split; [left; reflexivity|].
    split; [exact Hid|].
    unfold extracted in Hs.
    destruct (Dict.get_none s "lat"), (Dict.get_none s "lon");
      simpl in Hs; try discriminate; split; discriminate.
Qed.

Lemma extract_coordinates_on_the_map_witness :
  exists coordinates,
    _extract_coordinates sample_runtime
      (sample_sitreps ++ [[("id", JInt 4); ("lat", JFloat 95);
                           ("lon", JFloat 20)]])
    = Ok coordinates
    /\ map (fun c => Dict.get_none c "id") coordinates
       = [JInt 1; JInt 2; JInt 3]
    /\ Forall on_the_map coordinates.
Proof.
  destruct (_extract_coordinates sample_runtime
              (sample_sitreps ++ [[("id", JInt 4); ("lat", JFloat 95);
                                   ("lon", JFloat 20)]]))
    as [coordinates|] eqn:E; [|vm_compute in E; discriminate].
  exists coordinates. split; [reflexivity|].
  destruct (extract_coordinates_on_the_map _ _ _ E) as [_ Hall].
  split.
  - assert (H : Ok coordinates
                = _extract_coordinates sample_runtime
                    (sample_sitreps ++ [[("id", JInt 4); ("lat", JFloat 95);
                                         ("lon", JFloat 20)]]))
      by (symmetry; exact E).
    vm_compute in H. injection H as ->. reflexivity.
  - apply List.Forall_forall. intros c Hc. apply (Hall c Hc).
Defined.


(** ** The conversations of the chatbot *)

Lemma strongly_sorted_rev {A} (R : A -> A -> Prop) (l : list A) :
  StronglySorted R l -> StronglySorted (fun a b => R b a) (rev l).
Proof.
  induction 1 as [|x l Hs IH Hall]; simpl; [constructor|].
  apply StronglySorted_app_2; [|exact IH|repeat constructor].
  intros x1 x2 H1 H2. apply list_elem_of_In in H2. simpl in H2.
  destruct H2 as [<-|[]]. rewrite Forall_forall in Hall. apply Hall.
  apply list_elem_of_In. apply in_rev. apply list_elem_of_In. exact H1.
Qed.

Lemma strongly_sorted_take {A} (R : A -> A -> Prop) (n : nat) (l : list A) :
  StronglySorted R l -> StronglySorted R (take n l).
Proof.
  intros H. rewrite <- (take_drop n l) in H.
  exact (StronglySorted_app_1_l _ _ _ H).
Qed.

Lemma timestamp_desc_sorted rt rows :
  StronglySorted (not_earlier rt)
    (stable_sort (fun y x => ts_lt (timestamp_of rt x) (timestamp_of rt y))
       rows).
Proof.
  apply Sorted_StronglySorted.
  - intros a b c. unfold not_earlier. apply ts_lt_false_trans.
  - apply (stable_sort_sorted
             (fun y x => ts_lt (timestamp_of rt x) (timestamp_of rt y))).
    intros a b. apply ts_lt_asym.
Qed.

Lemma filter_filter_negb {A} (p : A -> bool) (l : list A) :
  List.filter p (List.filter (fun x => negb (p x)) l) = [].
Proof.
  induction l as [|x l IH]; simpl; [reflexivity|].
  destruct (p x) eqn:E; simpl; [exact IH|]. rewrite E. exact IH.
Qed.

(** X22. The history of a session is made of rows of that session, at
    most [limit] of them, the oldest first; a row of the session that is
    left out is not newer than any row of the history.
    [get_recent_conversations] gives the same exchanges, reduced to
    the message and the response; and once the history of the session
    is cleared, it is empty. *)
Theorem get_conversation_history_newest
    (rt : runtime) (table : option (list dict)) (session_id : string)
    (limit : nat) (history : list dict) :
  get_conversation_history rt table session_id limit = Ok history ->
  exists t,
    table = Some t
    /\ (length history <= limit)%nat
    /\ (forall r, In r history ->
          In r t /\ Dict.get r "session_id" = Some (JStr session_id))
    /\ StronglySorted (fun a b => not_earlier rt b a) history
    /\ (forall a b,
          In a history -> In b t ->
          text_is "session_id" session_id b = true ->
          ~ In b history ->
          not_earlier rt a b)
    /\ get_recent_conversations rt table session_id limit
       = Ok (map (select_columns ["user_message"; "bot_response"]) history)
    /\ forall cleared answer,
         clear_conversation_history table session_id = Ok (cleared, answer) ->
         get_conversation_history rt (Some cleared) session_id limit = Ok [].
Proof.
  unfold get_conversation_history, get_recent_conversations,
    clear_conversation_history.
  destruct table as [t|]; [|discriminate].
  intros [= <-]. exists t. split; [reflexivity|]. unfold session_query.
  set (sorted := stable_sort _ (List.filter _ t)).
  assert (Hsorted : StronglySorted (not_earlier rt) sorted)
    by apply timestamp_desc_sorted.
  assert (Hin : forall r, In r sorted <->
                          In r t /\ text_is "session_id" session_id r = true).
  { intros r. unfold sorted. rewrite stable_sort_In. apply filter_In. }
  assert (Htake : forall r, In r (take limit sorted) -> In r sorted).
  { intros r Hr. rewrite <- (take_drop limit sorted).
    apply in_or_app. left. exact Hr. }
  split; [rewrite length_rev, length_take; lia|].
  split; [|split; [|split; [|split]]].
  - intros r Hr. apply in_rev in Hr. apply Htake, Hin in Hr.
    destruct Hr as [Hr Hs]. split; [exact Hr|]. apply text_is_get. exact Hs.
  - apply strongly_sorted_rev, strongly_sorted_take. exact Hsorted.
  - intros a b Ha Hb Hs Hout. apply in_rev in Ha.
    apply (sorted_take_drop _ limit sorted); auto.
    apply in_sorted_not_in_take; [apply Hin; auto|].
    intros Hb'. apply Hout. apply in_rev in Hb'. exact Hb'.
  - rewrite map_rev. reflexivity.
  - intros cleared answer [= <- _].
    rewrite filter_filter_negb. simpl. rewrite take_nil. reflexivity.
Qed.

Lemma get_conversation_history_newest_witness :
  exists history,
    get_conversation_history sample_runtime (Some sample_conversations)
      "s1" 2 = Ok history
    /\ map (fun r => Dict.get_none r "user_message") history
       = [JStr "second"; JStr "third"]
    /\ get_recent_conversations sample_runtime (Some sample_conversations)
         "s1" 2
       = Ok [[("user_message", JStr "second"); ("bot_response", JStr "a2")];
             [("user_message", JStr "third"); ("bot_response", JStr "a3")]].
Proof.
  destruct (get_conversation_history sample_runtime
              (Some sample_conversations) "s1" 2) as [history|] eqn:E;
    [|vm_compute in E; discriminate].
  exists history. split; [reflexivity|].
  destruct (get_conversation_history_newest _ _ _ _ _ E)
    as (t & _ & _ & _ & _ & _ & Hrecent & _).
  assert (H : Ok history
              = get_conversation_history sample_runtime
                  (Some sample_conversations) "s1" 2)
    by (symmetry; exact E).
  vm_compute in H. injection H as ->.
  split; [reflexivity|]. rewrite Hrecent. reflexivity.
Defined.

(** ** A random question *)

Lemma prefix_app_drop (sep s : string) :
  String.prefix sep s = true -> s = sep +:+ str_drop (String.length sep) s.
Proof.
  revert s. induction sep as [|a sep IH]; intros [|b s]; simpl;
    try reflexivity; try discriminate.
  destruct (ascii_dec a b) as [->|]; [|discriminate].
  intros H. change (String b s = String b (sep +:+ str_drop (String.length sep) s)).
  f_equal. apply IH. exact H.
Qed.

Lemma prefix_app (sep rest : string) : String.prefix sep (sep +:+ rest) = true.
Proof.
  induction sep as [|a sep IH]; simpl; [destruct rest; reflexivity|].
  destruct (ascii_dec a a); [exact IH|congruence].
Qed.

Lemma str_take_nil (n : nat) : Str.take n "" = "".
Proof. destruct n; reflexivity. Qed.

Lemma str_take_cons (n : nat) c s :
  Str.take (S n) (String c s) = String c (Str.take n s).
Proof. reflexivity. Qed.

Lemma prefix_take (sep : string) : forall (m : nat) (s : string),
  String.prefix sep (Str.take m s) = true ->
  String.prefix sep s = true /\ (String.length sep <= m)%nat.
Proof.
  induction sep as [|a sep IH]; intros m s.
  - intros _. split; [destruct s; reflexivity|simpl; lia].
  - destruct m as [|m], s as [|b s];
      try (rewrite str_take_nil; simpl; discriminate);
      try (unfold Str.take; simpl; discriminate).
    rewrite str_take_cons. simpl.
    destruct (ascii_dec a b); [|discriminate].
    intros H. destruct (IH _ _ H). split; [assumption|lia].
Qed.

Lemma contains_app (before sep rest : string) :
  Str.contains (before +:+ sep +:+ rest) sep = true.
Proof.
  induction before as [|c before IH].
  - change (Str.contains (sep +:+ rest) sep = true).
    destruct sep as [|a sep]; [destruct rest; reflexivity|].
    pose proof (prefix_app (String a sep) rest) as P.
    change (String a sep +:+ rest) with (String a (sep +:+ rest)) in *.
    cbn [Str.contains]. rewrite P. reflexivity.
  - change (String c before +:+ sep +:+ rest)
      with (String c (before +:+ sep +:+ rest)).
    cbn [Str.contains]. rewrite IH. apply orb_true_r.
Qed.

Lemma split_once_found (sep : string) : sep <> "" ->
  forall (s : string) (n : nat),
    Str.contains (Str.take n s) sep = true ->
    exists before rest,
      split_once sep s = [before; rest]
      /\ s = before +:+ sep +:+ rest
      /\ (String.length before + String.length sep <= n)%nat.
Proof.
  intros Hsep.
  assert (Hempty : Str.contains "" sep = false).
  { destruct sep; [congruence|reflexivity]. }
  induction s as [|c s IH]; intros n.
  - rewrite str_take_nil, Hempty. discriminate.
  - destruct n as [|n].
    + change (Str.take 0 (String c s)) with "". rewrite Hempty. discriminate.
    + rewrite str_take_cons. cbn [Str.contains]. rewrite <- str_take_cons.
      intros H. cbn [split_once].
      assert (Hlen : (String.length sep <= S n)%nat).
      { apply orb_true_iff in H. destruct H as [H|H].
        - apply prefix_take in H. tauto.
        - destruct (IH _ H) as (b & r & _ & _ & Hl). lia. }
      destruct (String.prefix sep (String c s)) eqn:P.
      * exists "", (str_drop (String.length sep) (String c s)).
        split; [reflexivity|]. split; [|simpl; lia].
        apply prefix_app_drop. exact P.
      * apply orb_true_iff in H. destruct H as [H|H].
        -- apply prefix_take in H. destruct H. congruence.
        -- destruct (IH _ H) as (b & r & -> & Hs & Hl).
           exists (String c b), r. split; [reflexivity|].
           split; [|simpl; lia].
           change (String c s = String c (b +:+ sep +:+ r)). congruence.
Qed.

Lemma question_of_spec (line : string) :
  exists o,
    question_of line = Ok o /\ forall q, o = Some q -> numbered line q.
Proof.
  unfold question_of, numbered. set (l := Str.strip line).
  destruct (negb (String.eqb l "") && (3 <? String.length l)%nat
            && match l with
               | String c _ => isdigit c
               | EmptyString => false
               end
            && Str.contains (Str.take 5 l) ". ") eqn:C;
    [|exists None; split; [reflexivity|discriminate]].
  apply andb_true_iff in C. destruct C as [C Hc].
  apply andb_true_iff in C. destruct C as [_ Hd].
  destruct (split_once_found ". " ltac:(discriminate) l 5 Hc)
    as (before & rest & Hsplit & Hl & Hlen).
  assert (Hin : Str.contains l ". " = true)
    by (rewrite Hl; apply contains_app).
  rewrite Hin, Hsplit. exists (Some rest). split; [reflexivity|].
  intros q [= <-].
  destruct before as [|c number].
  - rewrite Hl in Hd. cbn in Hd. vm_compute in Hd. discriminate.
  - exists c, number. rewrite Hl in Hd. simpl in Hd, Hlen.
    split; [exact Hd|]. split; [lia|exact Hl].
Qed.

Lemma questions_of_spec (lines : list string) :
  exists questions,
    questions_of lines = Ok questions
    /\ forall q, In q questions -> exists line, In line lines /\ numbered line q.
Proof.
  induction lines as [|line rest IH].
  - exists []. split; [reflexivity|]. intros q [].
  - destruct (question_of_spec line) as (o & Ho & Hq).
    destruct IH as (qs & Hqs & Hin).
    exists (match o with Some t => t :: qs | None => qs end).
    simpl. rewrite Ho, Hqs. split; [reflexivity|].
    assert (Hrest : forall q, In q qs ->
              exists l, (line = l \/ In l rest) /\ numbered l q).
    { intros q Hq'. destruct (Hin q Hq') as (l & Hl & Hn).
      exists l. auto. }
    destruct o as [t|]; [|exact Hrest].
    intros q [<-|Hq']; [|exact (Hrest q Hq')].
    exists line. split; [left; reflexivity|]. apply Hq. reflexivity.
Qed.

(** X23. Reading the questions from a file that could be read never
    fails. Every question found is the rest of a line, stripped of the
    white space around it, after a number of one to three characters
    that starts with a digit and after a period and a blank; the
    branch that would hand out a whole line is never taken. Without
    questions the answer is 404, and otherwise it is 200 with one of the
    questions found and with their number. *)
Theorem api_random_question_outcome (e : env) (content : string) (pick : nat) :
  exists questions,
    questions_of (Str.split "010" content) = Ok questions
    /\ (forall q, In q questions ->
          exists line, In line (Str.split "010" content) /\ numbered line q)
    /\ (questions = [] ->
        api_random_question e (Some (Some content)) pick
        = Response (error_body "No questions found in file") 404)
    /\ (questions <> [] ->
        exists q,
          In q questions
          /\ api_random_question e (Some (Some content)) pick
             = Response
                 (JObj [("status", JStr "success");
                        ("question", JStr q);
                        ("total_questions",
                         JInt (Z.of_nat (length questions)))])
                 200).
Proof.
  destruct (questions_of_spec (Str.split "010" content))
    as (questions & Hqs & Hin).
  exists questions. split; [exact Hqs|]. split; [exact Hin|].
  unfold api_random_question. rewrite Hqs. split.
  - intros ->. reflexivity.
  - intros Hne. destruct questions as [|q0 qs]; [congruence|].
    exists (nth (Nat.modulo pick (length (q0 :: qs))) (q0 :: qs) "").
    split; [|reflexivity].
    apply nth_In. apply Nat.mod_upper_bound. simpl. lia.
Qed.

Lemma api_random_question_outcome_example :
  let content :=
    "Questions" +:+ String "010" "" +:+ "1. Where is the convoy?"
    +:+ String "010" "" +:+ " 12. Who reported it?  "
    +:+ String "010" "" +:+ "Note 3. Not a question" in
  api_random_question (sample_env StorageUp DbUp) (Some (Some content)) 3
  = Response
      (JObj [("status", JStr "success");
             ("question", JStr "Who reported it?");
             ("total_questions", JInt 2)])
      200.
Proof. vm_compute. reflexivity. Qed.

(** ** The streamed completion *)

Lemma string_app_assoc (a b c : string) : (a +:+ b) +:+ c = a +:+ (b +:+ c).
Proof.
  induction a as [|x a IH]; [reflexivity|].
  change (String x ((a +:+ b) +:+ c) = String x (a +:+ (b +:+ c))).
  rewrite IH. reflexivity.
Qed.

Lemma string_app_nonempty (c d : string) : c <> "" -> c +:+ d <> "".
Proof. destruct c; [congruence|discriminate]. Qed.

Lemma extends_trans (a b c : string) : extends a b -> extends b c -> extends a c.
Proof.
  intros (x & Hx & ->) (y & Hy & ->). exists (x +:+ y).
  split; [apply string_app_nonempty; exact Hx|apply string_app_assoc].
Qed.

Lemma data_step_chunk data s : data_step data = Ok (StepChunk s) -> s <> "".
Proof.
  unfold data_step.
  destruct (has_choices data) as [found|]; simpl; [|discriminate].
  destruct found; simpl; [|discriminate].
  destruct (choices_of data) as [choices|]; simpl; [|discriminate].
  destruct (py_len choices) as [n|]; simpl; [|discriminate].
  destruct (0 <? n); simpl; [|discriminate].
  destruct (first_of choices) as [first|]; simpl; [|discriminate].
  destruct (get_of first "delta" (JObj [])) as [delta|]; simpl; [|discriminate].
  destruct (get_of delta "content" (JStr "")) as [content|]; simpl;
    [|discriminate].
  destruct (truthy content) eqn:T; simpl; [|discriminate].
  destruct content; try discriminate. intros [= <-].
  simpl in T. intros ->. discriminate.
Qed.

Lemma line_step_chunk rt line s : line_step rt line = StepChunk s -> s <> "".
Proof.
  unfold line_step. destruct line as [text|]; [|discriminate].
  destruct (String.eqb text ""); [discriminate|].
  destruct (negb _); [discriminate|].
  destruct (String.eqb _ "[DONE]"); [discriminate|].
  destruct (json_loads rt _) as [data|]; [|discriminate].
  destruct (data_step data) as [step|] eqn:D; [|discriminate].
  intros ->. exact (data_step_chunk _ _ D).
Qed.

Lemma last_cons {A} (x d : A) (l : list A) : List.last (x :: l) d = List.last l x.
Proof.
  revert x d. induction l as [|y l IH]; intros x d; [reflexivity|].
  change (List.last (x :: y :: l) d) with (List.last (y :: l) d).
  rewrite (IH y d), (IH y x). reflexivity.
Qed.

Lemma stream_lines_spec rt lines : forall full partials final,
  stream_lines rt lines full = (partials, final) ->
  (forall p, In p partials -> extends full p)
  /\ StronglySorted extends partials
  /\ forall text, final = Some text -> text = List.last partials full.
Proof.
  induction lines as [|line rest IH]; intros full partials final;
    cbn [stream_lines].
  - intros [= <- <-]. repeat split; [intros p []|constructor|].
    intros text [= <-]. reflexivity.
  - destruct (line_step rt line) as [| |content|] eqn:L.
    + apply IH.
    + intros [= <- <-]. repeat split; [intros p []|constructor|].
      intros text [= <-]. reflexivity.
    + destruct (stream_lines rt rest (full +:+ content)) as [ps fin] eqn:S.
      intros [= <- <-]. destruct (IH _ _ _ S) as (Hext & Hsorted & Hlast).
      assert (Hfirst : extends full (full +:+ content)).
      { exists content. split; [exact (line_step_chunk _ _ _ L)|reflexivity]. }
      split; [|split].
      * intros p [<-|Hp]; [exact Hfirst|].
        apply (extends_trans _ _ _ Hfirst). apply Hext. exact Hp.
      * constructor; [exact Hsorted|].
        apply List.Forall_forall. exact Hext.
      * intros text Ht. rewrite last_cons. apply Hlast. exact Ht.
    + intros [= <- <-]. repeat split; [intros p []|constructor|].
      discriminate.
Qed.

Lemma stream_lines_done rt pre d post : forall full,
  line_step rt d = StepDone ->
  stream_lines rt (pre ++ d :: post) full = stream_lines rt (pre ++ [d]) full.
Proof.
  intros full Hd. revert full.
  induction pre as [|line pre IH]; intros full; cbn [app stream_lines].
  - rewrite Hd. reflexivity.
  - destruct (line_step rt line); try reflexivity; [apply IH|].
    rewrite IH. reflexivity.
Qed.

Lemma chunk_texts_map (partials : list string) :
  chunk_texts (map ChunkEvent partials) = partials.
Proof.
  unfold chunk_texts. induction partials as [|p l IH]; [reflexivity|].
  simpl in *. f_equal. exact IH.
Qed.

Lemma chunk_texts_error (partials : list string) msg :
  chunk_texts (map ChunkEvent partials ++ [ErrorEvent msg]) = partials.
Proof.
  unfold chunk_texts. induction partials as [|p l IH]; [reflexivity|].
  simpl in *. f_equal. exact IH.
Qed.

(** X24. While a completion is streamed, every partial response handed
    to the callback is the one before it with something added at the
    end, so none is empty and none is sent twice; when the stream ends
    without an exception, the text returned is the last partial
    response (the empty text when there was none). The text returned
    does not depend on whether a callback was given, and the lines
    behind the line that says [DONE] have no effect. *)
Theorem chat_completion_stream_partials
    (rt : runtime) (e : env) (client : string) (lines : list (option string)) :
  let out := chat_completion_stream rt e client (Some lines) true in
  StronglySorted extends (chunk_texts (fst out))
  /\ (forall p, In p (chunk_texts (fst out)) -> p <> "")
  /\ ((forall msg, ~ In (ErrorEvent msg) (fst out)) ->
      snd out = List.last (chunk_texts (fst out)) "")
  /\ chat_completion_stream rt e client (Some lines) false = ([], snd out)
  /\ forall pre d post callback,
       lines = pre ++ d :: post -> line_step rt d = StepDone ->
       chat_completion_stream rt e client (Some lines) callback
       = chat_completion_stream rt e client (Some (pre ++ [d])) callback.
Proof.
  cbv zeta. unfold chat_completion_stream.
  destruct (stream_lines rt lines "") as [partials final] eqn:S.
  destruct (stream_lines_spec _ _ _ _ _ S) as (Hext & Hsorted & Hlast).
  assert (Hne : forall p, In p partials -> p <> "").
  { intros p Hp. destruct (Hext p Hp) as (c & Hc & ->). exact Hc. }
  destruct final as [text|]; cbn [fst snd].
  - rewrite chunk_texts_map.
    split; [exact Hsorted|]. split; [exact Hne|].
    split; [intros _; apply Hlast; reflexivity|].
    split; [reflexivity|].
    intros pre d post callback -> Hd.
    rewrite <- (stream_lines_done rt pre d post "" Hd), S. reflexivity.
  - rewrite chunk_texts_error.
    split; [exact Hsorted|]. split; [exact Hne|].
    split.
    + intros Hno. exfalso. eapply Hno. apply in_or_app. right. left.
      reflexivity.
    + split; [reflexivity|].
      intros pre d post callback -> Hd.
      rewrite <- (stream_lines_done rt pre d post "" Hd), S. reflexivity.
Qed.

Lemma chat_completion_stream_example :
  let e := sample_env StorageUp DbUp in
  chat_completion_stream sample_runtime e "OpenRouter"
    (Some [Some ""; Some "event: ping"; Some "data: 42"]) true
  = ([ErrorEvent "Error communicating with OpenRouter: unavailable"],
     "Error communicating with OpenRouter: unavailable")
  /\ chat_completion_stream sample_runtime e "OpenRouter"
       (Some [Some "data: not json"; Some "data: [DONE] "; Some "data: 42"])
       true
     = ([], "").
Proof. split; vm_compute; reflexivity. Qed.

(** ** The filters that the endpoints build from the query *)

Lemma given_given (o : option string) : given (given o) = given o.
Proof.
  destruct o as [s|]; simpl; [|reflexivity].
  destruct (String.eqb s "") eqn:E; simpl; [reflexivity|].
  rewrite E. reflexivity.
Qed.

Lemma or_arg_none_r (a : option string) : given (or_arg a None) = given a.
Proof.
  unfold or_arg. destruct (given a) as [s|] eqn:E; [|reflexivity].
  rewrite <- E. apply given_given.
Qed.

Lemma or_arg_none_l (b : option string) : or_arg None b = b.
Proof. reflexivity. Qed.

Lemma full_day_of_day (o : option string) v suffix :
  day_only o -> given o = Some v -> full_day v suffix = v +:+ suffix.
Proof. intros Hd Hv. unfold full_day. rewrite (Hd v Hv). reflexivity. Qed.

(** X25. For a query that uses the names of the dashboard (fromDate,
    toDate, sources, rangeDays) with days, not timestamps, as dates, the
    statistics, the insights and the GeoJSON view ask the store with the
    same filters, and the heat map with the same dates; a from date that
    is given starts at its midnight, whatever rangeDays says. The plain
    listing knows none of these names and applies no filter. *)
Theorem dashboard_filters_agree
    (range_cutoff : string -> option string) (q : query) :
  dashboard_query q -> day_only (q "fromDate") -> day_only (q "toDate") ->
  stats_filters range_cutoff q = insights_filters range_cutoff q
  /\ geojson_filters range_cutoff (geojson_args_of q)
     = insights_filters range_cutoff q
  /\ from_date (heatmap_filters range_cutoff q)
     = from_date (insights_filters range_cutoff q)
  /\ to_date (heatmap_filters range_cutoff q)
     = to_date (insights_filters range_cutoff q)
  /\ (forall v, given (q "fromDate") = Some v ->
        from_date (insights_filters range_cutoff q)
        = Some (v +:+ "T00:00:00Z"))
  /\ sitreps_filters q = no_filters.
Proof.
  intros (H1 & H2 & H3 & H4 & H5) Hfrom Hto.
  unfold stats_filters, insights_filters, heatmap_filters, geojson_filters,
    geojson_args_of, sitreps_filters, ranged.
  cbn [a_from_date a_fromDate a_to_date a_toDate a_source_category a_sources
       a_rangeDays from_date to_date].
  rewrite ?H1, ?H2, ?H3, ?H4, ?H5.
  rewrite ?or_arg_none_l, ?or_arg_none_r, ?given_given.
  destruct (given (q "fromDate")) as [vf|] eqn:Ef;
    destruct (given (q "toDate")) as [vt|] eqn:Et;
    rewrite ?(full_day_of_day _ _ _ Hfrom Ef), ?(full_day_of_day _ _ _ Hto Et);
    repeat split; try reflexivity;
    try (destruct (given (q "rangeDays")); reflexivity);
    try (intros v [= <-]; reflexivity); try discriminate.
Qed.

Lemma dashboard_filters_agree_witness :
  let q : query := fun name =>
    if String.eqb name "fromDate" then Some "2024-01-01"
    else if String.eqb name "rangeDays" then Some "7"
    else if String.eqb name "sources" then Some "Own, NGO"
    else None in
  let cutoff : string -> option string := fun _ => Some "2023-12-29T12:00:00Z" in
  stats_filters cutoff q
  = Filters (Some "2024-01-01T00:00:00Z") None (Some "Own, NGO")
  /\ geojson_filters cutoff (geojson_args_of q) = stats_filters cutoff q
  /\ heatmap_filters cutoff q
     = Filters (Some "2024-01-01T00:00:00Z") None (Some "own,ngo").
Proof.
  intros q cutoff.
  destruct (dashboard_filters_agree cutoff q) as (Hs & Hg & _).
  - repeat split; reflexivity.
  - intros v [= <-]. reflexivity.
  - intros v H. discriminate.
  - split; [reflexivity|]. split; [|reflexivity].
    rewrite Hg, Hs. reflexivity.
Defined.

(** ** Layers: listing the local directory *)

(** No [.geojson] starts inside [r] and ends inside a [.geojson] put
    after it: the text has its only period in front. *)
Lemma no_straddle (r : string) :
  String.prefix ".geojson" (r +:+ ".geojson") = true ->
  r = "" \/ String.prefix ".geojson" r = true.
Proof.
  intros H.
  destruct r as [|c1 r]; [left; reflexivity|right].
  repeat (
    change (String ?c ?r +:+ ?s) with (String c (r +:+ s)) in H;
    match type of H with
    | String.prefix _ (String ?c (?r +:+ _)) = true =>
        cbn [String.prefix] in H |- *;
        destruct (ascii_dec _ c) as [<-|]; [|discriminate];
        destruct r as [|? r];
        [vm_compute in H; discriminate|]
    end).
  change (String ?c ?r +:+ ?s) with (String c (r +:+ s)) in H.
  cbn [String.prefix] in H |- *.
  destruct (ascii_dec _ _) as [<-|]; [|discriminate].
  destruct r; reflexivity.
Qed.

Lemma remove_sub_suffix (n : string) :
  Str.contains n ".geojson" = false ->
  StrMore.remove_sub ".geojson" 0 (n +:+ ".geojson") = n.
Proof.
  induction n as [|c n IH].
  - intros _. vm_compute. reflexivity.
  - cbn [Str.contains]. intros H. apply orb_false_iff in H.
    destruct H as [Hp Hc].
    change (String c n +:+ ".geojson") with (String c (n +:+ ".geojson")).
    cbn [StrMore.remove_sub].
    destruct (String.prefix ".geojson" (String c (n +:+ ".geojson"))) eqn:P.
    + change (String c (n +:+ ".geojson")) with (String c n +:+ ".geojson") in P.
      apply no_straddle in P. destruct P as [P|P]; congruence.
    + rewrite (IH Hc). reflexivity.
Qed.

Lemma listdir_in (w : world) name f :
  w_files w !! name = Some f -> In name (listdir w).
Proof.
  intros H. unfold listdir. apply in_map_iff. exists (name, f).
  split; [reflexivity|]. apply list_elem_of_In.
  apply elem_of_map_to_list. exact H.
Qed.

(** X26. When the bucket cannot be listed, [list_layers] answers from
    the local directory, and a layer that has a file there is listed
    under its own name, provided the name holds no [.geojson]: the
    name is then the one under which [get_geojson] finds the file. *)
Theorem local_layer_is_listed
    (e : env) (w : world) (layer : string) (listing : option (list dict))
    (f : file) (msg : string) :
  Str.contains layer ".geojson" = false ->
  w_files w !! layer_path layer = Some f ->
  list_layers_in_bucket e listing = error_dict msg ->
  exists names,
    list_layers e listing (listdir w) = Response (JArr (map JStr names)) 200
    /\ In layer names
    /\ forall n, In n names ->
         exists name, In name (listdir w)
                      /\ StrMore.endswith name ".geojson" = true
                      /\ n = StrMore.remove_sub ".geojson" 0 name.
Proof.
  intros Hname Hfile Hbucket.
  exists (local_layers (listdir w)).
  unfold list_layers. rewrite Hbucket. cbn [truthy Dict.get_none Dict.get
    error_dict String.eqb Ascii.eqb Bool.eqb].
  split; [reflexivity|]. unfold local_layers. split.
  - apply in_map_iff. exists (layer_path layer). split.
    + apply remove_sub_suffix. exact Hname.
    + apply filter_In. split; [exact (listdir_in _ _ _ Hfile)|].
      apply endswith_spec. exists layer. reflexivity.
  - intros n Hn. apply in_map_iff in Hn. destruct Hn as (name & <- & Hin).
    apply filter_In in Hin. destruct Hin as [Hin Hend].
    exists name. auto.
Qed.

Lemma local_layer_is_listed_witness :
  let e := sample_env StorageDown DbUp in
  let w := set_files sample_world {[ "roads.geojson" := Doc sample_layer ]} in
  list_layers e None (listdir w) = Response (JArr [JStr "roads"]) 200
  /\ exists names,
       list_layers e None (listdir w) = Response (JArr (map JStr names)) 200
       /\ In "roads" names.
Proof.
  intros e w. split; [reflexivity|].
  destruct (local_layer_is_listed e w "roads" None (Doc sample_layer)
              "List failed: unavailable") as (names & Hl & Hin & _);
    try reflexivity.
  exists names. split; assumption.
Defined.

(** A file whose layer name holds [.geojson] is listed under another
    name, under which no file is found. *)
Lemma local_layer_listed_under_other_name :
  let e := sample_env StorageDown DbUp in
  let w := fst (update_layer e sample_world "x.geojson"
                  (Some [("features", JArr [])])) in
  http (get_geojson e w "x.geojson") = 200
  /\ list_layers e None (listdir w) = Response (JArr [JStr "x"]) 200
  /\ http (get_geojson e w "x") = 404.
Proof. repeat split; vm_compute; reflexivity. Qed.

(** ** Deleting by title: what happens in the SQLite table *)

Lemma filter_split_length {A} (p : A -> bool) (l : list A) :
  (length (List.filter p l) + length (List.filter (fun x => negb (p x)) l)
   = length l)%nat.
Proof.
  induction l as [|x l IH]; simpl; [reflexivity|].
  destruct (p x); simpl; lia.
Qed.

(** X27. A delete by title that answers "deleted" worked on the table
    of the SQLite database at [DB_PATH]: the count is the number of rows
    that left that table, the rows that stay are exactly those whose
    title is none of the stripped, non-empty titles of the request (a
    row without a title stays), and the hosted table is untouched. *)
Theorem api_sitreps_delete_removes
    (rt : runtime) (e : env) (w w' : world) (req : option dict) (n : Z) :
  api_sitreps_delete rt e w req
  = (w', Response (JObj [("status", JStr "deleted"); ("count", JInt n)]) 200) ->
  exists rows rows' requested titles,
    Dict.get (match req with Some d => d | None => [] end) "titles"
    = Some (JArr requested)
    /\ titles
       = List.filter (fun s => negb (String.eqb s ""))
           (map (fun x => Str.strip (py_str rt x)) requested)
    /\ titles <> []
    /\ w_sqlite w = Some rows /\ w_sqlite w' = Some rows'
    /\ n = Z.of_nat (length rows) - Z.of_nat (length rows')
    /\ (forall r, In r rows' <-> In r rows /\ title_in titles r = false)
    /\ w_table w' = w_table w.
Proof.
  unfold api_sitreps_delete. cbv zeta.
  set (data := match req with Some d => d | None => [] end).
  unfold py_or, Dict.get_none.
  destruct (Dict.get data "titles") as [v|] eqn:Hget;
    [|simpl; intros [= _ H]; discriminate].
  destruct (truthy v) eqn:Tv; [|simpl; intros [= _ H]; discriminate].
  destruct v as [| | | | |[|t ts]|]; try (intros [= _ H]; discriminate).
  set (titles := List.filter (fun s => negb (String.eqb s ""))
                   (map (fun x => Str.strip (py_str rt x)) (t :: ts))).
  destruct titles as [|t0 titles0] eqn:Ht; [intros [= _ H]; discriminate|].
  destruct (w_sqlite w) as [rows|] eqn:Hs; [|intros [= _ H]; discriminate].
  intros [= <- <-].
  exists rows, (List.filter (fun r => negb (title_in (t0 :: titles0) r)) rows),
         (t :: ts), (t0 :: titles0).
  split; [reflexivity|]. split; [symmetry; exact Ht|].
  split; [discriminate|]. split; [reflexivity|]. split; [reflexivity|].
  split; [|split; [|reflexivity]].
  - pose proof (filter_split_length (title_in (t0 :: titles0)) rows). lia.
  - intros r. rewrite filter_In, negb_true_iff. reflexivity.
Qed.

Lemma api_sitreps_delete_removes_witness :
  let e := sample_env StorageUp DbUp in
  let w := set_sqlite sample_world (Some sample_titled) in
  let req := Some [("titles", JArr [JStr " Patrol report "; JStr "  "])] in
  exists w' rows',
    api_sitreps_delete sample_runtime e w req
    = (w', Response (JObj [("status", JStr "deleted"); ("count", JInt 2)]) 200)
    /\ w_sqlite w' = Some rows'
    /\ length rows' = 1%nat
    /\ w_table w' = sample_titled.
Proof.
  intros e w req.
  exists (fst (api_sitreps_delete sample_runtime e w req)).
  assert (H : api_sitreps_delete sample_runtime e w req
              = (fst (api_sitreps_delete sample_runtime e w req),
                 Response (JObj [("status", JStr "deleted");
                                 ("count", JInt 2)]) 200))
    by reflexivity.
  destruct (api_sitreps_delete_removes sample_runtime e w _ req 2 H)
    as (rows & rows' & requested & titles & _ & _ & _ & Hs & Hs' & Hn & _ & Ht).
  exists rows'. split; [exact H|]. split; [exact Hs'|].
  split; [|exact Ht].
  injection Hs as <-. simpl in Hn. lia.
Defined.
